(** * gdb-er: the debugger-session engine (gdb_service)

    A shallow embedding of [gdb_service/native_gdb.py] (the process channel
    [NativeGDBController]) and of [gdb_service/main.py] (the session
    [GDBSession]), followed by the properties of the session engine.

    Python values are an inductive type; the objects a session mutates
    (its own fields, the controller, the descriptor table, the sockets) are
    fields of one explicit state; a coroutine is a computation in a monad
    with state, exceptions and the trace of the calls made on the two
    collaborators of a session (its transport and its process channel). *)

From Stdlib Require Import String Ascii List ZArith Lia Bool Arith.
From Stdlib Require Import DecimalString.
Import ListNotations.
Open Scope string_scope.

(* ================================================================== *)
(** ** Python values and exceptions *)

(** What [json.loads] and [pygdbmi] produce: None, booleans, integers,
    strings, lists and dictionaries (insertion-ordered, as association
    lists). *)
#[local] Set Warnings "-register-all".
Inductive value : Type :=
| VNone
| VBool (b : bool)
| VInt (z : Z)
| VStr (s : string)
| VList (l : list value)
| VDict (d : list (string * value)).

(** Python truthiness, as tested by [if x:] and [not x]. *)
Definition truthy (v : value) : bool :=
  match v with
  | VNone => false
  | VBool b => b
  | VInt z => negb (z =? 0)%Z
  | VStr s => negb (s =? "")
  | VList l => match l with [] => false | _ => true end
  | VDict d => match d with [] => false | _ => true end
  end.

Inductive exn_kind : Type :=
| AttributeError | KeyError | TypeError | OSError | FileNotFoundError
| OtherError.

(** An exception: its class and the text [str(e)] gives. *)
Inductive exn : Type := Exn (k : exn_kind) (msg : string).

Definition exn_str (e : exn) : string := let 'Exn _ m := e in m.

(** [except OSError] also catches its subclass [FileNotFoundError]. *)
Definition is_OSError (e : exn) : bool :=
  match e with
  | Exn OSError _ | Exn FileNotFoundError _ => true
  | _ => false
  end.

(** Pure code that may raise. *)
Definition Exc (A : Type) : Type := (exn + A)%type.

Definition type_name (v : value) : string :=
  match v with
  | VNone => "NoneType" | VBool _ => "bool" | VInt _ => "int"
  | VStr _ => "str" | VList _ => "list" | VDict _ => "dict"
  end.

Fixpoint assoc (k : string) (d : list (string * value)) : option value :=
  match d with
  | [] => None
  | (k', v) :: d' => if (k =? k') then Some v else assoc k d'
  end.

(** [v.get(k, default)]: only dictionaries have the method. *)
Definition get (v : value) (k : string) (default : value) : Exc value :=
  match v with
  | VDict d => inr (match assoc k d with Some x => x | None => default end)
  | _ => inl (Exn AttributeError
                ("'" ++ type_name v ++ "' object has no attribute 'get'"))
  end.

(** [v[k]] for a string key. *)
Definition subscript (v : value) (k : string) : Exc value :=
  match v with
  | VDict d => match assoc k d with
               | Some x => inr x
               | None => inl (Exn KeyError ("'" ++ k ++ "'"))
               end
  | _ => inl (Exn TypeError "bad subscript")
  end.

(** [k in v] for a dictionary [v]. *)
Definition has_key (k : string) (d : list (string * value)) : bool :=
  match assoc k d with Some _ => true | None => false end.

(** [v == "s"] against a string literal. *)
Definition is_str (v : value) (s : string) : bool :=
  match v with VStr s' => (s' =? s) | _ => false end.

(** [v == n] against an integer literal other than 0 and 1 (so that no
    boolean equals it). *)
Definition is_int (v : value) (n : Z) : bool :=
  match v with VInt z => (z =? n)%Z | _ => false end.

(* ------------------------------------------------------------------ *)
(** *** Strings *)

Definition nl : ascii := ascii_of_nat 10.
Definition dquote : ascii := ascii_of_nat 34.
Definition backslash : ascii := ascii_of_nat 92.
Definition NL : string := String nl EmptyString.

(** [s.replace(r'\c', r)] for a two-character pattern backslash-[c]:
    left to right, without overlap. *)
Fixpoint unescape (c r : ascii) (s : string) : string :=
  match s with
  | EmptyString => EmptyString
  | String a t =>
      match t with
      | String b t' =>
          if ((a =? backslash)%char && (b =? c)%char)%bool
          then String r (unescape c r t')
          else String a (unescape c r t)
      | EmptyString => String a EmptyString
      end
  end.

(** Whitespace removed by [str.strip()], on the ASCII range. *)
Definition is_space (a : ascii) : bool :=
  let n := nat_of_ascii a in
  ((9 <=? n)%nat && (n <=? 13)%nat || (28 <=? n)%nat && (n <=? 32)%nat)%bool.

Fixpoint lstrip (s : string) : string :=
  match s with
  | String a t => if is_space a then lstrip t else s
  | EmptyString => EmptyString
  end.

Fixpoint rev_string (s acc : string) : string :=
  match s with
  | EmptyString => acc
  | String a t => rev_string t (String a acc)
  end.

Definition strip (s : string) : string :=
  rev_string (lstrip (rev_string (lstrip s) "")) "".

(** The complete newline-terminated lines of a buffer, and what is left
    after the last newline: what the inner [while b'\n' in buffer] loop
    splits off one [buffer.split(b'\n', 1)] at a time. *)
Fixpoint split_lines (s : string) : list string * string :=
  match s with
  | EmptyString => ([], EmptyString)
  | String a t =>
      let (ls, rest) := split_lines t in
      if (a =? nl)%char then (EmptyString :: ls, rest)
      else match ls with
           | [] => ([], String a rest)
           | l :: ls' => (String a l :: ls', rest)
           end
  end.

(** The buffer that holds the lines [ls] and then [rest]. *)
Fixpoint join_lines (ls : list string) (rest : string) : string :=
  match ls with
  | [] => rest
  | l :: ls' => l ++ NL ++ join_lines ls' rest
  end.

(** [l[-n:]] for a positive [n]. *)
Definition last_n {A : Type} (n : nat) (l : list A) : list A :=
  skipn (length l - n) l.

(** [c in s], as in the test [b'\n' in buffer] of the read loop. *)
Fixpoint contains (c : ascii) (s : string) : bool :=
  match s with
  | EmptyString => false
  | String a t => ((a =? c)%char || contains c t)%bool
  end.

(** [s.strip(c)] for a single character [c]. *)
Fixpoint lstrip_char (c : ascii) (s : string) : string :=
  match s with
  | String a t => if (a =? c)%char then lstrip_char c t else s
  | EmptyString => EmptyString
  end.

Definition strip_char (c : ascii) (s : string) : string :=
  rev_string (lstrip_char c (rev_string (lstrip_char c s) "")) "".

(* ================================================================== *)
(** ** The state *)

Inductive Status : Type := Ready | Running | Paused | Exited.

Definition status_str (s : Status) : string :=
  match s with
  | Ready => "Ready" | Running => "Running"
  | Paused => "Paused" | Exited => "Exited"
  end.

(** [self.location] when it is not None: the dictionary with the keys
    [file], [line] and [func] that [on_gdb_event] builds. *)
Record Location : Type := mkLocation {
  loc_file : value;
  loc_line : value;
  loc_func : value
}.

Definition location_value (l : option Location) : value :=
  match l with
  | None => VNone
  | Some l => VDict [("file", loc_file l); ("line", loc_line l);
                     ("func", loc_func l)]
  end.

(** [NativeGDBController]'s fields: the process handle (its pid), the
    running flag and the master descriptor of the pseudo-terminal. *)
Record Controller : Type := mkController {
  process : option nat;
  running : bool;
  master_fd : option nat
}.

(** What lies outside the session and is reached through descriptors,
    processes and sockets. *)
Record World : Type := mkWorld {
  open_fds : list nat;               (* descriptors open in the engine *)
  pty_written : list (nat * string); (* os.write calls done: (fd, bytes) *)
  spawned : list (nat * list value); (* Popen calls done: (pid, argv) *)
  terminated : list nat;             (* pids asked to terminate *)
  ws_closed : list nat;              (* transports whose send raises *)
  wire : list (nat * value)          (* frames delivered: (transport, data) *)
}.

(** [GDBSession]'s fields, its controller, and the world. A transport is
    named by a number; [websocket = None] is Python's [None]. *)
Record State : Type := mkState {
  session_id : string;
  wrapper : Controller;
  status : Status;
  stack : value;
  variables : value;
  location : option Location;
  websocket : option nat;
  log_history : list value;
  world : World
}.

Definition set_wrapper (c : Controller) (st : State) : State :=
  mkState (session_id st) c (status st) (stack st) (variables st)
          (location st) (websocket st) (log_history st) (world st).
Definition set_status (s : Status) (st : State) : State :=
  mkState (session_id st) (wrapper st) s (stack st) (variables st)
          (location st) (websocket st) (log_history st) (world st).
Definition set_stack (v : value) (st : State) : State :=
  mkState (session_id st) (wrapper st) (status st) v (variables st)
          (location st) (websocket st) (log_history st) (world st).
Definition set_variables (v : value) (st : State) : State :=
  mkState (session_id st) (wrapper st) (status st) (stack st) v
          (location st) (websocket st) (log_history st) (world st).
Definition set_location (v : option Location) (st : State) : State :=
  mkState (session_id st) (wrapper st) (status st) (stack st) (variables st)
          v (websocket st) (log_history st) (world st).
Definition set_websocket (w : option nat) (st : State) : State :=
  mkState (session_id st) (wrapper st) (status st) (stack st) (variables st)
          (location st) w (log_history st) (world st).
Definition set_log_history (l : list value) (st : State) : State :=
  mkState (session_id st) (wrapper st) (status st) (stack st) (variables st)
          (location st) (websocket st) l (world st).
Definition set_world (w : World) (st : State) : State :=
  mkState (session_id st) (wrapper st) (status st) (stack st) (variables st)
          (location st) (websocket st) (log_history st) w.

Definition set_process (p : option nat) (st : State) : State :=
  set_wrapper (mkController p (running (wrapper st)) (master_fd (wrapper st))) st.
Definition set_running (b : bool) (st : State) : State :=
  set_wrapper (mkController (process (wrapper st)) b (master_fd (wrapper st))) st.
Definition set_master_fd (f : option nat) (st : State) : State :=
  set_wrapper (mkController (process (wrapper st)) (running (wrapper st)) f) st.

Definition set_open_fds (l : list nat) (st : State) : State :=
  let w := world st in
  set_world (mkWorld l (pty_written w) (spawned w) (terminated w)
                     (ws_closed w) (wire w)) st.
Definition set_pty_written (l : list (nat * string)) (st : State) : State :=
  let w := world st in
  set_world (mkWorld (open_fds w) l (spawned w) (terminated w)
                     (ws_closed w) (wire w)) st.
Definition set_spawned (l : list (nat * list value)) (st : State) : State :=
  let w := world st in
  set_world (mkWorld (open_fds w) (pty_written w) l (terminated w)
                     (ws_closed w) (wire w)) st.
Definition set_terminated (l : list nat) (st : State) : State :=
  let w := world st in
  set_world (mkWorld (open_fds w) (pty_written w) (spawned w) l
                     (ws_closed w) (wire w)) st.
Definition set_ws_closed (l : list nat) (st : State) : State :=
  let w := world st in
  set_world (mkWorld (open_fds w) (pty_written w) (spawned w) (terminated w)
                     l (wire w)) st.
Definition set_wire (l : list (nat * value)) (st : State) : State :=
  let w := world st in
  set_world (mkWorld (open_fds w) (pty_written w) (spawned w) (terminated w)
                     (ws_closed w) l) st.

Definition mem_nat (n : nat) (l : list nat) : bool := existsb (Nat.eqb n) l.

(** [if self.master_fd:] is false for [None] and for descriptor 0. *)
Definition fd_truthy (f : option nat) : bool :=
  match f with Some (S _) => true | _ => false end.

(* ================================================================== *)
(** ** Coroutines: state, exceptions and the trace of calls *)

(** The calls a session makes on its collaborators, in program order:
    [send_json(data)] towards the transport and [wrapper.write(cmd)]
    towards the process channel. The trace records that the call was made,
    whatever the callee then does with it. *)
Inductive Call : Type :=
| CSend (data : value)
| CWrite (cmd : string).

Record Run (A : Type) : Type := mkRun {
  r_res : Exc A;
  r_state : State;
  r_trace : list Call
}.
Arguments mkRun {A} _ _ _.
Arguments r_res {A} _.
Arguments r_state {A} _.
Arguments r_trace {A} _.

Definition M (A : Type) : Type := State -> Run A.

Definition ret {A : Type} (a : A) : M A := fun st => mkRun (inr a) st [].

Definition raise {A : Type} (e : exn) : M A := fun st => mkRun (inl e) st [].

Definition bind {A B : Type} (m : M A) (f : A -> M B) : M B := fun st =>
  let r := m st in
  match r_res r with
  | inl e => mkRun (inl e) (r_state r) (r_trace r)
  | inr a => let r' := f a (r_state r) in
             mkRun (r_res r') (r_state r') (r_trace r ++ r_trace r')
  end.

(** [try: m  except Exception as e: h e]; the state changes [m] made before
    it raised stay. *)
Definition try_catch {A : Type} (m : M A) (h : exn -> M A) : M A := fun st =>
  let r := m st in
  match r_res r with
  | inl e => let r' := h e (r_state r) in
             mkRun (r_res r') (r_state r') (r_trace r ++ r_trace r')
  | inr a => r
  end.

Definition lift {A : Type} (x : Exc A) : M A :=
  match x with inl e => raise e | inr a => ret a end.

Definition read {A : Type} (f : State -> A) : M A :=
  fun st => mkRun (inr (f st)) st [].

Definition modify (f : State -> State) : M unit :=
  fun st => mkRun (inr tt) (f st) [].

Definition called (c : Call) : M unit :=
  fun st => mkRun (inr tt) st [c].

Declare Scope py_scope.
Delimit Scope py_scope with py.
Notation "x <- m ;; k" := (bind m (fun x => k))
  (at level 61, m at next level, right associativity) : py_scope.
Notation "m ;; k" := (bind m (fun _ => k))
  (at level 61, right associativity) : py_scope.
Open Scope py_scope.

(** [for x in l: body x]. *)
Fixpoint for_each {A : Type} (l : list A) (body : A -> M unit) : M unit :=
  match l with
  | [] => ret tt
  | x :: l' => body x ;; for_each l' body
  end.

(** [try: m  finally: fin]: [fin] runs whether [m] raised or not, and the
    exception of [m], if any, goes on after it. *)
Definition try_finally {A : Type} (m : M A) (fin : M unit) : M A := fun st =>
  let r := m st in
  let r' := fin (r_state r) in
  match r_res r' with
  | inl e => mkRun (inl e) (r_state r') (r_trace r ++ r_trace r')
  | inr _ => mkRun (r_res r) (r_state r') (r_trace r ++ r_trace r')
  end.

(* ================================================================== *)
(** ** The engine *)

Section Engine.

(** What the engine calls and the repository does not define. *)

(** [repr] of a list or a dictionary, as an f-string prints it. *)
Variable py_repr : value -> string.
(** [os.path.exists(x)]. *)
Variable os_path_exists : value -> Exc bool.
(** [subprocess.Popen(argv, ...)]: the pid of the child, or the error. *)
Variable popen : list value -> Exc nat.
(** [pygdbmi.gdbmiparser.parse_response(line)]. *)
Variable parse_response : string -> Exc value.

(** [str(v)], what [f"{v}"] prints. *)
Definition py_str (v : value) : string :=
  match v with
  | VStr s => s
  | VNone => "None"
  | VBool true => "True"
  | VBool false => "False"
  | VInt z => NilZero.string_of_int (Z.to_int z)
  | _ => py_repr v
  end.

(* ------------------------------------------------------------------ *)
(** *** native_gdb.py: NativeGDBController *)

(** [NativeGDBController.__init__]. *)
Definition new_controller : Controller := mkController None true None.

(** The lowest descriptor not in use, which is the one the kernel hands
    out. *)
Fixpoint lowest_free (fuel n : nat) (used : list nat) : nat :=
  match fuel with
  | O => n
  | S fuel' => if mem_nat n used then lowest_free fuel' (S n) used else n
  end.

Definition fresh_fd (used : list nat) : nat :=
  lowest_free (length used) 0 used.

(** [os.close(fd)]. *)
Definition os_close (fd : nat) : M unit := fun st =>
  if mem_nat fd (open_fds (world st))
  then mkRun (inr tt)
         (set_open_fds (filter (fun x => negb (x =? fd)%nat)
                               (open_fds (world st))) st) []
  else mkRun (inl (Exn OSError "Bad file descriptor")) st [].

(** [os.write(fd, data)]. *)
Definition os_write (fd : nat) (data : string) : M unit := fun st =>
  if mem_nat fd (open_fds (world st))
  then mkRun (inr tt)
         (set_pty_written (pty_written (world st) ++ [(fd, data)]) st) []
  else mkRun (inl (Exn OSError "Bad file descriptor")) st [].

(** [pty.openpty()]: two new descriptors, master then slave. *)
Definition openpty : M (nat * nat) := fun st =>
  let m := fresh_fd (open_fds (world st)) in
  let s := fresh_fd (m :: open_fds (world st)) in
  mkRun (inr (m, s)) (set_open_fds (s :: m :: open_fds (world st)) st) [].

Definition gdb_argv : list value :=
  [VStr "gdb"; VStr "--nx"; VStr "--quiet"; VStr "--interpreter=mi3";
   VStr "--eval-command=set debuginfod enabled off"].

(** [NativeGDBController.start]. *)
Definition start (executable : value) : M unit :=
  fds <- openpty ;;
  let (m, slave_fd) := fds in
  modify (set_master_fd (Some m)) ;;
  cmd <- (if truthy executable then
            ex <- lift (os_path_exists executable) ;;
            if negb ex
            then raise (Exn FileNotFoundError
                            ("Binary not found: " ++ py_str executable))
            else ret (gdb_argv ++ [executable])%list
          else ret gdb_argv) ;;
  match popen cmd with
  | inr pid =>
      modify (set_process (Some pid)) ;;
      modify (fun st => set_spawned (spawned (world st) ++ [(pid, cmd)]) st) ;;
      os_close slave_fd ;;
      modify (set_running true)
  | inl e =>
      os_close slave_fd ;;
      mfd <- read (fun st => master_fd (wrapper st)) ;;
      (match mfd with
       | Some (S _ as f) => os_close f
       | _ => ret tt
       end) ;;
      raise e
  end.

(** [NativeGDBController.stop]. Terminating, waiting and killing only
    touch the child, which is recorded as asked to end. *)
Definition stop : M unit :=
  p <- read (fun st => process (wrapper st)) ;;
  (match p with
   | Some pid =>
       modify (fun st => set_terminated (terminated (world st) ++ [pid]) st) ;;
       modify (set_process None)
   | None => ret tt
   end) ;;
  mfd <- read (fun st => master_fd (wrapper st)) ;;
  (match mfd with
   | Some (S _ as f) =>
       try_catch (os_close f) (fun _ => ret tt) ;;
       modify (set_master_fd None)
   | _ => ret tt
   end) ;;
  modify (set_running false).

(** [NativeGDBController.write]. *)
Definition write (command : string) : M unit :=
  called (CWrite command) ;;
  mfd <- read (fun st => master_fd (wrapper st)) ;;
  match mfd with
  | Some (S _ as f) => os_write f (command ++ NL)
  | _ => ret tt
  end.

Definition lift_exc {A B : Type} (x : Exc A) (k : A -> Exc B) : Exc B :=
  match x with inl e => inl e | inr a => k a end.

(** The body of [_parse_line], inside its [try]. *)
Definition parse_line_body (line : string) : Exc value :=
  lift_exc (parse_response line) (fun parsed =>
  if negb (truthy parsed) then inr VNone else
  lift_exc (subscript parsed "type") (fun ty =>
  if is_str ty "console" then
    lift_exc (subscript parsed "payload") (fun content =>
    if truthy content then
      match content with
      | VStr s =>
          inr (VDict [("type", VStr "console");
                      ("payload", VStr (unescape "n" nl (unescape dquote dquote s)))])
      | _ => inl (Exn AttributeError
                    ("'" ++ type_name content ++ "' object has no attribute 'replace'"))
      end
    else inr VNone)
  else if is_str ty "notify" then
    lift_exc (subscript parsed "message") (fun message =>
    lift_exc (subscript parsed "payload") (fun payload =>
    inr (VDict [("type", VStr "notify"); ("message", message);
                ("payload", payload)])))
  else if is_str ty "result" then
    lift_exc (subscript parsed "message") (fun message =>
    lift_exc (subscript parsed "payload") (fun payload =>
    lift_exc (subscript parsed "token") (fun token =>
    let msg :=
      match payload with
      | VDict d => if has_key "stack" d then VStr "stack"
                   else if has_key "locals" d then VStr "locals"
                   else message
      | _ => message
      end in
    let res := [("type", VStr "result"); ("message", msg);
                ("payload", payload)] in
    inr (VDict (if truthy token then (res ++ [("token", token)])%list else res)))))
  else if is_str ty "output" then inr VNone
  else inr parsed)).

(** [NativeGDBController._parse_line]: any exception gives None. *)
Definition _parse_line (line : string) : value :=
  match parse_line_body line with
  | inr v => v
  | inl _ => VNone
  end.

(** The inner loop of [run_event_loop] over the complete lines of the
    buffer: each line is decoded, stripped and parsed, and a truthy result
    is handed to [on_event]. It gives back the buffer as it stands when
    the loop is left, and the exception that left it, if one did. *)
Fixpoint dispatch_lines (on_event : value -> M unit)
    (ls : list string) (rest : string) : M (string * option exn) :=
  match ls with
  | [] => ret (rest, None)
  | l :: ls' =>
      let parsed := _parse_line (strip l) in
      if truthy parsed then
        fun st =>
          let r := on_event parsed st in
          match r_res r with
          | inl e => mkRun (inr (join_lines ls' rest, Some e))
                           (r_state r) (r_trace r)
          | inr _ =>
              let r' := dispatch_lines on_event ls' rest (r_state r) in
              mkRun (r_res r') (r_state r') (r_trace r ++ r_trace r')
          end
      else dispatch_lines on_event ls' rest
  end.

(** What one [select] on the master, and the [os.read] that follows when
    it is readable, give. [Data ""] is the zero-length read. *)
Inductive Readiness : Type :=
| Timeout
| Data (chunk : string)
| ReadFails.

(** How a run of the loop over a finite script of readiness results ends:
    the coroutine returned, or it is suspended at an await (waiting for a
    descriptor, or for the next readiness result) with its buffer. *)
Inductive LoopEnd : Type :=
| Returned
| Suspended (buffer : string).

(** [NativeGDBController.run_event_loop], one iteration of the [while] for
    each readiness result of the script. A [select] on a descriptor that is
    not open raises out of the loop. *)
Fixpoint loop_from (on_event : value -> M unit) (script : list Readiness)
    (buffer : string) : M LoopEnd :=
  fun st =>
  if negb (running (wrapper st)) then mkRun (inr Returned) st [] else
  match master_fd (wrapper st) with
  | Some (S _ as f) =>
      match script with
      | [] => mkRun (inr (Suspended buffer)) st []
      | ev :: script' =>
          if negb (mem_nat f (open_fds (world st)))
          then mkRun (inl (Exn OSError "Bad file descriptor")) st []
          else
          match ev with
          | Timeout => loop_from on_event script' buffer st
          | ReadFails => mkRun (inr Returned) st []
          | Data chunk =>
              if (chunk =? "") then mkRun (inr Returned) st []
              else
                let (ls, rest) := split_lines (buffer ++ chunk) in
                let r := dispatch_lines on_event ls rest st in
                match r_res r with
                | inl e => mkRun (inl e) (r_state r) (r_trace r)
                | inr (buffer', None) =>
                    let r' := loop_from on_event script' buffer' (r_state r) in
                    mkRun (r_res r') (r_state r') (r_trace r ++ r_trace r')
                | inr (buffer', Some e) =>
                    if is_OSError e
                    then mkRun (inr Returned) (r_state r) (r_trace r)
                    else
                      let r' := loop_from on_event script' buffer' (r_state r) in
                      mkRun (r_res r') (r_state r') (r_trace r ++ r_trace r')
                end
          end
      end
  | _ => mkRun (inr (Suspended buffer)) st []
  end.

Definition run_event_loop (on_event : value -> M unit)
    (script : list Readiness) : M LoopEnd :=
  loop_from on_event script "".

(* ------------------------------------------------------------------ *)
(** *** main.py: GDBSession *)

(** [GDBSession.__init__], in a given world. The read loop it starts is
    [run_event_loop on_gdb_event]. *)
Definition new_session (sid : string) (w : World) : State :=
  mkState sid new_controller Ready (VList []) (VList []) None None [] w.

(** [GDBSession.to_dict]. *)
Definition to_dict (st : State) : value :=
  VDict [("type", VStr "state_update");
         ("payload", VDict [("status", VStr (status_str (status st)));
                            ("location", location_value (location st));
                            ("stack", stack st);
                            ("variables", variables st)])].

(** [GDBSession.send_json]: a send that raises clears the reference. *)
Definition send_json (data : value) : M unit :=
  called (CSend data) ;;
  ws <- read websocket ;;
  match ws with
  | Some t =>
      closed <- read (fun st => mem_nat t (ws_closed (world st))) ;;
      if closed then modify (set_websocket None)
      else modify (fun st => set_wire (wire (world st) ++ [(t, data)]) st)
  | None => ret tt
  end.

(** [GDBSession.attach]. *)
Definition attach (ws : nat) : M unit :=
  old <- read websocket ;;
  (match old with
   | Some t => modify (fun st => set_ws_closed (t :: ws_closed (world st)) st)
   | None => ret tt
   end) ;;
  modify (set_websocket (Some ws)) ;;
  snapshot <- read to_dict ;;
  send_json snapshot ;;
  history <- read log_history ;;
  for_each (last_n 10 history) send_json.

(** [GDBSession.detach]. *)
Definition detach : M unit := modify (set_websocket None).

Definition log_entry (level text now : string) : value :=
  VDict [("type", VStr "log_event");
         ("payload", VDict [("level", VStr level);
                            ("text", VStr text);
                            ("timestamp", VStr now)])].

(** [GDBSession.log]; [now] is what the clock gives while it runs. *)
Definition log (level text now : string) : M unit :=
  let msg := log_entry level text now in
  modify (fun st => set_log_history (log_history st ++ [msg]) st) ;;
  n <- read (fun st => length (log_history st)) ;;
  (if (50 <? n)%nat
   then modify (fun st => set_log_history (tl (log_history st)) st)
   else ret tt) ;;
  send_json msg.

Definition error_msg_of (payload : value) : value :=
  VDict [("type", VStr "error"); ("payload", payload)].

(** [a or b]. *)
Definition py_or (a b : value) : value := if truthy a then a else b.

(** ["".join(parts)]. *)
Fixpoint join_strs (parts : list value) : Exc string :=
  match parts with
  | [] => inr ""
  | VStr s :: parts' => lift_exc (join_strs parts') (fun t => inr (s ++ t))
  | _ :: _ => inl (Exn TypeError "sequence item: expected str instance")
  end.

(** [[m.get('contents', '') for m in mem]]. *)
Fixpoint contents_of (mem : list value) : Exc (list value) :=
  match mem with
  | [] => inr []
  | m :: mem' =>
      lift_exc (get m "contents" (VStr "")) (fun c =>
      lift_exc (contents_of mem') (fun cs => inr (c :: cs)))
  end.

(** The token 401 branch up to its message: address and contents. *)
Definition memory_read_of (mem : value) : Exc (value * value) :=
  if truthy mem then
    match mem with
    | VList ((m0 :: _) as l) =>
        lift_exc (contents_of l) (fun cs =>
        lift_exc (join_strs cs) (fun contents =>
        lift_exc (get m0 "begin" (VStr "0x0")) (fun address =>
        inr (address, VStr contents))))
    | VDict _ | VStr _ =>
        (* iterating gives strings, which have no [get] *)
        inl (Exn AttributeError "'str' object has no attribute 'get'")
    | _ => inl (Exn TypeError "object is not iterable")
    end
  else inr (VStr "0x0", VStr "").

Definition cmd_stack : string := "101-stack-list-frames".
Definition cmd_locals : string := "102-stack-list-locals --simple-values".

(** The dispatch of a result on its token (lines 145-199). *)
Definition on_result_token (token payload : value) : M unit :=
  if is_int token 101 then
    v <- lift (get payload "stack" (VList [])) ;;
    modify (set_stack v) ;;
    snapshot <- read to_dict ;; send_json snapshot
  else if is_int token 102 then
    v <- lift (get payload "locals" (VList [])) ;;
    modify (set_variables v) ;;
    snapshot <- read to_dict ;; send_json snapshot
  else if is_int token 201 then
    bkpt <- lift (get payload "bkpt" (VDict [])) ;;
    if truthy bkpt then
      number <- lift (get bkpt "number" VNone) ;;
      fullname <- lift (get bkpt "fullname" VNone) ;;
      file <- (if truthy fullname then ret fullname
               else lift (get bkpt "file" VNone)) ;;
      line <- lift (get bkpt "line" VNone) ;;
      send_json (VDict [("type", VStr "breakpoint_created");
                        ("payload", VDict [("id", number); ("file", file);
                                           ("line", line)])])
    else ret tt
  else if is_int token 301 then
    name <- lift (get payload "name" VNone) ;;
    numchild <- lift (get payload "numchild" VNone) ;;
    val <- lift (get payload "value" VNone) ;;
    ty <- lift (get payload "type" VNone) ;;
    send_json (VDict [("type", VStr "var_created");
                      ("payload", VDict [("name", name); ("numchild", numchild);
                                         ("value", val); ("type", ty)])])
  else if is_int token 302 then
    children <- lift (get payload "children" (VList [])) ;;
    send_json (VDict [("type", VStr "var_children");
                      ("payload", VDict [("children", children)])])
  else if is_int token 401 then
    mem <- lift (get payload "memory" (VList [])) ;;
    ac <- lift (memory_read_of mem) ;;
    send_json (VDict [("type", VStr "memory_read");
                      ("payload", VDict [("address", fst ac);
                                         ("contents", snd ac)])])
  else ret tt.

(** The error handling of a result (lines 201-210). *)
Definition on_result_error (msg payload : value) (now : string) : M unit :=
  m <- lift (get payload "msg" VNone) ;;
  is_error <-
    (if truthy m then
       bkpt <- lift (get payload "bkpt" VNone) ;;
       if truthy bkpt then ret false else
       name <- lift (get payload "name" VNone) ;;
       if truthy name then ret false else
       children <- lift (get payload "children" VNone) ;;
       ret (negb (truthy children))
     else ret false) ;;
  if is_error then
    log "error" ("GDB Error: " ++ py_str m) now ;;
    send_json (error_msg_of m)
  else if is_str msg "error" then
    error_msg <- lift (get payload "msg" (VStr "Unknown Error")) ;;
    log "error" ("Error: " ++ py_str error_msg) now ;;
    send_json (error_msg_of error_msg)
  else ret tt.

(** The text logged on a pause (lines 132-134). *)
Definition paused_text (reason : value) (loc : option Location) : string :=
  match loc with
  | Some l => "[Paused] " ++ py_str reason ++ " at " ++ py_str (loc_file l)
              ++ ":" ++ py_str (loc_line l)
  | None => "[Paused] " ++ py_str reason
  end.

(** [GDBSession.on_gdb_event]; [now] is what the clock gives while it
    runs. *)
Definition on_gdb_event (now : string) (event : value) : M unit :=
  if negb (truthy event) then ret tt else
  msg_type <- lift (get event "type" VNone) ;;
  msg <- lift (get event "message" VNone) ;;
  payload <- lift (get event "payload" (VDict [])) ;;
  if is_str msg_type "console" then send_json event
  else if is_str msg_type "notify" then
    if is_str msg "running" then
      modify (set_status Running) ;;
      modify (set_location None) ;;
      modify (set_stack (VList [])) ;;
      modify (set_variables (VList [])) ;;
      snapshot <- read to_dict ;; send_json snapshot ;;
      log "info" "[Running]" now
    else if is_str msg "stopped" then
      reason <- lift (get payload "reason" VNone) ;;
      if (is_str reason "exited-normally" || is_str reason "exited")%bool then
        modify (set_status Exited) ;;
        modify (set_location None) ;;
        modify (set_stack (VList [])) ;;
        modify (set_variables (VList [])) ;;
        snapshot <- read to_dict ;; send_json snapshot ;;
        log "info" ("[Exited] Reason: " ++ py_str reason) now
      else
        modify (set_status Paused) ;;
        frame <- lift (get payload "frame" (VDict [])) ;;
        (if truthy frame then
           file <- lift (get frame "file" VNone) ;;
           line <- lift (get frame "line" VNone) ;;
           func <- lift (get frame "func" VNone) ;;
           modify (set_location (Some (mkLocation file line func)))
         else ret tt) ;;
        snapshot <- read to_dict ;; send_json snapshot ;;
        loc <- read location ;;
        log "info" (paused_text reason loc) now ;;
        write cmd_stack ;;
        write cmd_locals
    else ret tt
  else if is_str msg_type "result" then
    token <- lift (get event "token" VNone) ;;
    on_result_token token payload ;;
    on_result_error msg payload now
  else ret tt.

(** The command of an action that is neither [init], [stop] nor
    [get_context] (lines 231-253). *)
Definition command_of (action args : value) : Exc string :=
  if is_str action "run" then
    lift_exc (get args "stop_at_entry" (VBool false)) (fun stop_at_entry =>
    inr (if truthy stop_at_entry then "-exec-run --start" else "-exec-run"))
  else if is_str action "next" then inr "-exec-next"
  else if is_str action "step" then inr "-exec-step"
  else if is_str action "continue" then inr "-exec-continue"
  else if is_str action "break" then
    lift_exc (get args "location" VNone) (fun l =>
    inr ("201-break-insert " ++ py_str l))
  else if is_str action "remove_breakpoint" then
    lift_exc (get args "id" VNone) (fun i =>
    inr ("-break-delete " ++ py_str i))
  else if is_str action "var_create" then
    lift_exc (get args "expression" VNone) (fun e =>
    inr ("301-var-create - * " ++ py_str e))
  else if is_str action "var_list_children" then
    lift_exc (get args "name" VNone) (fun n =>
    inr ("302-var-list-children --all-values " ++ py_str n))
  else if is_str action "read_memory" then
    lift_exc (get args "address" VNone) (fun address =>
    lift_exc (get args "count" (VInt 256)) (fun count =>
    inr ("401-data-read-memory-bytes " ++ py_str address ++ " "
         ++ py_str count)))
  else inr (py_str action).

(** [GDBSession.handle_command]; [now] is what the clock gives while it
    runs. *)
Definition handle_command (now : string) (action args : value) : M unit :=
  if is_str action "init" then
    exe <- lift (get args "executable" VNone) ;;
    try_catch
      (start exe ;;
       modify (set_status Ready) ;;
       modify (set_stack (VList [])) ;;
       modify (set_variables (VList [])) ;;
       snapshot <- read to_dict ;; send_json snapshot)
      (fun e =>
         log "error" ("Failed to start GDB: " ++ exn_str e) now ;;
         send_json (error_msg_of (VStr ("Startup Failed: " ++ exn_str e))))
  else if is_str action "stop" then
    stop ;;
    modify (set_status Ready) ;;
    snapshot <- read to_dict ;; send_json snapshot
  else if is_str action "get_context" then
    write cmd_stack ;;
    write cmd_locals
  else
    cmd <- lift (command_of action args) ;;
    write cmd.

(** What is called on a session: by the connection handler ([attach],
    [handle_command], [detach]), by the read loop ([on_gdb_event]) and by
    both of these ([log]). *)
Inductive Op : Type :=
| OAttach (ws : nat)
| ODetach
| OLog (level text now : string)
| OEvent (now : string) (event : value)
| OCommand (now : string) (action args : value).

Definition run_op (o : Op) : M unit :=
  match o with
  | OAttach ws => attach ws
  | ODetach => detach
  | OLog level text now => log level text now
  | OEvent now event => on_gdb_event now event
  | OCommand now action args => handle_command now action args
  end.

(** The state after a sequence of calls; a call that raises leaves the
    state as it was when it raised (the read loop and the connection
    handler do not undo anything). *)
Fixpoint run_ops (ops : list Op) (st : State) : State :=
  match ops with
  | [] => st
  | o :: ops' => run_ops ops' (r_state (run_op o st))
  end.

(* ------------------------------------------------------------------ *)
(** *** main.py: the connection handler *)

(** The session a connection asks for, from the path of its request
    (lines 285-288 of [handler]). *)
Definition session_id_of_path (path : string) : string :=
  if (1 <? String.length path)%nat then strip_char "/" path else "default".

(** One message of a connection (lines 297-301): [decoded] is what
    [json.loads] gives for it, [now] what the clock gives while its command
    runs. *)
Definition on_message (now : string) (decoded : Exc value) : M unit :=
  data <- lift decoded ;;
  action <- lift (get data "action" VNone) ;;
  args <- lift (get data "args" (VDict [])) ;;
  handle_command now action args.

(** [handler] from the point where it has its session (lines 293-306):
    attach, serve the messages received until the connection closes, and
    detach whatever happened. *)
Definition handler (ws : nat) (messages : list (string * Exc value))
  : M unit :=
  attach ws ;;
  try_finally
    (for_each messages (fun m => on_message (fst m) (snd m)))
    detach.

End Engine.

(* ================================================================== *)
(** ** What the calls do to the state *)

(** The state after [send_json data]. *)
Definition deliver (data : value) (st : State) : State :=
  match websocket st with
  | Some t => if mem_nat t (ws_closed (world st))
              then set_websocket None st
              else set_wire (wire (world st) ++ [(t, data)]) st
  | None => st
  end.

(** The state after the append and the eviction of [log]. *)
Definition push_log (msg : value) (st : State) : State :=
  let l := (log_history st ++ [msg])%list in
  set_log_history (if (50 <? length l)%nat then tl l else l) st.

(** A sequence of log appends: (level, text, clock reading) each. *)
Definition entry_of (e : string * string * string) : value :=
  let '(level, text, now) := e in log_entry level text now.

Definition log_all (entries : list (string * string * string)) : M unit :=
  for_each entries (fun e => let '(level, text, now) := e in log level text now).

(** The master descriptor is unset, or names an open descriptor. *)
Definition channel_ok (st : State) : Prop :=
  match master_fd (wrapper st) with
  | Some (S f) => In (S f) (open_fds (world st))
  | _ => True
  end.

(** The bytes [write] puts on the terminal for the commands [cmds]. *)
Definition written (st : State) (cmds : list string) : list (nat * string) :=
  match master_fd (wrapper st) with
  | Some (S f) => map (fun c => (S f, c ++ NL)) cmds
  | _ => []
  end.

(** The location a pause sets from the frame of its payload: the frame's
    [file], [line] and [func] when the payload has a frame, the location of
    before otherwise (lines 122-128). *)
Definition frame_location (frame : value) (old : option Location)
  : option Location :=
  match frame with
  | VDict ((_ :: _) as d) =>
      let field k := match assoc k d with Some x => x | None => VNone end in
      Some (mkLocation (field "file") (field "line") (field "func"))
  | _ => old
  end.

(** The frames [send_json] puts on the wire for [msgs]: one each while a
    transport is attached and its sends succeed. *)
Definition frames (st : State) (msgs : list value) : list (nat * value) :=
  match websocket st with
  | Some t => if mem_nat t (ws_closed (world st)) then []
              else map (pair t) msgs
  | None => []
  end.

(** The bound on the log history. *)
Definition history_bounded (st : State) : Prop :=
  length (log_history st) <= 50.

(** [m] keeps the invariant [P], raise or not. *)
Definition preserves {A : Type} (P : State -> Prop) (m : M A) : Prop :=
  forall st, P st -> P (r_state (m st)).

(** [m] never changes the part [proj] of the state, raise or not. *)
Definition keeps {X A : Type} (proj : State -> X) (m : M A) : Prop :=
  forall st, proj (r_state (m st)) = proj st.

(** [d.get(k, default)] on a dictionary [d]. *)
Definition lookup (d : list (string * value)) (k : string)
    (default : value) : value :=
  match assoc k d with Some x => x | None => default end.

(** The messages of the results of the variable and memory requests
    (lines 156-199). *)
Definition breakpoint_created_msg (bkpt : list (string * value)) : value :=
  VDict [("type", VStr "breakpoint_created");
         ("payload",
          VDict [("id", lookup bkpt "number" VNone);
                 ("file", py_or (lookup bkpt "fullname" VNone)
                                (lookup bkpt "file" VNone));
                 ("line", lookup bkpt "line" VNone)])].

Definition var_created_msg (payload : list (string * value)) : value :=
  VDict [("type", VStr "var_created");
         ("payload",
          VDict [("name", lookup payload "name" VNone);
                 ("numchild", lookup payload "numchild" VNone);
                 ("value", lookup payload "value" VNone);
                 ("type", lookup payload "type" VNone)])].

Definition var_children_msg (payload : list (string * value)) : value :=
  VDict [("type", VStr "var_children");
         ("payload",
          VDict [("children", lookup payload "children" (VList []))])].

Definition memory_read_msg (address contents : value) : value :=
  VDict [("type", VStr "memory_read");
         ("payload", VDict [("address", address); ("contents", contents)])].

(** The event [_parse_line] builds for a result record that has a token
    (lines 135-137). *)
Definition result_event (msg payload token : value) : value :=
  VDict [("type", VStr "result"); ("message", msg); ("payload", payload);
         ("token", token)].


(** The actions [handle_command] translates itself (lines 232-255). *)
Definition known_actions : list string :=
  ["init"; "stop"; "run"; "next"; "step"; "continue"; "break";
   "remove_breakpoint"; "var_create"; "var_list_children"; "read_memory";
   "get_context"].

(** No transport is attached, and the frames delivered so far are [w]. *)
Definition detached_with (w : list (nat * value)) (st : State) : Prop :=
  websocket st = None /\ wire (world st) = w.

Definition is_attach (o : Op) : bool :=
  match o with OAttach _ => true | _ => false end.

(** The read loop can read: the channel is running and its master
    descriptor is set and open. *)
Definition loop_ready (st : State) : Prop :=
  running (wrapper st) = true /\
  exists f, master_fd (wrapper st) = Some (S f) /\
            In (S f) (open_fds (world st)).

(** The channel and what it did to the system: the controller, the open
    descriptors, the processes spawned and those asked to end. *)
Definition channel_of (st : State) :=
  (wrapper st, open_fds (world st), spawned (world st), terminated (world st)).

(** [s.startswith(c)] and [s.endswith(c)] for a single character. *)
Definition starts_with (c : ascii) (s : string) : bool :=
  match s with
  | String a _ => (a =? c)%char
  | EmptyString => false
  end.

Definition ends_with (c : ascii) (s : string) : bool :=
  starts_with c (rev_string s "").

(* ------------------------------------------------------------------ *)
(** *** A concrete environment, for the examples *)

Module Example.

(** Containers print as a fixed text. *)
Definition repr (v : value) : string := "<container>".

(** No path exists. *)
Definition no_file (v : value) : Exc bool := inr false.

(** Every spawn succeeds, with the same pid. *)
Definition spawn (argv : list value) : Exc nat := inr 4242.

(** A stand-in for the protocol parser on three kinds of line: [&...] is a
    log record, [~...] a console record, anything else an output record,
    each with the keys the parser gives its records. *)
Definition parse (line : string) : Exc value :=
  match line with
  | String "&" rest =>
      inr (VDict [("type", VStr "log"); ("message", VNone);
                  ("payload", VStr rest)])
  | String "~" rest =>
      inr (VDict [("type", VStr "console"); ("message", VNone);
                  ("payload", VStr rest)])
  | _ =>
      inr (VDict [("type", VStr "output"); ("message", VNone);
                  ("payload", VStr line)])
  end.

(** The three standard descriptors are open; no transport is closed. *)
Definition world0 : World := mkWorld [0; 1; 2] [] [] [] [] [].

Definition session0 : State := new_session "default" world0.

(** The session after an init action without executable: the debugger is
    spawned and the master descriptor is 3. *)
Definition started : State :=
  r_state (handle_command repr no_file spawn "t0" (VStr "init") (VDict [])
                          session0).

(** The session after transport 1 attached and one entry was logged. *)
Definition logged_once : State :=
  r_state ((attach 1 ;; log "info" "[Running]" "t1") session0).

Definition stopped_payload : value :=
  VDict [("reason", VStr "breakpoint-hit");
         ("frame", VDict [("file", VStr "a.c"); ("line", VStr "3");
                          ("func", VStr "main")])].

Definition stopped_event : value :=
  VDict [("type", VStr "notify"); ("message", VStr "stopped");
         ("payload", stopped_payload)].


Definition result_error_event : value :=
  VDict [("type", VStr "result"); ("message", VStr "error");
         ("payload", VDict [("msg", VStr "No symbol table")])].


(** A handler that only records the event it is given. *)
Definition probe (event : value) : M unit := called (CSend event).

(** Every path exists. *)
Definition any_file (v : value) : Exc bool := inr true.

(** No spawn succeeds: the debugger is not installed. *)
Definition spawn_fails (argv : list value) : Exc nat :=
  inl (Exn FileNotFoundError "[Errno 2] No such file or directory: 'gdb'").

(** A session paused at a location, with a stack and variables. *)
Definition paused : State :=
  set_location (Some (mkLocation (VStr "a.c") (VStr "3") (VStr "main")))
    (set_variables (VList [VDict [("name", VStr "x"); ("value", VStr "1")]])
       (set_stack (VList [VDict [("level", VStr "0"); ("func", VStr "main")]])
          (set_status Paused started))).

End Example.

(* ================================================================== *)
(** ** Properties *)

Section Properties.

Variable py_repr : value -> string.
Variable os_path_exists : value -> Exc bool.
Variable popen : list value -> Exc nat.
Variable parse_response : string -> Exc value.

Lemma mem_nat_In (n : nat) (l : list nat) : mem_nat n l = true <-> In n l.
Proof.
  unfold mem_nat. rewrite existsb_exists. split.
  - intros [x [Hin Heq]]. apply Nat.eqb_eq in Heq. now subst.
  - intros Hin. exists n. split; [assumption | apply Nat.eqb_refl].
Qed.

Lemma send_json_eq (data : value) (st : State) :
  send_json data st = mkRun (inr tt) (deliver data st) [CSend data].
Proof.
  unfold send_json, deliver, bind, called, read, modify. cbn.
  destruct (websocket st) as [t|]; cbn; [|reflexivity].
  destruct (mem_nat t (ws_closed (world st))); reflexivity.
Qed.

Lemma log_eq (level text now : string) (st : State) :
  log level text now st =
  mkRun (inr tt) (deliver (log_entry level text now)
                          (push_log (log_entry level text now) st))
        [CSend (log_entry level text now)].
Proof.
  unfold log, bind, modify, read, push_log.
  cbn -[send_json Nat.ltb].
  destruct (50 <? length (log_history st ++ [log_entry level text now]))%nat;
    cbn -[send_json]; rewrite send_json_eq; reflexivity.
Qed.

Lemma write_not_open (cmd : string) (st : State) :
  fd_truthy (master_fd (wrapper st)) = false ->
  write cmd st = mkRun (inr tt) st [CWrite cmd].
Proof.
  intros H. unfold write, bind, called, read. cbn.
  destruct (master_fd (wrapper st)) as [[|f]|]; cbn in *;
    try discriminate; reflexivity.
Qed.

Lemma write_open (cmd : string) (st : State) (f : nat) :
  master_fd (wrapper st) = Some (S f) ->
  In (S f) (open_fds (world st)) ->
  write cmd st =
  mkRun (inr tt)
        (set_pty_written (pty_written (world st) ++ [(S f, cmd ++ NL)]) st)
        [CWrite cmd].
Proof.
  intros Hm Hin. unfold write, bind, called, read. cbn.
  rewrite Hm. cbn. unfold os_write.
  apply mem_nat_In in Hin. rewrite Hin. reflexivity.
Qed.

Lemma write_ok (cmd : string) (st : State) :
  channel_ok st ->
  write cmd st =
  mkRun (inr tt)
        (set_pty_written (pty_written (world st) ++ written st [cmd]) st)
        [CWrite cmd].
Proof.
  unfold channel_ok, written. intros H.
  destruct (master_fd (wrapper st)) as [[|f]|] eqn:Hm.
  - rewrite write_not_open by (rewrite Hm; reflexivity).
    rewrite app_nil_r. destruct st as [? ? ? ? ? ? ? ? []]; reflexivity.
  - erewrite write_open by eauto. reflexivity.
  - rewrite write_not_open by (rewrite Hm; reflexivity).
    rewrite app_nil_r. destruct st as [? ? ? ? ? ? ? ? []]; reflexivity.
Qed.

Lemma stop_eq (st : State) :
  r_res (stop st) = inr tt /\
  r_trace (stop st) = [] /\
  process (wrapper (r_state (stop st))) = None /\
  running (wrapper (r_state (stop st))) = false /\
  fd_truthy (master_fd (wrapper (r_state (stop st)))) = false /\
  status (r_state (stop st)) = status st /\
  stack (r_state (stop st)) = stack st /\
  variables (r_state (stop st)) = variables st /\
  location (r_state (stop st)) = location st /\
  websocket (r_state (stop st)) = websocket st /\
  log_history (r_state (stop st)) = log_history st /\
  wire (world (r_state (stop st))) = wire (world st) /\
  ws_closed (world (r_state (stop st))) = ws_closed (world st) /\
  pty_written (world (r_state (stop st))) = pty_written (world st).
Proof.
  destruct st as [sid [p r m] s sk vs loc ws lh [fds pw sp tm wc wi]].
  unfold stop, bind, read, modify, try_catch, os_close. cbn -[mem_nat].
  destruct p as [pid|]; destruct m as [[|f]|]; cbn -[mem_nat];
    try (destruct (mem_nat (S f) fds); cbn); repeat split; reflexivity.
Qed.

(* ------------------------------------------------------------------ *)
(** *** The process channel *)


Lemma lowest_free_spec (fuel : nat) :
  forall n used,
    let k := lowest_free fuel n used in
    n <= k <= n + fuel /\
    (forall j, n <= j < k -> In j used) /\
    (k < n + fuel -> ~ In k used).
Proof.
  induction fuel as [|fuel IH]; intros n used; cbn.
  - repeat split; intros; lia.
  - destruct (mem_nat n used) eqn:Hmem.
    + destruct (IH (S n) used) as (Hb & Hall & Hfree).
      repeat split; try lia.
      * intros j Hj. destruct (Nat.eq_dec j n) as [->|Hne].
        -- now apply mem_nat_In.
        -- apply Hall. lia.
      * intros Hlt. apply Hfree. lia.
    + repeat split; try lia.
      intros _ Hin. apply mem_nat_In in Hin. congruence.
Qed.

Lemma fresh_fd_not_used (used : list nat) : ~ In (fresh_fd used) used.
Proof.
  unfold fresh_fd.
  destruct (lowest_free_spec (length used) 0 used) as (Hb & Hall & Hfree).
  set (k := lowest_free (length used) 0 used) in *.
  destruct (Nat.lt_ge_cases k (0 + length used)) as [Hlt|Hge].
  - now apply Hfree.
  - assert (Hk : k = length used) by lia.
    intros Hin.
    assert (Hincl : incl used (seq 0 (length used))).
    { apply NoDup_length_incl.
      - apply seq_NoDup.
      - rewrite length_seq. lia.
      - intros j Hj. apply in_seq in Hj. apply Hall. lia. }
    apply Hincl in Hin. apply in_seq in Hin. lia.
Qed.

Lemma fresh_fd_positive (used : list nat) :
  In 0 used -> exists f, fresh_fd used = S f.
Proof.
  intros H0. unfold fresh_fd.
  destruct used as [|x used']; [contradiction|].
  cbn [length lowest_free].
  apply mem_nat_In in H0. rewrite H0.
  destruct (lowest_free_spec (length used') 1 (x :: used')) as (Hb & _).
  destruct (lowest_free (length used') 1 (x :: used')) as [|f]; [lia|].
  now exists f.
Qed.

(** C9. When the executable given to [start] does not exist, [start] fails
    with FileNotFoundError after it allocated the pseudo-terminal and
    before it spawns anything: both new descriptors stay open and the
    master stays set on the channel, so that a later [write] really writes
    its command to the terminal instead of doing nothing. (Descriptor 0,
    the standard input, is taken to be open, so that the master is not
    numbered 0.) *)
Theorem missing_executable_leaks_terminal :
  forall exe st,
    truthy exe = true ->
    os_path_exists exe = inr false ->
    In 0 (open_fds (world st)) ->
    let r := start py_repr os_path_exists popen exe st in
    let m := fresh_fd (open_fds (world st)) in
    let s := fresh_fd (m :: open_fds (world st)) in
    r_res r = inl (Exn FileNotFoundError
                       ("Binary not found: " ++ py_str py_repr exe)) /\
    ~ In m (open_fds (world st)) /\ ~ In s (open_fds (world st)) /\ s <> m /\
    open_fds (world (r_state r)) = s :: m :: open_fds (world st) /\
    master_fd (wrapper (r_state r)) = Some m /\
    fd_truthy (master_fd (wrapper (r_state r))) = true /\
    process (wrapper (r_state r)) = process (wrapper st) /\
    spawned (world (r_state r)) = spawned (world st) /\
    forall cmd,
      r_res (write cmd (r_state r)) = inr tt /\
      pty_written (world (r_state (write cmd (r_state r)))) =
        (pty_written (world st) ++ [(m, (cmd ++ NL)%string)])%list.
Proof.
  intros exe st Hexe Hmissing H0 r m s.
  destruct (fresh_fd_positive _ H0) as [f Hf].
  assert (Hm : ~ In m (open_fds (world st))) by apply fresh_fd_not_used.
  assert (Hs : ~ In s (m :: open_fds (world st))) by apply fresh_fd_not_used.
  assert (Hr : r = mkRun (inl (Exn FileNotFoundError
                                   ("Binary not found: " ++ py_str py_repr exe)))
                         (set_master_fd (Some m)
                            (set_open_fds (s :: m :: open_fds (world st)) st))
                         []).
  { subst r. unfold start, bind, openpty, modify, lift, raise, ret.
    cbn -[fresh_fd]. rewrite Hexe. cbn -[fresh_fd]. rewrite Hmissing.
    reflexivity. }
  assert (Hf' : m = S f) by exact Hf.
  clearbody r m s. subst r. cbn [r_res r_state r_trace].
  assert (Hw : forall cmd,
             write cmd (set_master_fd (Some m)
                          (set_open_fds (s :: m :: open_fds (world st)) st)) =
             mkRun (inr tt)
               (set_pty_written
                  (pty_written (world st) ++ [(m, (cmd ++ NL)%string)])
                  (set_master_fd (Some m)
                     (set_open_fds (s :: m :: open_fds (world st)) st)))
               [CWrite cmd]).
  { intros cmd. rewrite Hf'. erewrite write_open; [reflexivity| |].
    - reflexivity.
    - cbn. right. now left. }
  repeat split.
  - assumption.
  - intros Hin. apply Hs. now right.
  - intros Heq. apply Hs. left. now symmetry.
  - cbn. now rewrite Hf'.
  - now rewrite Hw.
  - now rewrite Hw.
Qed.

(** C3, as the code has it. A zero-length read makes the loop return and
    changes nothing: the running flag stays set and the master descriptor
    stays set and open, nothing is dispatched, and a [write] after the loop
    has returned still writes its command to the terminal. *)
Theorem zero_length_read_exits_loop :
  forall on_event script buffer st f,
    running (wrapper st) = true ->
    master_fd (wrapper st) = Some (S f) ->
    In (S f) (open_fds (world st)) ->
    let r := loop_from parse_response on_event (Data "" :: script) buffer st in
    r_res r = inr Returned /\ r_state r = st /\ r_trace r = [] /\
    running (wrapper (r_state r)) = true /\
    fd_truthy (master_fd (wrapper (r_state r))) = true /\
    forall cmd,
      r_res (write cmd (r_state r)) = inr tt /\
      pty_written (world (r_state (write cmd (r_state r)))) =
        (pty_written (world st) ++ [(S f, (cmd ++ NL)%string)])%list.
Proof.
  intros on_event script buffer st f Hrun Hm Hin r.
  assert (Hr : r = mkRun (inr Returned) st []).
  { subst r. cbn -[mem_nat]. rewrite Hrun, Hm. cbn -[mem_nat].
    apply mem_nat_In in Hin. rewrite Hin. reflexivity. }
  rewrite Hr. cbn [r_res r_state r_trace].
  repeat split; try assumption.
  - rewrite Hm. reflexivity.
  - rewrite (write_open cmd st f Hm Hin). reflexivity.
  - rewrite (write_open cmd st f Hm Hin). reflexivity.
Qed.

(* ------------------------------------------------------------------ *)
(** *** The log history *)

Lemma last_n_short {A : Type} (n : nat) (l : list A) :
  length l <= n -> last_n n l = l.
Proof.
  intros H. unfold last_n. replace (length l - n) with 0 by lia. reflexivity.
Qed.

Lemma last_n_length {A : Type} (n : nat) (l : list A) :
  length (last_n n l) = Nat.min n (length l).
Proof. unfold last_n. rewrite length_skipn. lia. Qed.

Lemma last_n_suffix {A : Type} (n : nat) (l : list A) :
  l = (firstn (length l - n) l ++ last_n n l)%list.
Proof. unfold last_n. now rewrite firstn_skipn. Qed.

Lemma skipn_past {A : Type} (a c : list A) (j : nat) :
  skipn (length a + j) (a ++ c) = skipn j c.
Proof. induction a as [|x a IH]; cbn; [reflexivity|exact IH]. Qed.

Lemma last_n_app {A : Type} (n : nat) (a b : list A) :
  last_n n (last_n n a ++ b) = last_n n (a ++ b).
Proof.
  unfold last_n.
  rewrite !length_app, length_skipn.
  destruct (Nat.le_gt_cases (length a) n) as [Hle|Hgt].
  - replace (length a - n) with 0 by lia. cbn. now rewrite Nat.sub_0_r.
  - replace (length a - (length a - n) + length b - n) with (length b) by lia.
    set (k := length a - n).
    rewrite <- (firstn_skipn k a) at 3.
    rewrite <- app_assoc.
    replace (length a + length b - n) with (length (firstn k a) + length b)
      by (rewrite length_firstn; lia).
    now rewrite skipn_past.
Qed.

Lemma push_log_history (msg : value) (st : State) :
  length (log_history st) <= 50 ->
  log_history (push_log msg st) = last_n 50 (log_history st ++ [msg]).
Proof.
  intros H. unfold push_log. cbn [log_history set_log_history].
  destruct (50 <? length (log_history st ++ [msg]))%nat eqn:Hlt.
  - apply Nat.ltb_lt in Hlt. rewrite length_app in Hlt. cbn in Hlt.
    unfold last_n. rewrite length_app. cbn [length].
    replace (length (log_history st) + 1 - 50) with 1 by lia.
    reflexivity.
  - apply Nat.ltb_ge in Hlt. now rewrite last_n_short.
Qed.

Lemma deliver_log_history (data : value) (st : State) :
  log_history (deliver data st) = log_history st.
Proof.
  unfold deliver. destruct (websocket st) as [t|]; [|reflexivity].
  destruct (mem_nat t (ws_closed (world st))); reflexivity.
Qed.

Lemma log_history_after_log (level text now : string) (st : State) :
  length (log_history st) <= 50 ->
  log_history (r_state (log level text now st)) =
  last_n 50 (log_history st ++ [log_entry level text now]).
Proof.
  intros H. rewrite log_eq. cbn [r_state].
  now rewrite deliver_log_history, push_log_history.
Qed.

Lemma log_all_history (entries : list (string * string * string)) :
  forall st,
    length (log_history st) <= 50 ->
    log_history (r_state (log_all entries st)) =
    last_n 50 (log_history st ++ map entry_of entries).
Proof.
  induction entries as [|[[level text] now] entries IH]; intros st H.
  - cbn. rewrite app_nil_r. now rewrite last_n_short.
  - unfold log_all. cbn [for_each]. unfold bind.
    rewrite log_eq. cbn [r_res r_state r_trace].
    fold (log_all entries).
    assert (Hh : log_history (deliver (log_entry level text now)
                                (push_log (log_entry level text now) st)) =
                 last_n 50 (log_history st ++ [log_entry level text now])).
    { now rewrite deliver_log_history, push_log_history. }
    rewrite IH.
    + rewrite Hh, last_n_app. cbn [map entry_of].
      now rewrite <- app_assoc.
    + rewrite Hh, last_n_length. lia.
Qed.

(* ------------------------------------------------------------------ *)
(** *** Commands *)

(** What the stop action does to the fields of the session. *)
Lemma stop_action_facts :
  forall now args st,
    let r := handle_command py_repr os_path_exists popen now (VStr "stop") args st in
    r_res r = inr tt /\
    process (wrapper (r_state r)) = None /\
    running (wrapper (r_state r)) = false /\
    fd_truthy (master_fd (wrapper (r_state r))) = false /\
    status (r_state r) = Ready /\
    stack (r_state r) = stack st /\
    variables (r_state r) = variables st /\
    location (r_state r) = location st /\
    r_trace r =
      [CSend (VDict [("type", VStr "state_update");
                     ("payload",
                      VDict [("status", VStr "Ready");
                             ("location", location_value (location st));
                             ("stack", stack st);
                             ("variables", variables st)])])].
Proof.
  intros now args st r. subst r.
  unfold handle_command. cbn [is_str String.eqb Ascii.eqb Bool.eqb].
  cbn -[stop send_json].
  unfold bind, modify, read.
  destruct (stop_eq st)
    as (Hres & Htr & Hp & Hr & Hfd & Hs & Hsk & Hv & Hl & Hw & Hlh & _).
  rewrite Hres. cbn -[stop send_json]. rewrite send_json_eq.
  cbn -[stop]. rewrite Htr.
  unfold to_dict. cbn -[stop].
  rewrite Hsk, Hv, Hl.
  unfold deliver. cbn -[stop mem_nat].
  destruct (websocket (r_state (stop st))) as [t|]; cbn -[stop mem_nat];
    [destruct (mem_nat t _); cbn -[stop]|];
    rewrite ?Hp, ?Hr, ?Hfd, ?Hsk, ?Hv, ?Hl; repeat split; reflexivity.
Qed.

(* ------------------------------------------------------------------ *)
(** *** Running a coroutine step by step *)

Lemma bind_run_eq {A B : Type} (m : M A) (f : A -> M B) (st : State)
    (a : A) (st1 : State) (tr1 : list Call)
    (res : Exc B) (st2 : State) (tr2 : list Call) :
  m st = mkRun (inr a) st1 tr1 ->
  f a st1 = mkRun res st2 tr2 ->
  bind m f st = mkRun res st2 (tr1 ++ tr2).
Proof. intros Hm Hf. unfold bind. rewrite Hm. cbn. now rewrite Hf. Qed.

Lemma bind_raise_eq {A B : Type} (m : M A) (f : A -> M B) (st : State)
    (e : exn) (st1 : State) (tr1 : list Call) :
  m st = mkRun (inl e) st1 tr1 ->
  bind m f st = mkRun (inl e) st1 tr1.
Proof. intros Hm. unfold bind. now rewrite Hm. Qed.

Lemma lift_eq {A : Type} (x : Exc A) (a : A) (st : State) :
  x = inr a -> lift x st = mkRun (inr a) st [].
Proof. now intros ->. Qed.

Lemma modify_eq (f : State -> State) (st : State) :
  modify f st = mkRun (inr tt) (f st) [].
Proof. reflexivity. Qed.

Lemma read_eq {A : Type} (f : State -> A) (st : State) :
  read f st = mkRun (inr (f st)) st [].
Proof. reflexivity. Qed.

Lemma ret_eq {A : Type} (a : A) (st : State) :
  ret a st = mkRun (inr a) st [].
Proof. reflexivity. Qed.

(** Projections of the state after a delivery or a log append. *)
Lemma deliver_proj (data : value) (st : State) :
  wrapper (deliver data st) = wrapper st /\
  status (deliver data st) = status st /\
  stack (deliver data st) = stack st /\
  variables (deliver data st) = variables st /\
  location (deliver data st) = location st /\
  log_history (deliver data st) = log_history st /\
  open_fds (world (deliver data st)) = open_fds (world st) /\
  pty_written (world (deliver data st)) = pty_written (world st) /\
  spawned (world (deliver data st)) = spawned (world st) /\
  ws_closed (world (deliver data st)) = ws_closed (world st) /\
  wire (world (deliver data st)) = (wire (world st) ++ frames st [data])%list /\
  (forall msgs, frames (deliver data st) msgs = frames st msgs).
Proof.
  unfold deliver, frames.
  destruct (websocket st) as [t|] eqn:Hw; cbn -[mem_nat].
  - destruct (mem_nat t (ws_closed (world st))) eqn:Hc; cbn -[mem_nat];
      rewrite ?Hw, ?Hc, ?app_nil_r; repeat split; reflexivity.
  - rewrite ?Hw, ?app_nil_r. repeat split; reflexivity.
Qed.

Lemma push_log_proj (msg : value) (st : State) :
  wrapper (push_log msg st) = wrapper st /\
  status (push_log msg st) = status st /\
  stack (push_log msg st) = stack st /\
  variables (push_log msg st) = variables st /\
  location (push_log msg st) = location st /\
  websocket (push_log msg st) = websocket st /\
  world (push_log msg st) = world st.
Proof. unfold push_log. cbn. repeat split; reflexivity. Qed.

Lemma channel_ok_same (st st' : State) :
  wrapper st' = wrapper st ->
  open_fds (world st') = open_fds (world st) ->
  channel_ok st -> channel_ok st'.
Proof. unfold channel_ok. now intros -> ->. Qed.

Lemma written_same (st st' : State) (cmds : list string) :
  wrapper st' = wrapper st -> written st' cmds = written st cmds.
Proof. unfold written. now intros ->. Qed.

Lemma frames_same (st st' : State) (msgs : list value) :
  websocket st' = websocket st ->
  ws_closed (world st') = ws_closed (world st) ->
  frames st' msgs = frames st msgs.
Proof. unfold frames. now intros -> ->. Qed.

Lemma frames_app (st : State) (a b : list value) :
  frames st (a ++ b) = (frames st a ++ frames st b)%list.
Proof.
  unfold frames. destruct (websocket st) as [t|]; [|reflexivity].
  destruct (mem_nat t (ws_closed (world st))); [reflexivity|].
  apply map_app.
Qed.

Lemma written_app (st : State) (a b : list string) :
  written st (a ++ b) = (written st a ++ written st b)%list.
Proof.
  unfold written. destruct (master_fd (wrapper st)) as [[|f]|];
    try reflexivity. apply map_app.
Qed.

Lemma deliver_wrapper d st : wrapper (deliver d st) = wrapper st.
Proof. apply deliver_proj. Qed.
Lemma deliver_status d st : status (deliver d st) = status st.
Proof. apply deliver_proj. Qed.
Lemma deliver_stack d st : stack (deliver d st) = stack st.
Proof. apply deliver_proj. Qed.
Lemma deliver_variables d st : variables (deliver d st) = variables st.
Proof. apply deliver_proj. Qed.
Lemma deliver_location d st : location (deliver d st) = location st.
Proof. apply deliver_proj. Qed.
Lemma deliver_open_fds d st :
  open_fds (world (deliver d st)) = open_fds (world st).
Proof. apply deliver_proj. Qed.
Lemma deliver_pty_written d st :
  pty_written (world (deliver d st)) = pty_written (world st).
Proof. apply deliver_proj. Qed.
Lemma deliver_spawned d st :
  spawned (world (deliver d st)) = spawned (world st).
Proof. apply deliver_proj. Qed.
Lemma deliver_wire d st :
  wire (world (deliver d st)) = (wire (world st) ++ frames st [d])%list.
Proof. apply deliver_proj. Qed.
Lemma deliver_frames d st msgs : frames (deliver d st) msgs = frames st msgs.
Proof. apply deliver_proj. Qed.
Lemma deliver_written d st cmds :
  written (deliver d st) cmds = written st cmds.
Proof. apply written_same, deliver_wrapper. Qed.
Lemma deliver_channel_ok d st : channel_ok (deliver d st) <-> channel_ok st.
Proof.
  unfold channel_ok. now rewrite deliver_wrapper, deliver_open_fds.
Qed.

Lemma push_log_wrapper m st : wrapper (push_log m st) = wrapper st.
Proof. reflexivity. Qed.
Lemma push_log_status m st : status (push_log m st) = status st.
Proof. reflexivity. Qed.
Lemma push_log_stack m st : stack (push_log m st) = stack st.
Proof. reflexivity. Qed.
Lemma push_log_variables m st : variables (push_log m st) = variables st.
Proof. reflexivity. Qed.
Lemma push_log_location m st : location (push_log m st) = location st.
Proof. reflexivity. Qed.
Lemma push_log_websocket m st : websocket (push_log m st) = websocket st.
Proof. reflexivity. Qed.
Lemma push_log_world m st : world (push_log m st) = world st.
Proof. reflexivity. Qed.
Lemma push_log_frames m st msgs : frames (push_log m st) msgs = frames st msgs.
Proof. reflexivity. Qed.
Lemma push_log_written m st cmds :
  written (push_log m st) cmds = written st cmds.
Proof. reflexivity. Qed.
Lemma push_log_channel_ok m st : channel_ok (push_log m st) <-> channel_ok st.
Proof. reflexivity. Qed.

Lemma set_pty_written_twice (a b : list (nat * string)) (st : State) :
  set_pty_written a (set_pty_written b st) = set_pty_written a st.
Proof. reflexivity. Qed.

Lemma set_pty_written_channel_ok a st :
  channel_ok (set_pty_written a st) <-> channel_ok st.
Proof. reflexivity. Qed.
Lemma set_pty_written_written a st cmds :
  written (set_pty_written a st) cmds = written st cmds.
Proof. reflexivity. Qed.
Lemma set_pty_written_get a st :
  pty_written (world (set_pty_written a st)) = a.
Proof. reflexivity. Qed.

Create Rewrite HintDb proj.
#[local] Hint Rewrite
  set_pty_written_channel_ok set_pty_written_written set_pty_written_get
  set_pty_written_twice
  deliver_wrapper deliver_status deliver_stack deliver_variables
  deliver_location deliver_log_history deliver_open_fds deliver_pty_written
  deliver_spawned deliver_wire deliver_frames deliver_written
  deliver_channel_ok
  push_log_wrapper push_log_status push_log_stack push_log_variables
  push_log_location push_log_websocket push_log_world push_log_frames
  push_log_written push_log_channel_ok : proj.

(** Lines 122-128: the location is replaced when the payload has a
    frame. *)
Lemma frame_location_run (frame : value) (st : State) :
  (truthy frame = true -> exists d, frame = VDict d) ->
  (if truthy frame
   then
     file <- lift (get frame "file" VNone) ;;
     line <- lift (get frame "line" VNone) ;;
     func <- lift (get frame "func" VNone) ;;
     modify (set_location (Some (mkLocation file line func)))
   else ret tt) st =
  mkRun (inr tt) (set_location (frame_location frame (location st)) st) [].
Proof.
  intros Hok. destruct (truthy frame) eqn:Ht.
  - destruct (Hok eq_refl) as [d ->].
    destruct d as [|kv d]; [discriminate|]. reflexivity.
  - assert (Hloc : frame_location frame (location st) = location st).
    { destruct frame as [| | | |l|[|kv d]]; try reflexivity; discriminate. }
    rewrite Hloc. destruct st; reflexivity.
Qed.

(** A notification "stopped" whose reason is not an exit: the run of
    [on_gdb_event], step by step. *)
Lemma on_stopped_run (now : string) (event payload reason frame : value)
    (st : State) :
  truthy event = true ->
  get event "type" VNone = inr (VStr "notify") ->
  get event "message" VNone = inr (VStr "stopped") ->
  get event "payload" (VDict []) = inr payload ->
  get payload "reason" VNone = inr reason ->
  is_str reason "exited-normally" = false ->
  is_str reason "exited" = false ->
  get payload "frame" (VDict []) = inr frame ->
  (truthy frame = true -> exists d, frame = VDict d) ->
  channel_ok st ->
  let loc := frame_location frame (location st) in
  let paused := set_location loc (set_status Paused st) in
  let entry := log_entry "info" (paused_text py_repr reason loc) now in
  let logged := deliver entry (push_log entry (deliver (to_dict paused) paused)) in
  on_gdb_event py_repr now event st =
  mkRun (inr tt)
        (set_pty_written
           (pty_written (world st) ++ written st [cmd_stack; cmd_locals])
           logged)
        [CSend (to_dict paused); CSend entry;
         CWrite cmd_stack; CWrite cmd_locals].
Proof.
  intros Hev Hty Hmsg Hpl Hre Hr1 Hr2 Hfr Hfok Hch loc paused entry logged.
  etransitivity.
  { unfold on_gdb_event. rewrite Hev. cbn [negb].
    eapply bind_run_eq; [apply lift_eq, Hty|].
    eapply bind_run_eq; [apply lift_eq, Hmsg|].
    eapply bind_run_eq; [apply lift_eq, Hpl|].
    cbn [is_str String.eqb Ascii.eqb Bool.eqb].
    eapply bind_run_eq; [apply lift_eq, Hre|].
    rewrite Hr1, Hr2. cbn [orb].
    eapply bind_run_eq; [apply modify_eq|].
    eapply bind_run_eq; [apply lift_eq, Hfr|].
    eapply bind_run_eq; [apply frame_location_run, Hfok|].
    eapply bind_run_eq; [apply read_eq|].
    eapply bind_run_eq; [apply send_json_eq|].
    eapply bind_run_eq; [apply read_eq|].
    eapply bind_run_eq; [apply log_eq|].
    eapply bind_run_eq; [apply write_ok|apply write_ok].
    - autorewrite with proj. exact Hch.
    - autorewrite with proj. exact Hch. }
  autorewrite with proj. cbn [app].
  rewrite <- app_assoc, <- written_app. reflexivity.
Qed.

(** What a pause does, in terms of the state after it and of the calls
    made. *)
Lemma stopped_run_facts :
  forall now event payload reason frame st,
    truthy event = true ->
    get event "type" VNone = inr (VStr "notify") ->
    get event "message" VNone = inr (VStr "stopped") ->
    get event "payload" (VDict []) = inr payload ->
    get payload "reason" VNone = inr reason ->
    is_str reason "exited-normally" = false ->
    is_str reason "exited" = false ->
    get payload "frame" (VDict []) = inr frame ->
    (truthy frame = true -> exists d, frame = VDict d) ->
    channel_ok st ->
    let r := on_gdb_event py_repr now event st in
    let loc := frame_location frame (location st) in
    let paused := set_location loc (set_status Paused st) in
    let entry := log_entry "info" (paused_text py_repr reason loc) now in
    r_res r = inr tt /\
    status (r_state r) = Paused /\
    location (r_state r) = loc /\
    stack (r_state r) = stack st /\
    variables (r_state r) = variables st /\
    r_trace r = [CSend (to_dict paused); CSend entry;
                 CWrite "101-stack-list-frames";
                 CWrite "102-stack-list-locals --simple-values"] /\
    pty_written (world (r_state r)) =
      (pty_written (world st) ++
       written st ["101-stack-list-frames";
                   "102-stack-list-locals --simple-values"])%list /\
    wire (world (r_state r)) =
      (wire (world st) ++ frames st [to_dict paused; entry])%list.
Proof.
  intros now event payload reason frame st Hev Hty Hmsg Hpl Hre Hr1 Hr2 Hfr
         Hfok Hch r loc paused entry.
  subst r.
  rewrite (on_stopped_run now event payload reason frame st) by assumption.
  cbn [r_res r_state r_trace].
  fold loc. fold paused. fold entry.
  change (world (set_pty_written ?a ?s)) with
    (mkWorld (open_fds (world s)) a (spawned (world s)) (terminated (world s))
             (ws_closed (world s)) (wire (world s))).
  cbn [status location stack variables set_pty_written set_world world
       pty_written wire].
  autorewrite with proj.
  change (frames paused) with (frames st).
  rewrite <- app_assoc, <- (frames_app st [to_dict paused] [entry]).
  repeat split; reflexivity.
Qed.


(* ------------------------------------------------------------------ *)
(** *** What a coroutine leaves untouched *)

Section Keeps.
Context {X : Type} (proj : State -> X).

Lemma keeps_ret {A : Type} (a : A) : keeps proj (ret a).
Proof. intros st. reflexivity. Qed.

Lemma keeps_raise {A : Type} (e : exn) : keeps proj (@raise A e).
Proof. intros st. reflexivity. Qed.

Lemma keeps_lift {A : Type} (x : Exc A) : keeps proj (lift x).
Proof. destruct x; intros st; reflexivity. Qed.

Lemma keeps_read {A : Type} (f : State -> A) : keeps proj (read f).
Proof. intros st. reflexivity. Qed.

Lemma keeps_called (c : Call) : keeps proj (called c).
Proof. intros st. reflexivity. Qed.

Lemma keeps_modify (f : State -> State) :
  (forall st, proj (f st) = proj st) -> keeps proj (modify f).
Proof. intros H st. apply H. Qed.

Lemma keeps_bind {A B : Type} (m : M A) (f : A -> M B) :
  keeps proj m -> (forall a, keeps proj (f a)) -> keeps proj (bind m f).
Proof.
  intros Hm Hf st. unfold bind.
  destruct (r_res (m st)) as [e|a] eqn:Hres; cbn.
  - apply Hm.
  - rewrite Hf. apply Hm.
Qed.

Lemma keeps_try_catch {A : Type} (m : M A) (h : exn -> M A) :
  keeps proj m -> (forall e, keeps proj (h e)) -> keeps proj (try_catch m h).
Proof.
  intros Hm Hh st. unfold try_catch.
  destruct (r_res (m st)) as [e|a] eqn:Hres; cbn.
  - rewrite Hh. apply Hm.
  - apply Hm.
Qed.

Lemma keeps_bind_lift {A B : Type} (x : Exc A) (f : A -> M B) :
  (forall a, x = inr a -> keeps proj (f a)) -> keeps proj (bind (lift x) f).
Proof.
  intros Hf. destruct x as [e|a].
  - intros st. reflexivity.
  - intros st. unfold bind. cbn. now rewrite (Hf a eq_refl).
Qed.

Lemma keeps_for_each {A : Type} (l : list A) (body : A -> M unit) :
  (forall x, keeps proj (body x)) -> keeps proj (for_each l body).
Proof.
  intros Hb. induction l as [|x l IH]; cbn [for_each].
  - apply keeps_ret.
  - apply keeps_bind; [apply Hb|intros _; exact IH].
Qed.

End Keeps.

Lemma keeps_status_send_json (data : value) : keeps status (send_json data).
Proof. intros st. rewrite send_json_eq. apply deliver_status. Qed.

Lemma keeps_status_log (level text now : string) :
  keeps status (log level text now).
Proof. intros st. rewrite log_eq. cbn. now autorewrite with proj. Qed.

Lemma keeps_status_os_close (fd : nat) : keeps status (os_close fd).
Proof.
  intros st. unfold os_close.
  destruct (mem_nat fd (open_fds (world st))); reflexivity.
Qed.

Lemma keeps_status_os_write (fd : nat) (data : string) :
  keeps status (os_write fd data).
Proof.
  intros st. unfold os_write.
  destruct (mem_nat fd (open_fds (world st))); reflexivity.
Qed.

Lemma keeps_history_send_json (data : value) :
  keeps log_history (send_json data).
Proof. intros st. rewrite send_json_eq. apply deliver_log_history. Qed.

Lemma keeps_history_os_close (fd : nat) : keeps log_history (os_close fd).
Proof.
  intros st. unfold os_close.
  destruct (mem_nat fd (open_fds (world st))); reflexivity.
Qed.

Lemma keeps_history_os_write (fd : nat) (data : string) :
  keeps log_history (os_write fd data).
Proof.
  intros st. unfold os_write.
  destruct (mem_nat fd (open_fds (world st))); reflexivity.
Qed.

Ltac keeps_step :=
  lazymatch goal with
  | |- keeps _ (ret _) => apply keeps_ret
  | |- keeps _ (raise _) => apply keeps_raise
  | |- keeps _ (lift _) => apply keeps_lift
  | |- keeps _ (read _) => apply keeps_read
  | |- keeps _ (called _) => apply keeps_called
  | |- keeps _ (modify _) => apply keeps_modify; intros; reflexivity
  | |- keeps status (send_json _) => apply keeps_status_send_json
  | |- keeps status (log _ _ _) => apply keeps_status_log
  | |- keeps status (os_close _) => apply keeps_status_os_close
  | |- keeps status (os_write _ _) => apply keeps_status_os_write
  | |- keeps log_history (send_json _) => apply keeps_history_send_json
  | |- keeps log_history (os_close _) => apply keeps_history_os_close
  | |- keeps log_history (os_write _ _) => apply keeps_history_os_write
  | |- keeps _ (bind _ _) => apply keeps_bind; [|intros]
  | |- keeps _ (try_catch _ _) => apply keeps_try_catch; [|intros]
  | |- keeps _ (for_each _ _) => apply keeps_for_each; intros
  | |- keeps _ (if ?c then _ else _) => destruct c
  | |- keeps _ (match ?x with _ => _ end) => destruct x
  end.

Lemma keeps_status_write (cmd : string) : keeps status (write cmd).
Proof. unfold write. repeat keeps_step. Qed.

Lemma keeps_status_start (exe : value) :
  keeps status (start py_repr os_path_exists popen exe).
Proof.
  unfold start, openpty. apply keeps_bind; [intros st; reflexivity|].
  intros [m s]. repeat keeps_step.
Qed.

Lemma keeps_status_on_result_token (token payload : value) :
  keeps status (on_result_token token payload).
Proof. unfold on_result_token. repeat keeps_step. Qed.

Lemma keeps_status_on_result_error (msg payload : value) (now : string) :
  keeps status (on_result_error py_repr msg payload now).
Proof. unfold on_result_error. repeat keeps_step. Qed.

Lemma try_catch_raise_eq {A : Type} (m : M A) (h : exn -> M A) (st : State)
    (e : exn) (st1 : State) (tr1 : list Call)
    (res : Exc A) (st2 : State) (tr2 : list Call) :
  m st = mkRun (inl e) st1 tr1 ->
  h e st1 = mkRun res st2 tr2 ->
  try_catch m h st = mkRun res st2 (tr1 ++ tr2).
Proof. intros Hm Hh. unfold try_catch. rewrite Hm. cbn. now rewrite Hh. Qed.

Lemma run_eta {A : Type} (r : Run A) :
  r = mkRun (r_res r) (r_state r) (r_trace r).
Proof. now destruct r. Qed.

(** [start] on an executable that does not exist. *)
Lemma start_not_found_run (exe : value) (st : State) :
  truthy exe = true ->
  os_path_exists exe = inr false ->
  let m := fresh_fd (open_fds (world st)) in
  let s := fresh_fd (m :: open_fds (world st)) in
  start py_repr os_path_exists popen exe st =
  mkRun (inl (Exn FileNotFoundError
                  ("Binary not found: " ++ py_str py_repr exe)))
        (set_master_fd (Some m)
           (set_open_fds (s :: m :: open_fds (world st)) st))
        [].
Proof.
  intros Hexe Hmissing m s.
  unfold start, bind, openpty, modify, lift, raise, ret.
  cbn -[fresh_fd]. rewrite Hexe. cbn -[fresh_fd]. rewrite Hmissing.
  reflexivity.
Qed.

(** The init action when [start] raises [e]. *)
Lemma init_failure_run (now : string) (args exe : value) (st : State)
    (e : exn) :
  get args "executable" VNone = inr exe ->
  r_res (start py_repr os_path_exists popen exe st) = inl e ->
  let started := start py_repr os_path_exists popen exe st in
  let entry := log_entry "error" ("Failed to start GDB: " ++ exn_str e) now in
  let err := error_msg_of (VStr ("Startup Failed: " ++ exn_str e)) in
  handle_command py_repr os_path_exists popen now (VStr "init") args st =
  mkRun (inr tt)
        (deliver err (deliver entry (push_log entry (r_state started))))
        (r_trace started ++ [CSend entry; CSend err]).
Proof.
  intros Hexe Hres started entry err.
  unfold handle_command. cbn [is_str String.eqb Ascii.eqb Bool.eqb].
  etransitivity.
  { eapply bind_run_eq; [apply lift_eq, Hexe|].
    eapply try_catch_raise_eq.
    - apply bind_raise_eq. rewrite (run_eta (start _ _ _ _ _)).
      rewrite Hres. reflexivity.
    - eapply bind_run_eq; [apply log_eq|apply send_json_eq]. }
  reflexivity.
Qed.

(** What an init action whose [start] raises does, in terms of the state
    after it and of the calls made. *)
Lemma init_failure_facts :
  (forall now args exe st,
      get args "executable" VNone = inr exe ->
      truthy exe = true ->
      os_path_exists exe = inr false ->
      let r := handle_command py_repr os_path_exists popen now
                              (VStr "init") args st in
      let why := "Binary not found: " ++ py_str py_repr exe in
      let entry := log_entry "error" ("Failed to start GDB: " ++ why) now in
      let err := error_msg_of (VStr ("Startup Failed: " ++ why)) in
      r_res (start py_repr os_path_exists popen exe st) =
        inl (Exn FileNotFoundError why) /\
      r_res r = inr tt /\
      status (r_state r) = status st /\
      (status st = Ready -> status (r_state r) = Ready) /\
      stack (r_state r) = stack st /\
      variables (r_state r) = variables st /\
      location (r_state r) = location st /\
      process (wrapper (r_state r)) = process (wrapper st) /\
      spawned (world (r_state r)) = spawned (world st) /\
      r_trace r = [CSend entry; CSend err] /\
      log_history (r_state r) = log_history (push_log entry st) /\
      wire (world (r_state r)) =
        (wire (world st) ++ frames st [entry; err])%list) /\
  (forall now args exe st e,
      get args "executable" VNone = inr exe ->
      r_res (start py_repr os_path_exists popen exe st) = inl e ->
      let r := handle_command py_repr os_path_exists popen now
                              (VStr "init") args st in
      r_res r = inr tt /\
      status (r_state r) = status st /\
      exists calls,
        r_trace r =
          (calls ++
           [CSend (log_entry "error" ("Failed to start GDB: " ++ exn_str e) now);
            CSend (error_msg_of (VStr ("Startup Failed: " ++ exn_str e)))])%list) /\
  (forall now event st,
      get event "type" VNone = inr (VStr "result") ->
      status (r_state (on_gdb_event py_repr now event st)) = status st).
Proof.
  split; [|split].
  - intros now args exe st Hexe Ht Hmissing r why entry err.
    pose proof (start_not_found_run exe st Ht Hmissing) as Hstart.
    cbv zeta in Hstart.
    assert (Hres : r_res (start py_repr os_path_exists popen exe st) =
                   inl (Exn FileNotFoundError why)) by now rewrite Hstart.
    split; [exact Hres|].
    subst r.
    rewrite (init_failure_run now args exe st _ Hexe Hres).
    rewrite Hstart. cbn [r_res r_state r_trace exn_str app].
    fold why. fold entry. fold err.
    autorewrite with proj.
    repeat split; try reflexivity.
    + intros Hready. exact Hready.
    + rewrite <- app_assoc, <- frames_app. reflexivity.
  - intros now args exe st e Hexe Hres r. subst r.
    rewrite (init_failure_run now args exe st e Hexe Hres).
    cbn [r_res r_state r_trace]. autorewrite with proj.
    repeat split.
    + apply keeps_status_start.
    + eexists. reflexivity.
  - intros now event st Hty.
    unfold on_gdb_event.
    destruct (truthy event); cbn [negb]; [|reflexivity].
    match goal with
    | |- status (r_state (?m st)) = _ => enough (H : keeps status m) by apply H
    end.
    apply keeps_bind_lift. intros msg_type Hm.
    rewrite Hty in Hm. injection Hm as <-.
    apply keeps_bind; [apply keeps_lift|]. intros msg.
    apply keeps_bind; [apply keeps_lift|]. intros payload.
    cbn [is_str String.eqb Ascii.eqb Bool.eqb].
    apply keeps_bind; [apply keeps_lift|]. intros token.
    apply keeps_bind; [apply keeps_status_on_result_token|]. intros _.
    apply keeps_status_on_result_error.
Qed.


(* ------------------------------------------------------------------ *)
(** *** Events that are not handled *)

Lemma get_of_dict (v : value) (k : string) (default x : value) :
  get v k default = inr x -> exists d, v = VDict d.
Proof. destruct v; try discriminate. intros _. now eexists. Qed.

(** A notification that is neither "running" nor "stopped". *)
Lemma on_other_notify_run (now : string) (event msg : value) (st : State) :
  truthy event = true ->
  get event "type" VNone = inr (VStr "notify") ->
  get event "message" VNone = inr msg ->
  is_str msg "running" = false ->
  is_str msg "stopped" = false ->
  on_gdb_event py_repr now event st = mkRun (inr tt) st [].
Proof.
  intros Hev Hty Hmsg Hrun Hstop.
  destruct (get_of_dict _ _ _ _ Hty) as [d ->].
  unfold on_gdb_event. rewrite Hev. cbn [negb].
  etransitivity.
  { eapply bind_run_eq; [apply lift_eq, Hty|].
    eapply bind_run_eq; [apply lift_eq, Hmsg|].
    eapply bind_run_eq; [apply lift_eq; reflexivity|].
    cbn [is_str String.eqb Ascii.eqb Bool.eqb].
    rewrite Hrun, Hstop. apply ret_eq. }
  reflexivity.
Qed.

(** An event whose type is none of "console", "notify" and "result". *)
Lemma on_other_type_run (now : string) (d : list (string * value))
    (ty : value) (st : State) :
  get (VDict d) "type" VNone = inr ty ->
  is_str ty "console" = false ->
  is_str ty "notify" = false ->
  is_str ty "result" = false ->
  on_gdb_event py_repr now (VDict d) st = mkRun (inr tt) st [].
Proof.
  intros Hty Hc Hn Hr.
  unfold on_gdb_event. destruct (truthy (VDict d)); [|reflexivity].
  cbn [negb].
  etransitivity.
  { eapply bind_run_eq; [apply lift_eq, Hty|].
    eapply bind_run_eq; [apply lift_eq; reflexivity|].
    eapply bind_run_eq; [apply lift_eq; reflexivity|].
    rewrite Hc, Hn, Hr. apply ret_eq. }
  reflexivity.
Qed.



(** A result event, up to its error handling. *)
Lemma on_result_run (now : string) (event msg payload token : value)
    (st st1 st2 : State) (tr1 tr2 : list Call) :
  truthy event = true ->
  get event "type" VNone = inr (VStr "result") ->
  get event "message" VNone = inr msg ->
  get event "payload" (VDict []) = inr payload ->
  get event "token" VNone = inr token ->
  on_result_token token payload st = mkRun (inr tt) st1 tr1 ->
  on_result_error py_repr msg payload now st1 = mkRun (inr tt) st2 tr2 ->
  on_gdb_event py_repr now event st = mkRun (inr tt) st2 (tr1 ++ tr2).
Proof.
  intros Hev Hty Hmsg Hpl Htok Hdisp Herr.
  unfold on_gdb_event. rewrite Hev. cbn [negb].
  etransitivity.
  { eapply bind_run_eq; [apply lift_eq, Hty|].
    eapply bind_run_eq; [apply lift_eq, Hmsg|].
    eapply bind_run_eq; [apply lift_eq, Hpl|].
    cbn [is_str String.eqb Ascii.eqb Bool.eqb].
    eapply bind_run_eq; [apply lift_eq, Htok|].
    eapply bind_run_eq; [apply Hdisp|apply Herr]. }
  reflexivity.
Qed.


(* ------------------------------------------------------------------ *)
(** *** The parser *)

Lemma assoc_nonempty (k : string) (d : list (string * value)) (v : value) :
  assoc k d = Some v -> truthy (VDict d) = true.
Proof. destruct d; [discriminate|reflexivity]. Qed.

Lemma parse_line_other (line : string) (d : list (string * value))
    (ty : value) :
  parse_response line = inr (VDict d) ->
  assoc "type" d = Some ty ->
  is_str ty "console" = false ->
  is_str ty "notify" = false ->
  is_str ty "result" = false ->
  _parse_line parse_response line =
  if is_str ty "output" then VNone else VDict d.
Proof.
  intros Hp Hty Hc Hn Hr.
  unfold _parse_line, parse_line_body. rewrite Hp.
  cbn [lift_exc]. rewrite (assoc_nonempty _ _ _ Hty). cbn [negb].
  unfold subscript. rewrite Hty. cbn [lift_exc].
  rewrite Hc, Hn, Hr. now destruct (is_str ty "output").
Qed.

(** C7, as the code has it. A line the protocol parser gives as an output
    record produces no event and nothing is handed to the event handler for
    it. A line it gives as a log record produces the record itself as the
    event, the read loop hands it to the event handler, and the session's
    handler ignores it: no state change, nothing sent, nothing written. *)
Theorem output_dropped_log_passed_on :
  (forall line d,
      parse_response line = inr (VDict d) ->
      assoc "type" d = Some (VStr "output") ->
      _parse_line parse_response line = VNone) /\
  (forall on_event line rest d st,
      parse_response (strip line) = inr (VDict d) ->
      assoc "type" d = Some (VStr "output") ->
      dispatch_lines parse_response on_event [line] rest st =
      mkRun (inr (rest, None)) st []) /\
  (forall line d,
      parse_response line = inr (VDict d) ->
      assoc "type" d = Some (VStr "log") ->
      _parse_line parse_response line = VDict d) /\
  (forall on_event line rest d st,
      parse_response (strip line) = inr (VDict d) ->
      assoc "type" d = Some (VStr "log") ->
      let r := dispatch_lines parse_response on_event [line] rest st in
      r_state r = r_state (on_event (VDict d) st) /\
      r_trace r = r_trace (on_event (VDict d) st)) /\
  (forall now d st,
      assoc "type" d = Some (VStr "log") ->
      on_gdb_event py_repr now (VDict d) st = mkRun (inr tt) st []).
Proof.
  split; [|split; [|split; [|split]]].
  - intros line d Hp Hty.
    now rewrite (parse_line_other line d (VStr "output") Hp Hty).
  - intros on_event line rest d st Hp Hty. cbn [dispatch_lines].
    rewrite (parse_line_other (strip line) d (VStr "output") Hp Hty)
      by reflexivity.
    reflexivity.
  - intros line d Hp Hty.
    now rewrite (parse_line_other line d (VStr "log") Hp Hty).
  - intros on_event line rest d st Hp Hty. cbn [dispatch_lines].
    rewrite (parse_line_other (strip line) d (VStr "log") Hp Hty)
      by reflexivity.
    cbn [is_str String.eqb Ascii.eqb Bool.eqb].
    rewrite (assoc_nonempty _ _ _ Hty).
    destruct (r_res (on_event (VDict d) st)); cbn;
      rewrite ?app_nil_r; split; reflexivity.
  - intros now d st Hty.
    apply (on_other_type_run now d (VStr "log")); try reflexivity.
    cbn. now rewrite Hty.
Qed.

(* ------------------------------------------------------------------ *)
(** *** Attaching *)

Lemma set_wire_twice (a b : list (nat * value)) (st : State) :
  set_wire a (set_wire b st) = set_wire a st.
Proof. reflexivity. Qed.

Lemma set_wire_same (st : State) : set_wire (wire (world st)) st = st.
Proof. destruct st as [? ? ? ? ? ? ? ? []]. reflexivity. Qed.

Lemma deliver_open (t : nat) (x : value) (st : State) :
  websocket st = Some t ->
  mem_nat t (ws_closed (world st)) = false ->
  deliver x st = set_wire (wire (world st) ++ [(t, x)]) st.
Proof. intros Hws Hopen. unfold deliver. now rewrite Hws, Hopen. Qed.

(** The replay loop of [attach] towards a transport whose sends succeed. *)
Lemma replay_run (t : nat) (l : list value) :
  forall st,
    websocket st = Some t ->
    mem_nat t (ws_closed (world st)) = false ->
    for_each l send_json st =
    mkRun (inr tt) (set_wire (wire (world st) ++ map (pair t) l) st)
          (map CSend l).
Proof.
  induction l as [|x l IH]; intros st Hws Hopen.
  - cbn [for_each map]. rewrite app_nil_r, set_wire_same. reflexivity.
  - cbn [for_each map].
    etransitivity.
    { eapply bind_run_eq; [apply send_json_eq|].
      rewrite (deliver_open t) by assumption. apply IH; assumption. }
    rewrite set_wire_twice. cbn [app].
    change (wire (world (set_wire ?a ?s))) with a.
    now rewrite <- app_assoc.
Qed.

(** C1, as the code has it. Detaching and then attaching a transport whose
    sends succeed delivers to it, first, the snapshot of the state as it
    stands, then the most recent min(10, history length) log entries in
    the order of the history, and changes nothing else than the transport
    reference. The entries replayed are taken from the history whether or
    not they were delivered to a transport before. *)
Theorem reattach_replays_recent_history :
  forall st t,
    mem_nat t (ws_closed (world st)) = false ->
    let r := (detach ;; attach t) st in
    let replay := last_n 10 (log_history st) in
    r_res r = inr tt /\
    r_state r =
      set_wire (wire (world st) ++ (t, to_dict st) :: map (pair t) replay)
               (set_websocket (Some t) st) /\
    r_trace r = CSend (to_dict st) :: map CSend replay /\
    length replay = Nat.min 10 (length (log_history st)) /\
    (exists older, log_history st = (older ++ replay)%list).
Proof.
  intros st t Hopen r replay.
  assert (Hr : r = mkRun (inr tt)
                 (set_wire (wire (world st) ++ (t, to_dict st) :: map (pair t) replay)
                           (set_websocket (Some t) st))
                 (CSend (to_dict st) :: map CSend replay)).
  { subst r. unfold detach, attach.
    etransitivity.
    { eapply bind_run_eq; [apply modify_eq|].
      eapply bind_run_eq; [apply read_eq|].
      cbn [websocket set_websocket].
      eapply bind_run_eq; [apply ret_eq|].
      eapply bind_run_eq; [apply modify_eq|].
      eapply bind_run_eq; [apply read_eq|].
      eapply bind_run_eq; [apply send_json_eq|].
      rewrite (deliver_open t) by (try reflexivity; exact Hopen).
      eapply bind_run_eq; [apply read_eq|].
      apply (replay_run t); [reflexivity|exact Hopen]. }
    rewrite set_wire_twice. cbn [app].
    change (wire (world (set_wire ?a ?s))) with a.
    rewrite <- app_assoc. reflexivity. }
  rewrite Hr. cbn [r_res r_state r_trace].
  repeat split.
  - apply last_n_length.
  - eexists. apply last_n_suffix.
Qed.


(* ------------------------------------------------------------------ *)
(** *** The bound on the log history, over all that is called *)

Lemma preserves_of_keeps {A : Type} (m : M A) :
  keeps log_history m -> preserves history_bounded m.
Proof. intros Hk st H. unfold history_bounded. now rewrite Hk. Qed.

Lemma preserves_bind {A B : Type} (P : State -> Prop)
    (m : M A) (f : A -> M B) :
  preserves P m -> (forall a, preserves P (f a)) -> preserves P (bind m f).
Proof.
  intros Hm Hf st H. unfold bind.
  destruct (r_res (m st)) as [e|a] eqn:Hres; cbn.
  - now apply Hm.
  - apply Hf. now apply Hm.
Qed.

Lemma preserves_try_catch {A : Type} (P : State -> Prop)
    (m : M A) (h : exn -> M A) :
  preserves P m -> (forall e, preserves P (h e)) ->
  preserves P (try_catch m h).
Proof.
  intros Hm Hh st H. unfold try_catch.
  destruct (r_res (m st)) as [e|a] eqn:Hres; cbn.
  - apply Hh. now apply Hm.
  - now apply Hm.
Qed.

Lemma preserves_log (level text now : string) :
  preserves history_bounded (log level text now).
Proof.
  intros st H. unfold history_bounded in *.
  rewrite log_history_after_log, last_n_length by assumption. lia.
Qed.

Ltac bounded_step :=
  lazymatch goal with
  | |- preserves _ (log _ _ _) => apply preserves_log
  | |- preserves _ (bind _ _) => apply preserves_bind; [|intros]
  | |- preserves _ (try_catch _ _) => apply preserves_try_catch; [|intros]
  | |- preserves _ (if ?c then _ else _) => destruct c
  | |- preserves _ (match ?x with _ => _ end) => destruct x
  | |- preserves _ _ => apply preserves_of_keeps; repeat keeps_step
  end.

Lemma keeps_history_start (exe : value) :
  keeps log_history (start py_repr os_path_exists popen exe).
Proof.
  unfold start, openpty. apply keeps_bind; [intros st; reflexivity|].
  intros [m s]. repeat keeps_step.
Qed.

Lemma keeps_history_stop : keeps log_history stop.
Proof. intros st. apply stop_eq. Qed.

Lemma preserves_run_op (o : Op) :
  preserves history_bounded (run_op py_repr os_path_exists popen o).
Proof.
  destruct o as [ws| |level text now|now event|now action args]; cbn [run_op].
  - unfold attach. apply preserves_of_keeps. repeat keeps_step.
  - unfold detach. apply preserves_of_keeps. repeat keeps_step.
  - apply preserves_log.
  - unfold on_gdb_event, on_result_token, on_result_error, write.
    repeat bounded_step.
  - unfold handle_command, write.
    repeat
      lazymatch goal with
      | |- preserves _ (start _ _ _ _) =>
          apply preserves_of_keeps, keeps_history_start
      | |- preserves _ stop => apply preserves_of_keeps, keeps_history_stop
      | |- _ => bounded_step
      end.
Qed.

Lemma run_ops_bounded (ops : list Op) :
  forall st,
    history_bounded st ->
    history_bounded (run_ops py_repr os_path_exists popen ops st).
Proof.
  induction ops as [|o ops IH]; intros st H; cbn [run_ops].
  - exact H.
  - apply IH. now apply preserves_run_op.
Qed.

(** C8. The log history never holds more than 50 entries: an append to a
    history of at most 50 entries leaves at most 50; an append to a full
    history evicts the oldest entry and keeps the others in order, the new
    entry last; after any sequence of appends to a new session the
    history is the last min(50, n) entries appended, in the order of the
    appends; and the bound holds after any sequence of calls on a new
    session (attach, detach, log, debugger events, client commands). *)
Theorem log_history_bounded_fifo :
  (forall level text now st,
      length (log_history st) <= 50 ->
      length (log_history (r_state (log level text now st))) <= 50) /\
  (forall level text now st,
      length (log_history st) < 50 ->
      log_history (r_state (log level text now st)) =
      (log_history st ++ [log_entry level text now])%list) /\
  (forall level text now st,
      length (log_history st) = 50 ->
      log_history (r_state (log level text now st)) =
      (tl (log_history st) ++ [log_entry level text now])%list) /\
  (forall sid w entries,
      let st := r_state (log_all entries (new_session sid w)) in
      length (log_history st) <= 50 /\
      length (log_history st) = Nat.min 50 (length entries) /\
      log_history st = last_n 50 (map entry_of entries)) /\
  (forall sid w ops,
      length (log_history
                (run_ops py_repr os_path_exists popen ops (new_session sid w)))
      <= 50).
Proof.
  split; [|split; [|split; [|split]]].
  - intros level text now st H.
    rewrite log_history_after_log, last_n_length by assumption. lia.
  - intros level text now st H.
    rewrite log_history_after_log by lia.
    apply last_n_short. rewrite length_app. cbn. lia.
  - intros level text now st H.
    rewrite log_history_after_log by lia.
    unfold last_n. rewrite length_app. cbn [length].
    replace (length (log_history st) + 1 - 50) with 1 by lia.
    destruct (log_history st); [discriminate|reflexivity].
  - intros sid w entries st.
    assert (Hst : log_history st = last_n 50 (map entry_of entries)).
    { subst st. rewrite log_all_history by (cbn; lia). reflexivity. }
    rewrite Hst, last_n_length, length_map. repeat split; lia.
  - intros sid w ops. apply run_ops_bounded.
    unfold history_bounded. cbn. lia.
Qed.

(* ------------------------------------------------------------------ *)
(** *** The buffer of the read loop *)

Lemma split_lines_cons (a : ascii) (t : string) :
  split_lines (String a t) =
  let (ls, rest) := split_lines t in
  if (a =? nl)%char then (EmptyString :: ls, rest)
  else match ls with
       | [] => ([], String a rest)
       | l :: ls' => (String a l :: ls', rest)
       end.
Proof. reflexivity. Qed.

(** Splitting a buffer into its complete lines and the rest loses no byte
    and leaves no newline in a line or in the rest. *)
Theorem buffer_split_loses_nothing :
  forall buffer,
    let (ls, rest) := split_lines buffer in
    join_lines ls rest = buffer /\
    contains nl rest = false /\
    Forall (fun l => contains nl l = false) ls.
Proof.
  induction buffer as [|a t IH].
  - cbn. repeat split. constructor.
  - rewrite split_lines_cons.
    destruct (split_lines t) as [ls rest].
    destruct IH as (Hjoin & Hrest & Hls).
    destruct (a =? nl)%char eqn:Ha.
    + apply Ascii.eqb_eq in Ha. subst a.
      repeat split; try assumption.
      * cbn. now rewrite Hjoin.
      * constructor; [reflexivity|assumption].
    + destruct ls as [|l ls'].
      * cbn in Hjoin. subst t. repeat split.
        -- cbn [contains]. now rewrite Ha, Hrest.
        -- constructor.
      * repeat split; try assumption.
        -- cbn. cbn in Hjoin. now rewrite Hjoin.
        -- inversion Hls as [|? ? Hl Hls']; subst.
           constructor; [|assumption].
           cbn [contains]. now rewrite Ha, Hl.
Qed.

Lemma split_lines_no_newline (s : string) :
  contains nl s = false -> split_lines s = ([], s).
Proof.
  induction s as [|a t IH]; intros H; [reflexivity|].
  cbn [contains] in H. apply orb_false_iff in H. destruct H as [Ha Ht].
  rewrite split_lines_cons, (IH Ht), Ha. reflexivity.
Qed.

(** The lines of a buffer followed by more bytes: those of the buffer, then
    those of its rest followed by the new bytes. *)
Lemma split_lines_app (a b : string) :
  split_lines (a ++ b) =
  let (la, ra) := split_lines a in
  let (lb, rb) := split_lines (ra ++ b) in
  ((la ++ lb)%list, rb).
Proof.
  induction a as [|x a IH].
  - cbn. now destruct (split_lines b).
  - cbn [append]. rewrite !split_lines_cons, IH.
    destruct (split_lines a) as [la ra].
    destruct (x =? nl)%char eqn:Hx.
    + destruct (split_lines (ra ++ b)) as [lb rb]. reflexivity.
    + destruct la as [|l la'].
      * cbn [append]. rewrite split_lines_cons.
        destruct (split_lines (ra ++ b)) as [lb rb]. rewrite Hx.
        destruct lb; reflexivity.
      * destruct (split_lines (ra ++ b)) as [lb rb]. reflexivity.
Qed.

(* ------------------------------------------------------------------ *)
(** *** The session a connection asks for *)

Lemma str_app_assoc (a b c : string) : (a ++ b) ++ c = a ++ (b ++ c).
Proof. induction a as [|x a IH]; [reflexivity|]. cbn. now rewrite IH. Qed.

Lemma str_app_nil_r (a : string) : a ++ "" = a.
Proof. induction a as [|x a IH]; [reflexivity|]. cbn. now rewrite IH. Qed.

Lemma str_length_app (a b : string) :
  String.length (a ++ b) = String.length a + String.length b.
Proof. induction a as [|x a IH]; [reflexivity|]. cbn. now rewrite IH. Qed.

Lemma rev_string_acc (s acc : string) :
  rev_string s acc = rev_string s "" ++ acc.
Proof.
  revert acc. induction s as [|a t IH]; intros acc; [reflexivity|].
  cbn. rewrite IH, (IH (String a "")).
  rewrite str_app_assoc. reflexivity.
Qed.

Lemma rev_string_app (a b acc : string) :
  rev_string (a ++ b) acc = rev_string b (rev_string a acc).
Proof.
  revert acc. induction a as [|x a IH]; intros acc; [reflexivity|].
  cbn. apply IH.
Qed.

Lemma rev_string_twice (s acc acc' : string) :
  rev_string (rev_string s acc) acc' = rev_string acc (s ++ acc').
Proof.
  revert acc acc'. induction s as [|a t IH]; intros acc acc'; [reflexivity|].
  cbn. now rewrite IH.
Qed.

Lemma rev_string_involutive (s : string) :
  rev_string (rev_string s "") "" = s.
Proof.
  rewrite rev_string_twice. cbn. apply str_app_nil_r.
Qed.

Lemma lstrip_char_starts (c : ascii) (s : string) :
  starts_with c (lstrip_char c s) = false.
Proof.
  induction s as [|a t IH]; [reflexivity|].
  cbn. destruct (a =? c)%char eqn:Ha; [exact IH|]. cbn. exact Ha.
Qed.

Lemma lstrip_char_suffix (c : ascii) (s : string) :
  exists p, s = p ++ lstrip_char c s.
Proof.
  induction s as [|a t [p Hp]]; [now exists ""|].
  cbn. destruct (a =? c)%char.
  - exists (String a p). cbn. now rewrite <- Hp.
  - now exists "".
Qed.

Lemma lstrip_char_fixed (c : ascii) (s : string) :
  starts_with c s = false -> lstrip_char c s = s.
Proof. destruct s as [|a t]; [reflexivity|]. cbn. now intros ->. Qed.

Lemma starts_with_app (c : ascii) (a b : string) :
  a <> "" -> starts_with c (a ++ b) = starts_with c a.
Proof. destruct a; [congruence|reflexivity]. Qed.

Lemma strip_char_ends (c : ascii) (s : string) :
  starts_with c (strip_char c s) = false /\
  ends_with c (strip_char c s) = false.
Proof.
  unfold strip_char, ends_with.
  set (u := lstrip_char c s).
  set (v := lstrip_char c (rev_string u "")).
  split.
  - destruct (lstrip_char_suffix c (rev_string u "")) as [p Hp].
    fold v in Hp.
    assert (Hu : u = rev_string v "" ++ rev_string p "").
    { rewrite <- (rev_string_involutive u), Hp, rev_string_app.
      apply rev_string_acc. }
    destruct (rev_string v "") as [|x r] eqn:Hv; [reflexivity|].
    pose proof (lstrip_char_starts c s) as Hs. fold u in Hs.
    rewrite Hu in Hs. exact Hs.
  - rewrite rev_string_involutive. apply lstrip_char_starts.
Qed.

(** A request path of at most one character asks for the session
    "default"; a longer one asks for the path without its leading and
    trailing slashes, so that [/name], [/name/] and [name/] ask for the
    same session, and no session asked for by a longer path has an
    identifier that begins or ends with a slash. *)
Theorem session_id_ignores_outer_slashes :
  (forall path,
      String.length path <= 1 -> session_id_of_path path = "default") /\
  (forall path,
      1 < String.length path ->
      starts_with "/" (session_id_of_path path) = false /\
      ends_with "/" (session_id_of_path path) = false) /\
  (forall name,
      name <> "" ->
      starts_with "/" name = false ->
      ends_with "/" name = false ->
      session_id_of_path ("/" ++ name) = name /\
      session_id_of_path ("/" ++ name ++ "/") = name /\
      session_id_of_path (name ++ "/") = name).
Proof.
  split; [|split].
  - intros path H. unfold session_id_of_path.
    destruct (1 <? String.length path)%nat eqn:Hlt; [|reflexivity].
    apply Nat.ltb_lt in Hlt. lia.
  - intros path H. unfold session_id_of_path.
    apply Nat.ltb_lt in H. rewrite H. apply strip_char_ends.
  - intros name Hne Hs He.
    assert (Hstrip : forall s, lstrip_char "/" s = name ->
                               strip_char "/" s = name).
    { intros s Hl. unfold strip_char. rewrite Hl.
      rewrite (lstrip_char_fixed "/" (rev_string name "")) by exact He.
      apply rev_string_involutive. }
    assert (Hstrip' : forall s, lstrip_char "/" s = name ++ "/" ->
                                strip_char "/" s = name).
    { intros s Hl. unfold strip_char. rewrite Hl.
      rewrite rev_string_app. cbn [rev_string].
      cbn [lstrip_char Ascii.eqb Bool.eqb].
      rewrite (lstrip_char_fixed "/" (rev_string name "")) by exact He.
      apply rev_string_involutive. }
    assert (Hlen : 0 < String.length name)
      by (destruct name; [congruence|cbn; lia]).
    assert (Hlong : forall path,
               1 < String.length path ->
               session_id_of_path path = strip_char "/" path).
    { intros path H. unfold session_id_of_path.
      apply Nat.ltb_lt in H. now rewrite H. }
    assert (Hl1 : lstrip_char "/" name = name)
      by now apply lstrip_char_fixed.
    assert (Hl2 : lstrip_char "/" (name ++ "/") = name ++ "/").
    { apply lstrip_char_fixed. now rewrite starts_with_app. }
    split; [|split].
    + rewrite Hlong by (cbn [append String.length]; lia).
      apply Hstrip. cbn [append lstrip_char Ascii.eqb Bool.eqb]. exact Hl1.
    + rewrite Hlong
        by (cbn [append String.length]; rewrite str_length_app; cbn; lia).
      apply Hstrip'. cbn [append lstrip_char Ascii.eqb Bool.eqb]. exact Hl2.
    + rewrite Hlong by (rewrite str_length_app; cbn; lia).
      apply Hstrip'. exact Hl2.
Qed.

(* ------------------------------------------------------------------ *)
(** *** Starting and stopping the process channel *)

Lemma deliver_terminated d st :
  terminated (world (deliver d st)) = terminated (world st).
Proof.
  unfold deliver. destruct (websocket st) as [t|]; [|reflexivity].
  destruct (mem_nat t (ws_closed (world st))); reflexivity.
Qed.

Lemma deliver_ws_closed d st :
  ws_closed (world (deliver d st)) = ws_closed (world st).
Proof. apply deliver_proj. Qed.

#[local] Hint Rewrite deliver_terminated deliver_ws_closed : proj.

Lemma filter_not_in (a : nat) (l : list nat) :
  ~ In a l -> filter (fun x => negb (x =? a)%nat) l = l.
Proof.
  induction l as [|x l IH]; intros H; [reflexivity|].
  cbn. destruct (Nat.eqb_spec x a) as [->|Hne].
  - exfalso. apply H. now left.
  - cbn. rewrite IH; [reflexivity|]. intros Hin. apply H. now right.
Qed.

Lemma filter_drop_head (a : nat) (l : list nat) :
  ~ In a l -> filter (fun x => negb (x =? a)%nat) (a :: l) = l.
Proof.
  intros H. cbn [filter]. rewrite Nat.eqb_refl. cbn [negb].
  now apply filter_not_in.
Qed.

Lemma filter_removes (a : nat) (l : list nat) :
  ~ In a (filter (fun x => negb (x =? a)%nat) l).
Proof.
  intros H. apply filter_In in H. destruct H as [_ H].
  now rewrite Nat.eqb_refl in H.
Qed.

Lemma os_close_open (fd : nat) (st : State) :
  In fd (open_fds (world st)) ->
  os_close fd st =
  mkRun (inr tt)
        (set_open_fds (filter (fun x => negb (x =? fd)%nat)
                              (open_fds (world st))) st) [].
Proof.
  intros H. unfold os_close. apply mem_nat_In in H. now rewrite H.
Qed.

Lemma write_stale (cmd : string) (st : State) (f : nat) :
  master_fd (wrapper st) = Some (S f) ->
  ~ In (S f) (open_fds (world st)) ->
  write cmd st =
  mkRun (inl (Exn OSError "Bad file descriptor")) st [CWrite cmd].
Proof.
  intros Hm Hout. unfold write, bind, called, read. cbn -[mem_nat].
  rewrite Hm. cbn -[mem_nat]. unfold os_write.
  destruct (mem_nat (S f) (open_fds (world st))) eqn:Hmem.
  - apply mem_nat_In in Hmem. contradiction.
  - reflexivity.
Qed.

(** The command line [start] builds (lines 22-26), when the executable, if
    one is given, exists. *)
Lemma start_argv_run (exe : value) (st : State) :
  (truthy exe = true -> os_path_exists exe = inr true) ->
  (if truthy exe then
     ex <- lift (os_path_exists exe) ;;
     if negb ex
     then raise (Exn FileNotFoundError
                     ("Binary not found: " ++ py_str py_repr exe))
     else ret (gdb_argv ++ [exe])%list
   else ret gdb_argv) st =
  mkRun (inr (if truthy exe then (gdb_argv ++ [exe])%list else gdb_argv))
        st [].
Proof.
  intros Hex. destruct (truthy exe); [|reflexivity].
  unfold bind. rewrite (Hex eq_refl). reflexivity.
Qed.

(** [start] when the spawn succeeds. *)
Lemma start_ok_run (exe : value) (st : State) (pid : nat) :
  (truthy exe = true -> os_path_exists exe = inr true) ->
  popen (if truthy exe then (gdb_argv ++ [exe])%list else gdb_argv)
    = inr pid ->
  let argv := if truthy exe then (gdb_argv ++ [exe])%list else gdb_argv in
  let m := fresh_fd (open_fds (world st)) in
  start py_repr os_path_exists popen exe st =
  mkRun (inr tt)
        (set_running true
           (set_open_fds (m :: open_fds (world st))
              (set_spawned (spawned (world st) ++ [(pid, argv)])
                 (set_process (Some pid) (set_master_fd (Some m) st)))))
        [].
Proof.
  intros Hex Hpopen argv m.
  set (s := fresh_fd (m :: open_fds (world st))).
  assert (Hs : ~ In s (m :: open_fds (world st))) by apply fresh_fd_not_used.
  unfold start.
  etransitivity.
  { eapply bind_run_eq; [reflexivity|]. cbv beta iota.
    eapply bind_run_eq; [apply modify_eq|].
    eapply bind_run_eq; [apply start_argv_run, Hex|].
    cbv beta. rewrite Hpopen.
    eapply bind_run_eq; [apply modify_eq|].
    eapply bind_run_eq; [apply modify_eq|].
    eapply bind_run_eq; [apply os_close_open; cbn; now left|].
    apply modify_eq. }
  cbn [app]. f_equal.
  cbn [set_running set_open_fds set_spawned set_process set_master_fd
       set_wrapper set_world world wrapper open_fds pty_written spawned
       terminated ws_closed wire process running master_fd session_id
       status stack variables location websocket log_history].
  fold m. fold s.
  pose proof (filter_drop_head s _ Hs) as Hf.
  rewrite Hf. reflexivity.
Qed.

(** [start] when the spawn raises. *)
Lemma start_spawn_error_run (exe : value) (st : State) (e : exn) (f : nat) :
  (truthy exe = true -> os_path_exists exe = inr true) ->
  popen (if truthy exe then (gdb_argv ++ [exe])%list else gdb_argv)
    = inl e ->
  fresh_fd (open_fds (world st)) = S f ->
  start py_repr os_path_exists popen exe st =
  mkRun (inl e) (set_master_fd (Some (S f)) st) [].
Proof.
  intros Hex Hpopen Hm.
  assert (Hmf : ~ In (S f) (open_fds (world st)))
    by (rewrite <- Hm; apply fresh_fd_not_used).
  set (s := fresh_fd (S f :: open_fds (world st))).
  assert (Hs : ~ In s (S f :: open_fds (world st)))
    by apply fresh_fd_not_used.
  pose proof (filter_drop_head s _ Hs) as Hf.
  pose proof (filter_drop_head (S f) _ Hmf) as Hf'.
  unfold start.
  etransitivity.
  { eapply bind_run_eq.
    { unfold openpty. rewrite Hm. fold s. reflexivity. }
    cbv beta iota.
    eapply bind_run_eq; [apply modify_eq|].
    eapply bind_run_eq; [apply start_argv_run, Hex|].
    cbv beta. rewrite Hpopen.
    eapply bind_run_eq; [apply os_close_open; cbn; now left|].
    eapply bind_run_eq; [apply read_eq|].
    cbn [master_fd wrapper set_open_fds set_world set_master_fd set_wrapper].
    eapply bind_run_eq.
    { apply os_close_open.
      cbn [set_open_fds set_master_fd set_wrapper set_world world wrapper
           open_fds].
      rewrite Hf. now left. }
    reflexivity. }
  cbn [app]. f_equal.
  cbn [set_open_fds set_master_fd set_wrapper set_world world wrapper
       open_fds pty_written spawned terminated ws_closed wire process
       running master_fd session_id status stack variables location
       websocket log_history].
  rewrite Hf, Hf'.
  destruct st as [? [? ? ?] ? ? ? ? ? ? []]. reflexivity.
Qed.

Lemma stop_closes_master (st : State) (f : nat) :
  master_fd (wrapper st) = Some (S f) ->
  master_fd (wrapper (r_state (stop st))) = None /\
  ~ In (S f) (open_fds (world (r_state (stop st)))).
Proof.
  destruct st as [sid [p r m] s sk vs loc ws lh [fds pw sp tm wc wi]].
  cbn [master_fd wrapper]. intros ->.
  unfold stop, bind, read, modify, try_catch, os_close.
  cbn -[mem_nat filter].
  destruct p as [pid|]; cbn -[mem_nat filter];
    destruct (mem_nat (S f) fds) eqn:Hmem; cbn -[mem_nat filter];
    (split; [reflexivity|]);
    first [ apply filter_removes
          | intros Hin; apply mem_nat_In in Hin; congruence ].
Qed.

Lemma stop_terminates (st : State) (pid : nat) :
  process (wrapper st) = Some pid ->
  terminated (world (r_state (stop st))) =
  (terminated (world st) ++ [pid])%list.
Proof.
  destruct st as [sid [p r m] s sk vs loc ws lh [fds pw sp tm wc wi]].
  cbn [process wrapper]. intros ->.
  unfold stop, bind, read, modify, try_catch, os_close.
  cbn -[mem_nat filter].
  destruct m as [[|f]|]; cbn -[mem_nat filter];
    try (destruct (mem_nat (S f) fds); cbn -[mem_nat filter]);
    reflexivity.
Qed.

(** [stop] on a channel that is already stopped. *)
Lemma stop_fixed (st : State) :
  process (wrapper st) = None ->
  running (wrapper st) = false ->
  fd_truthy (master_fd (wrapper st)) = false ->
  stop st = mkRun (inr tt) st [].
Proof.
  destruct st as [sid [p r m] s sk vs loc ws lh w].
  cbn [process running master_fd wrapper]. intros -> -> Hfd.
  destruct m as [[|f]|]; try discriminate; reflexivity.
Qed.

Lemma loop_not_running (on_event : value -> M unit)
    (script : list Readiness) (buffer : string) (st : State) :
  running (wrapper st) = false ->
  loop_from parse_response on_event script buffer st =
  mkRun (inr Returned) st [].
Proof. intros H. destruct script; cbn; now rewrite H. Qed.

(** [stop] leaves the channel stopped, whatever state it was in: no
    process, not running, no master descriptor in use, the descriptor it
    held closed and the process it held asked to end. A second [stop]
    changes nothing, and the read loop returns at once on a stopped
    channel without reading or dispatching anything. *)
Theorem stop_is_idempotent :
  forall st,
    let st1 := r_state (stop st) in
    r_res (stop st) = inr tt /\
    process (wrapper st1) = None /\
    running (wrapper st1) = false /\
    fd_truthy (master_fd (wrapper st1)) = false /\
    (forall f, master_fd (wrapper st) = Some (S f) ->
               master_fd (wrapper st1) = None /\
               ~ In (S f) (open_fds (world st1))) /\
    (forall pid, process (wrapper st) = Some pid ->
                 terminated (world st1) = (terminated (world st) ++ [pid])%list) /\
    stop st1 = mkRun (inr tt) st1 [] /\
    (forall on_event script buffer,
        loop_from parse_response on_event script buffer st1 =
        mkRun (inr Returned) st1 []).
Proof.
  intros st st1.
  destruct (stop_eq st) as (Hres & _ & Hp & Hr & Hfd & _).
  fold st1 in Hp, Hr, Hfd.
  split; [exact Hres|].
  split; [exact Hp|].
  split; [exact Hr|].
  split; [exact Hfd|].
  split; [intros f Hf; apply (stop_closes_master st f Hf)|].
  split; [intros pid Hpid; apply (stop_terminates st pid Hpid)|].
  split; [now apply stop_fixed|].
  intros on_event script buffer. now apply loop_not_running.
Qed.

(** When the spawn of the debugger raises, [start] closes both
    descriptors of the pseudo-terminal and raises the same exception, but
    leaves the number of the closed master on the channel: a later [write]
    finds it set and raises OSError instead of doing nothing. (Descriptor
    0 is taken to be open, so that the master is not numbered 0.) *)
Theorem spawn_failure_leaves_stale_descriptor :
  forall exe st e,
    In 0 (open_fds (world st)) ->
    (truthy exe = true -> os_path_exists exe = inr true) ->
    popen (if truthy exe then (gdb_argv ++ [exe])%list else gdb_argv)
      = inl e ->
    let r := start py_repr os_path_exists popen exe st in
    let m := fresh_fd (open_fds (world st)) in
    r_res r = inl e /\
    open_fds (world (r_state r)) = open_fds (world st) /\
    master_fd (wrapper (r_state r)) = Some m /\
    fd_truthy (master_fd (wrapper (r_state r))) = true /\
    ~ In m (open_fds (world (r_state r))) /\
    process (wrapper (r_state r)) = process (wrapper st) /\
    running (wrapper (r_state r)) = running (wrapper st) /\
    spawned (world (r_state r)) = spawned (world st) /\
    forall cmd,
      r_res (write cmd (r_state r)) =
        inl (Exn OSError "Bad file descriptor") /\
      r_state (write cmd (r_state r)) = r_state r.
Proof.
  intros exe st e H0 Hex Hpopen r m.
  destruct (fresh_fd_positive _ H0) as [f Hf].
  assert (Hm : ~ In m (open_fds (world st))) by apply fresh_fd_not_used.
  subst r. rewrite (start_spawn_error_run exe st e f Hex Hpopen Hf).
  cbn [r_res r_state r_trace]. subst m. rewrite Hf in *.
  assert (Hw : forall cmd,
             write cmd (set_master_fd (Some (S f)) st) =
             mkRun (inl (Exn OSError "Bad file descriptor"))
                   (set_master_fd (Some (S f)) st) [CWrite cmd]).
  { intros cmd. apply (write_stale cmd _ f); [reflexivity|exact Hm]. }
  repeat split; try reflexivity; try exact Hm.
  - now rewrite Hw.
  - now rewrite Hw.
Qed.

(** The init action when the debugger is spawned. *)
Lemma init_ok_run (now : string) (args exe : value) (st : State)
    (pid : nat) :
  get args "executable" VNone = inr exe ->
  (truthy exe = true -> os_path_exists exe = inr true) ->
  popen (if truthy exe then (gdb_argv ++ [exe])%list else gdb_argv)
    = inr pid ->
  let started := r_state (start py_repr os_path_exists popen exe st) in
  let reset :=
    set_variables (VList []) (set_stack (VList []) (set_status Ready started)) in
  handle_command py_repr os_path_exists popen now (VStr "init") args st =
  mkRun (inr tt) (deliver (to_dict reset) reset) [CSend (to_dict reset)].
Proof.
  intros Hexe Hex Hpopen started reset.
  pose proof (start_ok_run exe st pid Hex Hpopen) as Hstart.
  cbv zeta in Hstart.
  unfold handle_command. cbn [is_str String.eqb Ascii.eqb Bool.eqb].
  etransitivity.
  { eapply bind_run_eq; [apply lift_eq, Hexe|].
    unfold try_catch.
    erewrite bind_run_eq.
    2:{ exact Hstart. }
    2:{ eapply bind_run_eq; [apply modify_eq|].
        eapply bind_run_eq; [apply modify_eq|].
        eapply bind_run_eq; [apply modify_eq|].
        eapply bind_run_eq; [apply read_eq|].
        apply send_json_eq. }
    cbn [r_res]. reflexivity. }
  subst reset started. rewrite Hstart. reflexivity.
Qed.

(** A successful init action spawns the debugger, sets the status to Ready
    and empties the stack and the variables, and sends one snapshot; it
    leaves the location (and the log history) as they were, so the
    snapshot of a session that was paused reports Ready at the old
    location. *)
Theorem init_resets_context_but_not_location :
  forall now args exe st pid,
    get args "executable" VNone = inr exe ->
    (truthy exe = true -> os_path_exists exe = inr true) ->
    popen (if truthy exe then (gdb_argv ++ [exe])%list else gdb_argv)
      = inr pid ->
    let r := handle_command py_repr os_path_exists popen now
                            (VStr "init") args st in
    r_res r = inr tt /\
    status (r_state r) = Ready /\
    stack (r_state r) = VList [] /\
    variables (r_state r) = VList [] /\
    location (r_state r) = location st /\
    log_history (r_state r) = log_history st /\
    process (wrapper (r_state r)) = Some pid /\
    running (wrapper (r_state r)) = true /\
    master_fd (wrapper (r_state r)) = Some (fresh_fd (open_fds (world st))) /\
    open_fds (world (r_state r)) =
      fresh_fd (open_fds (world st)) :: open_fds (world st) /\
    r_trace r =
      [CSend (VDict [("type", VStr "state_update");
                     ("payload",
                      VDict [("status", VStr "Ready");
                             ("location", location_value (location st));
                             ("stack", VList []);
                             ("variables", VList [])])])].
Proof.
  intros now args exe st pid Hexe Hex Hpopen r. subst r.
  rewrite (init_ok_run now args exe st pid Hexe Hex Hpopen).
  rewrite (start_ok_run exe st pid Hex Hpopen).
  cbn [r_res r_state r_trace]. autorewrite with proj.
  repeat split.
Qed.

(** The stop action. *)
Lemma stop_action_run (now : string) (args : value) (st : State) :
  let stopped := set_status Ready (r_state (stop st)) in
  handle_command py_repr os_path_exists popen now (VStr "stop") args st =
  mkRun (inr tt) (deliver (to_dict stopped) stopped) [CSend (to_dict stopped)].
Proof.
  intros stopped.
  destruct (stop_eq st) as (Hres & Htr & _).
  unfold handle_command. cbn [is_str String.eqb Ascii.eqb Bool.eqb].
  etransitivity.
  { eapply bind_run_eq.
    { rewrite (run_eta (stop st)), Hres, Htr. reflexivity. }
    eapply bind_run_eq; [apply modify_eq|].
    eapply bind_run_eq; [apply read_eq|].
    apply send_json_eq. }
  reflexivity.
Qed.

(** What [stop] does to the descriptors and to the processes. *)
Lemma stop_world (st : State) :
  spawned (world (r_state (stop st))) = spawned (world st) /\
  (forall x, In x (open_fds (world st)) ->
             master_fd (wrapper st) <> Some x ->
             In x (open_fds (world (r_state (stop st))))) /\
  length (terminated (world (r_state (stop st)))) =
    length (terminated (world st)) +
    (match process (wrapper st) with Some _ => 1 | None => 0 end).
Proof.
  destruct st as [sid [p r m] s sk vs loc ws lh [fds pw sp tm wc wi]].
  unfold stop, bind, read, modify, try_catch, os_close.
  cbn -[mem_nat filter].
  destruct p as [pid|]; destruct m as [[|f]|]; cbn -[mem_nat filter];
    try (destruct (mem_nat (S f) fds) eqn:Hmem; cbn -[mem_nat filter]);
    (split; [reflexivity|]);
    (split;
     [intros x Hx Hne;
      first [ exact Hx
            | apply filter_In; split; [exact Hx|];
              apply negb_true_iff, Nat.eqb_neq; congruence ]
     | rewrite ?length_app; cbn; lia ]).
Qed.

(** A second init action without a stop in between spawns a second
    debugger on a second pseudo-terminal and forgets the first: the first
    master descriptor stays open and is no longer the channel's, and a stop
    action then asks one process to end, although two were spawned, and
    leaves that first descriptor open. *)
Theorem second_init_orphans_first_debugger :
  forall now1 now2 now3 args1 args2 args3 exe1 exe2 st pid1 pid2,
    In 0 (open_fds (world st)) ->
    get args1 "executable" VNone = inr exe1 ->
    (truthy exe1 = true -> os_path_exists exe1 = inr true) ->
    popen (if truthy exe1 then (gdb_argv ++ [exe1])%list else gdb_argv)
      = inr pid1 ->
    get args2 "executable" VNone = inr exe2 ->
    (truthy exe2 = true -> os_path_exists exe2 = inr true) ->
    popen (if truthy exe2 then (gdb_argv ++ [exe2])%list else gdb_argv)
      = inr pid2 ->
    let command now action args :=
      handle_command py_repr os_path_exists popen now action args in
    let st1 := r_state (command now1 (VStr "init") args1 st) in
    let st2 := r_state (command now2 (VStr "init") args2 st1) in
    let st3 := r_state (command now3 (VStr "stop") args3 st2) in
    let m1 := fresh_fd (open_fds (world st)) in
    master_fd (wrapper st1) = Some m1 /\
    master_fd (wrapper st2) <> Some m1 /\
    In m1 (open_fds (world st2)) /\
    In m1 (open_fds (world st3)) /\
    length (spawned (world st3)) = length (spawned (world st)) + 2 /\
    length (terminated (world st3)) = length (terminated (world st)) + 1.
Proof.
  intros now1 now2 now3 args1 args2 args3 exe1 exe2 st pid1 pid2
         H0 Hexe1 Hex1 Hp1 Hexe2 Hex2 Hp2 command st1 st2 st3 m1.
  assert (Hst1 : master_fd (wrapper st1) = Some m1 /\
                 open_fds (world st1) = m1 :: open_fds (world st) /\
                 spawned (world st1) =
                   (spawned (world st) ++
                    [(pid1, if truthy exe1 then (gdb_argv ++ [exe1])%list
                            else gdb_argv)])%list /\
                 terminated (world st1) = terminated (world st)).
  { subst st1 command. cbv beta.
    rewrite (init_ok_run now1 args1 exe1 st pid1 Hexe1 Hex1 Hp1).
    rewrite (start_ok_run exe1 st pid1 Hex1 Hp1).
    cbn [r_state]. autorewrite with proj. repeat split. }
  destruct Hst1 as (Hm1 & Hfds1 & Hsp1 & Htm1).
  set (m2 := fresh_fd (open_fds (world st1))).
  assert (Hst2 : master_fd (wrapper st2) = Some m2 /\
                 process (wrapper st2) = Some pid2 /\
                 open_fds (world st2) = m2 :: open_fds (world st1) /\
                 spawned (world st2) =
                   (spawned (world st1) ++
                    [(pid2, if truthy exe2 then (gdb_argv ++ [exe2])%list
                            else gdb_argv)])%list /\
                 terminated (world st2) = terminated (world st1)).
  { subst st2 command. cbv beta.
    rewrite (init_ok_run now2 args2 exe2 st1 pid2 Hexe2 Hex2 Hp2).
    rewrite (start_ok_run exe2 st1 pid2 Hex2 Hp2).
    cbn [r_state]. autorewrite with proj. repeat split. }
  destruct Hst2 as (Hm2 & Hpr2 & Hfds2 & Hsp2 & Htm2).
  assert (Hne : m2 <> m1).
  { intros Heq. apply (fresh_fd_not_used (open_fds (world st1))).
    fold m2. rewrite Heq, Hfds1. now left. }
  assert (Hin2 : In m1 (open_fds (world st2))).
  { rewrite Hfds2, Hfds1. right. now left. }
  destruct (stop_world st2) as (Hsp3 & Hkeep & Htm3).
  assert (Hst3 : open_fds (world st3) = open_fds (world (r_state (stop st2))) /\
                 spawned (world st3) = spawned (world (r_state (stop st2))) /\
                 terminated (world st3) =
                   terminated (world (r_state (stop st2)))).
  { subst st3 command. cbv beta. rewrite stop_action_run.
    cbn [r_state]. autorewrite with proj. repeat split. }
  destruct Hst3 as (Hfds3 & Hsp3' & Htm3').
  split; [exact Hm1|].
  split; [rewrite Hm2; congruence|].
  split; [exact Hin2|].
  split.
  { rewrite Hfds3. apply Hkeep; [exact Hin2|]. rewrite Hm2. congruence. }
  split.
  - rewrite Hsp3', Hsp3, Hsp2, Hsp1, !length_app. cbn. lia.
  - rewrite Htm3', Htm3, Hpr2, Htm2, Htm1. reflexivity.
Qed.

(* ------------------------------------------------------------------ *)
(** *** Notifications *)

Lemma push_log_congr (msg : value) (st st' : State) :
  log_history st' = log_history st ->
  log_history (push_log msg st') = log_history (push_log msg st).
Proof. intros H. unfold push_log. cbn. now rewrite H. Qed.

Ltac finish_proj :=
  repeat split;
  try (apply push_log_congr; autorewrite with proj; reflexivity).

(** The clearing of a session on "running" and on an exit (lines 102-106
    and 113-117), and the snapshot that follows. *)
Lemma clear_context_run (s : Status) (st : State) (k : M unit)
    (res : Exc unit) (st2 : State) (tr2 : list Call) :
  let cleared :=
    set_variables (VList [])
      (set_stack (VList []) (set_location None (set_status s st))) in
  k (deliver (to_dict cleared) cleared) = mkRun res st2 tr2 ->
  (modify (set_status s) ;;
   modify (set_location None) ;;
   modify (set_stack (VList [])) ;;
   modify (set_variables (VList [])) ;;
   snapshot <- read to_dict ;; send_json snapshot ;; k) st =
  mkRun res st2 (CSend (to_dict cleared) :: tr2).
Proof.
  intros cleared Hk.
  etransitivity.
  { eapply bind_run_eq; [apply modify_eq|].
    eapply bind_run_eq; [apply modify_eq|].
    eapply bind_run_eq; [apply modify_eq|].
    eapply bind_run_eq; [apply modify_eq|].
    eapply bind_run_eq; [apply read_eq|].
    eapply bind_run_eq; [apply send_json_eq|exact Hk]. }
  reflexivity.
Qed.


(** A notification "stopped" whose reason is "exited" or "exited-normally"
    sets the status to Exited, clears the location, the stack and the
    variables, sends one snapshot of the cleared state and logs the reason
    at info level; it writes nothing to the process channel. *)
Theorem exit_clears_context :
  forall now event payload reason st,
    truthy event = true ->
    get event "type" VNone = inr (VStr "notify") ->
    get event "message" VNone = inr (VStr "stopped") ->
    get event "payload" (VDict []) = inr payload ->
    get payload "reason" VNone = inr (VStr reason) ->
    reason = "exited" \/ reason = "exited-normally" ->
    let r := on_gdb_event py_repr now event st in
    let cleared :=
      set_variables (VList [])
        (set_stack (VList []) (set_location None (set_status Exited st))) in
    let entry := log_entry "info" ("[Exited] Reason: " ++ reason) now in
    r_res r = inr tt /\
    status (r_state r) = Exited /\
    location (r_state r) = None /\
    stack (r_state r) = VList [] /\
    variables (r_state r) = VList [] /\
    log_history (r_state r) = log_history (push_log entry st) /\
    r_trace r = [CSend (to_dict cleared); CSend entry] /\
    pty_written (world (r_state r)) = pty_written (world st) /\
    wire (world (r_state r)) =
      (wire (world st) ++ frames st [to_dict cleared; entry])%list.
Proof.
  intros now event payload reason st Hev Hty Hmsg Hpl Hre Hexit r cleared entry.
  assert (Hin : (is_str (VStr reason) "exited-normally"
                 || is_str (VStr reason) "exited")%bool = true).
  { destruct Hexit as [-> | ->]; reflexivity. }
  assert (Hr : r = mkRun (inr tt)
                 (deliver entry (push_log entry
                                   (deliver (to_dict cleared) cleared)))
                 [CSend (to_dict cleared); CSend entry]).
  { subst r. unfold on_gdb_event. rewrite Hev. cbn [negb].
    etransitivity.
    { eapply bind_run_eq; [apply lift_eq, Hty|].
      eapply bind_run_eq; [apply lift_eq, Hmsg|].
      eapply bind_run_eq; [apply lift_eq, Hpl|].
      cbn [is_str String.eqb Ascii.eqb Bool.eqb].
      eapply bind_run_eq; [apply lift_eq, Hre|].
      rewrite Hin.
      apply clear_context_run. apply log_eq. }
    reflexivity. }
  rewrite Hr. cbn [r_res r_state r_trace]. autorewrite with proj.
  change (frames cleared) with (frames st).
  rewrite <- app_assoc, <- (frames_app st [to_dict cleared] [entry]).
  finish_proj.
Qed.

(** A console event is sent to the transport as it is, and changes nothing
    else: no field of the session, no log entry, nothing written. *)
Theorem console_is_forwarded :
  forall now event st,
    truthy event = true ->
    get event "type" VNone = inr (VStr "console") ->
    let r := on_gdb_event py_repr now event st in
    r_res r = inr tt /\
    r_state r = deliver event st /\
    r_trace r = [CSend event] /\
    status (r_state r) = status st /\
    location (r_state r) = location st /\
    stack (r_state r) = stack st /\
    variables (r_state r) = variables st /\
    log_history (r_state r) = log_history st /\
    pty_written (world (r_state r)) = pty_written (world st) /\
    wire (world (r_state r)) = (wire (world st) ++ frames st [event])%list.
Proof.
  intros now event st Hev Hty r.
  destruct (get_of_dict _ _ _ _ Hty) as [d ->].
  assert (Hr : r = mkRun (inr tt) (deliver (VDict d) st) [CSend (VDict d)]).
  { subst r. unfold on_gdb_event. rewrite Hev. cbn [negb].
    etransitivity.
    { eapply bind_run_eq; [apply lift_eq, Hty|].
      eapply bind_run_eq; [apply lift_eq; reflexivity|].
      eapply bind_run_eq; [apply lift_eq; reflexivity|].
      cbn [is_str String.eqb Ascii.eqb Bool.eqb].
      apply send_json_eq. }
    reflexivity. }
  rewrite Hr. cbn [r_res r_state r_trace]. autorewrite with proj.
  repeat split.
Qed.

(* ------------------------------------------------------------------ *)
(** *** Results *)


Lemma get_dict (d : list (string * value)) (k : string) (default : value) :
  get (VDict d) k default = inr (lookup d k default).
Proof. reflexivity. Qed.

Lemma token_stack_run (payload v : value) (st : State) :
  get payload "stack" (VList []) = inr v ->
  on_result_token (VInt 101) payload st =
  mkRun (inr tt) (deliver (to_dict (set_stack v st)) (set_stack v st))
        [CSend (to_dict (set_stack v st))].
Proof.
  intros Hv. unfold on_result_token. cbn [is_int Z.eqb Pos.eqb].
  etransitivity.
  { eapply bind_run_eq; [apply lift_eq, Hv|].
    eapply bind_run_eq; [apply modify_eq|].
    eapply bind_run_eq; [apply read_eq|apply send_json_eq]. }
  reflexivity.
Qed.

Lemma token_locals_run (payload v : value) (st : State) :
  get payload "locals" (VList []) = inr v ->
  on_result_token (VInt 102) payload st =
  mkRun (inr tt) (deliver (to_dict (set_variables v st)) (set_variables v st))
        [CSend (to_dict (set_variables v st))].
Proof.
  intros Hv. unfold on_result_token. cbn [is_int Z.eqb Pos.eqb].
  etransitivity.
  { eapply bind_run_eq; [apply lift_eq, Hv|].
    eapply bind_run_eq; [apply modify_eq|].
    eapply bind_run_eq; [apply read_eq|apply send_json_eq]. }
  reflexivity.
Qed.

Lemma token_breakpoint_run (payload : value) (b : list (string * value))
    (st : State) :
  get payload "bkpt" (VDict []) = inr (VDict b) ->
  on_result_token (VInt 201) payload st =
  match b with
  | [] => mkRun (inr tt) st []
  | _ :: _ => mkRun (inr tt) (deliver (breakpoint_created_msg b) st)
                    [CSend (breakpoint_created_msg b)]
  end.
Proof.
  intros Hb. unfold on_result_token. cbn [is_int Z.eqb Pos.eqb].
  destruct b as [|kv b].
  - unfold bind. rewrite Hb. reflexivity.
  - set (b' := kv :: b) in *.
    etransitivity.
    { eapply bind_run_eq; [apply lift_eq, Hb|].
      replace (truthy (VDict b')) with true by reflexivity.
      eapply bind_run_eq; [apply lift_eq, get_dict|].
      eapply bind_run_eq; [apply lift_eq, get_dict|].
      eapply bind_run_eq.
      { instantiate (1 := []). instantiate (1 := st).
        instantiate (1 := py_or (lookup b' "fullname" VNone)
                                (lookup b' "file" VNone)).
        unfold py_or. destruct (truthy (lookup b' "fullname" VNone));
          reflexivity. }
      eapply bind_run_eq; [apply lift_eq, get_dict|].
      apply send_json_eq. }
    reflexivity.
Qed.

Lemma token_var_created_run (d : list (string * value)) (st : State) :
  on_result_token (VInt 301) (VDict d) st =
  mkRun (inr tt) (deliver (var_created_msg d) st) [CSend (var_created_msg d)].
Proof.
  unfold on_result_token. cbn [is_int Z.eqb Pos.eqb].
  etransitivity.
  { eapply bind_run_eq; [apply lift_eq, get_dict|].
    eapply bind_run_eq; [apply lift_eq, get_dict|].
    eapply bind_run_eq; [apply lift_eq, get_dict|].
    eapply bind_run_eq; [apply lift_eq, get_dict|].
    apply send_json_eq. }
  reflexivity.
Qed.

Lemma token_var_children_run (d : list (string * value)) (st : State) :
  on_result_token (VInt 302) (VDict d) st =
  mkRun (inr tt) (deliver (var_children_msg d) st)
        [CSend (var_children_msg d)].
Proof.
  unfold on_result_token. cbn [is_int Z.eqb Pos.eqb].
  etransitivity.
  { eapply bind_run_eq; [apply lift_eq, get_dict|].
    apply send_json_eq. }
  reflexivity.
Qed.

Lemma token_memory_run (d : list (string * value)) (address contents : value)
    (st : State) :
  memory_read_of (lookup d "memory" (VList [])) = inr (address, contents) ->
  on_result_token (VInt 401) (VDict d) st =
  mkRun (inr tt) (deliver (memory_read_msg address contents) st)
        [CSend (memory_read_msg address contents)].
Proof.
  intros Hmem. unfold on_result_token. cbn [is_int Z.eqb Pos.eqb].
  etransitivity.
  { eapply bind_run_eq; [apply lift_eq, get_dict|].
    eapply bind_run_eq; [apply lift_eq, Hmem|].
    apply send_json_eq. }
  reflexivity.
Qed.

Lemma token_other_run (token payload : value) (st : State) :
  is_int token 101 = false -> is_int token 102 = false ->
  is_int token 201 = false -> is_int token 301 = false ->
  is_int token 302 = false -> is_int token 401 = false ->
  on_result_token token payload st = mkRun (inr tt) st [].
Proof.
  intros H1 H2 H3 H4 H5 H6. unfold on_result_token.
  now rewrite H1, H2, H3, H4, H5, H6.
Qed.

(** The error handling of a result that has no error text and is not named
    "error": nothing. *)
Lemma on_result_error_quiet (now : string) (msg payload m : value)
    (st : State) :
  get payload "msg" VNone = inr m ->
  truthy m = false ->
  is_str msg "error" = false ->
  on_result_error py_repr msg payload now st = mkRun (inr tt) st [].
Proof.
  intros Hm Ht Hne. unfold on_result_error.
  etransitivity.
  { eapply bind_run_eq; [apply lift_eq, Hm|].
    rewrite Ht.
    eapply bind_run_eq; [apply ret_eq|].
    cbn beta iota. rewrite Hne. apply ret_eq. }
  reflexivity.
Qed.

(** A result under token 101 replaces the stack by the [stack] field of
    its payload (the empty list when the field is missing) and sends one
    snapshot; under token 102 the same holds of the variables and the
    [locals] field. Nothing else changes: status, location, the other list
    and the log history stay, and nothing is written. *)
Theorem stack_and_locals_results :
  (forall now event msg payload m v st,
      truthy event = true ->
      get event "type" VNone = inr (VStr "result") ->
      get event "message" VNone = inr msg ->
      get event "payload" (VDict []) = inr payload ->
      get event "token" VNone = inr (VInt 101) ->
      get payload "stack" (VList []) = inr v ->
      get payload "msg" VNone = inr m ->
      truthy m = false ->
      is_str msg "error" = false ->
      let r := on_gdb_event py_repr now event st in
      r_res r = inr tt /\
      r_state r = deliver (to_dict (set_stack v st)) (set_stack v st) /\
      stack (r_state r) = v /\
      variables (r_state r) = variables st /\
      status (r_state r) = status st /\
      location (r_state r) = location st /\
      r_trace r = [CSend (to_dict (set_stack v st))]) /\
  (forall now event msg payload m v st,
      truthy event = true ->
      get event "type" VNone = inr (VStr "result") ->
      get event "message" VNone = inr msg ->
      get event "payload" (VDict []) = inr payload ->
      get event "token" VNone = inr (VInt 102) ->
      get payload "locals" (VList []) = inr v ->
      get payload "msg" VNone = inr m ->
      truthy m = false ->
      is_str msg "error" = false ->
      let r := on_gdb_event py_repr now event st in
      r_res r = inr tt /\
      r_state r = deliver (to_dict (set_variables v st)) (set_variables v st) /\
      variables (r_state r) = v /\
      stack (r_state r) = stack st /\
      status (r_state r) = status st /\
      location (r_state r) = location st /\
      r_trace r = [CSend (to_dict (set_variables v st))]).
Proof.
  split.
  - intros now event msg payload m v st Hev Hty Hmsg Hpl Htok Hv Hm Ht Hne r.
    subst r.
    rewrite (on_result_run now event msg payload (VInt 101) st _ _ _ _
               Hev Hty Hmsg Hpl Htok (token_stack_run payload v st Hv)
               (on_result_error_quiet now msg payload m _ Hm Ht Hne)).
    cbn [r_res r_state r_trace app]. autorewrite with proj. repeat split.
  - intros now event msg payload m v st Hev Hty Hmsg Hpl Htok Hv Hm Ht Hne r.
    subst r.
    rewrite (on_result_run now event msg payload (VInt 102) st _ _ _ _
               Hev Hty Hmsg Hpl Htok (token_locals_run payload v st Hv)
               (on_result_error_quiet now msg payload m _ Hm Ht Hne)).
    cbn [r_res r_state r_trace app]. autorewrite with proj. repeat split.
Qed.

Lemma lookup_truthy (d : list (string * value)) (k : string)
    (default default' : value) :
  truthy (lookup d k default) = true ->
  truthy default = false ->
  lookup d k default' = lookup d k default.
Proof.
  unfold lookup. destruct (assoc k d); [reflexivity|]. congruence.
Qed.

(** The error handling of a result whose payload has a breakpoint record
    and whose message is not "error": nothing. *)
Lemma on_result_error_bkpt (now : string) (msg : value)
    (d : list (string * value)) (st : State) :
  truthy (lookup d "bkpt" VNone) = true ->
  is_str msg "error" = false ->
  on_result_error py_repr msg (VDict d) now st = mkRun (inr tt) st [].
Proof.
  intros Hb Hne. unfold on_result_error.
  etransitivity.
  { eapply bind_run_eq; [apply lift_eq, get_dict|].
    eapply bind_run_eq.
    { instantiate (1 := []). instantiate (1 := st). instantiate (1 := false).
      destruct (truthy (lookup d "msg" VNone)); [|reflexivity].
      unfold bind. cbn [lift get r_res ret]. unfold lookup in Hb.
      destruct (assoc "bkpt" d); [|discriminate Hb].
      rewrite Hb. reflexivity. }
    cbn beta iota. rewrite Hne. apply ret_eq. }
  reflexivity.
Qed.

(** A result under token 201 whose payload has a breakpoint record sends
    one breakpoint_created message with the record's number, its fullname
    (its file when it has no fullname) and its line, and changes nothing in
    the session; without a breakpoint record, and without an error text,
    it does nothing at all. *)
Theorem breakpoint_result_is_announced :
  (forall now event msg d b st,
      truthy event = true ->
      get event "type" VNone = inr (VStr "result") ->
      get event "message" VNone = inr msg ->
      get event "payload" (VDict []) = inr (VDict d) ->
      get event "token" VNone = inr (VInt 201) ->
      lookup d "bkpt" (VDict []) = VDict b ->
      b <> [] ->
      is_str msg "error" = false ->
      let r := on_gdb_event py_repr now event st in
      r_res r = inr tt /\
      r_state r = deliver (breakpoint_created_msg b) st /\
      r_trace r = [CSend (breakpoint_created_msg b)] /\
      status (r_state r) = status st /\
      stack (r_state r) = stack st /\
      variables (r_state r) = variables st /\
      location (r_state r) = location st /\
      log_history (r_state r) = log_history st) /\
  (forall now event msg d st,
      truthy event = true ->
      get event "type" VNone = inr (VStr "result") ->
      get event "message" VNone = inr msg ->
      get event "payload" (VDict []) = inr (VDict d) ->
      get event "token" VNone = inr (VInt 201) ->
      assoc "bkpt" d = None ->
      truthy (lookup d "msg" VNone) = false ->
      is_str msg "error" = false ->
      on_gdb_event py_repr now event st = mkRun (inr tt) st []).
Proof.
  split.
  - intros now event msg d b st Hev Hty Hmsg Hpl Htok Hb Hne Hnerr r.
    subst r.
    assert (Htb : truthy (lookup d "bkpt" (VDict [])) = true).
    { rewrite Hb. destruct b; [congruence|reflexivity]. }
    pose proof (token_breakpoint_run (VDict d) b st
                  (eq_trans (get_dict d "bkpt" (VDict [])) (f_equal inr Hb)))
      as Htoken.
    destruct b as [|kv b]; [congruence|].
    rewrite (on_result_run now event msg (VDict d) (VInt 201) st _ _ _ _
               Hev Hty Hmsg Hpl Htok Htoken
               (on_result_error_bkpt now msg d _
                  (eq_trans
                     (f_equal truthy
                        (lookup_truthy d "bkpt" (VDict []) VNone Htb eq_refl))
                     Htb)
                  Hnerr)).
    cbn [r_res r_state r_trace app]. autorewrite with proj. repeat split.
  - intros now event msg d st Hev Hty Hmsg Hpl Htok Hb Hm Hnerr.
    assert (Hlb : lookup d "bkpt" (VDict []) = VDict []).
    { unfold lookup. now rewrite Hb. }
    pose proof (token_breakpoint_run (VDict d) [] st
                  (eq_trans (get_dict d "bkpt" (VDict [])) (f_equal inr Hlb)))
      as Htoken.
    cbn iota in Htoken.
    exact (on_result_run now event msg (VDict d) (VInt 201) st _ _ _ _
             Hev Hty Hmsg Hpl Htok Htoken
             (on_result_error_quiet now msg (VDict d) _ _
                (get_dict d "msg" VNone) Hm Hnerr)).
Qed.

(** The chunks of a memory result: the texts of the chunks, joined. *)
Lemma memory_read_of_chunks (cds : list (list (string * value)))
    (texts : list string) :
  Forall2 (fun cd t => lookup cd "contents" (VStr "") = VStr t) cds texts ->
  memory_read_of (VList (map VDict cds)) =
  inr (match cds with
       | cd :: _ => lookup cd "begin" (VStr "0x0")
       | [] => VStr "0x0"
       end,
       VStr (fold_right append "" texts)).
Proof.
  intros H.
  assert (Hc : contents_of (map VDict cds) = inr (map VStr texts)).
  { induction H as [|cd t cds texts Hcd _ IH]; [reflexivity|].
    cbn [map contents_of get lift_exc]. fold (lookup cd "contents" (VStr "")).
    rewrite Hcd, IH. reflexivity. }
  assert (Hj : join_strs (map VStr texts) = inr (fold_right append "" texts)).
  { clear. induction texts as [|t texts IH]; [reflexivity|].
    cbn [map join_strs fold_right]. now rewrite IH. }
  destruct cds as [|cd cds].
  - inversion H; subst. reflexivity.
  - unfold memory_read_of. cbn [map truthy]. cbn [map] in Hc.
    rewrite Hc. cbn [lift_exc]. rewrite Hj. reflexivity.
Qed.

(** Results under the tokens 301, 302 and 401 only send a message and
    change nothing in the session: var_created with the name, numchild,
    value and type of the payload (None for a missing one), var_children
    with its children (the empty list when missing), and memory_read with
    the start address of the first chunk and the contents of all chunks
    joined in order ("0x0" and the empty text when there is no chunk). *)
Theorem variable_and_memory_results_are_forwarded :
  forall now event msg d st,
    truthy event = true ->
    get event "type" VNone = inr (VStr "result") ->
    get event "message" VNone = inr msg ->
    get event "payload" (VDict []) = inr (VDict d) ->
    truthy (lookup d "msg" VNone) = false ->
    is_str msg "error" = false ->
    let r := on_gdb_event py_repr now event st in
    (get event "token" VNone = inr (VInt 301) ->
     r = mkRun (inr tt) (deliver (var_created_msg d) st)
               [CSend (var_created_msg d)]) /\
    (get event "token" VNone = inr (VInt 302) ->
     r = mkRun (inr tt) (deliver (var_children_msg d) st)
               [CSend (var_children_msg d)]) /\
    (forall cds texts,
        get event "token" VNone = inr (VInt 401) ->
        lookup d "memory" (VList []) = VList (map VDict cds) ->
        Forall2 (fun cd t => lookup cd "contents" (VStr "") = VStr t)
                cds texts ->
        let reply :=
          memory_read_msg
            (match cds with
             | cd :: _ => lookup cd "begin" (VStr "0x0")
             | [] => VStr "0x0"
             end)
            (VStr (fold_right append "" texts)) in
        r = mkRun (inr tt) (deliver reply st) [CSend reply]).
Proof.
  intros now event msg d st Hev Hty Hmsg Hpl Hm Hnerr r.
  pose proof (fun st' => on_result_error_quiet now msg (VDict d) _ st'
                           (get_dict d "msg" VNone) Hm Hnerr) as Hquiet.
  split; [|split].
  - intros Htok. subst r.
    rewrite (on_result_run now event msg (VDict d) (VInt 301) st _ _ _ _
               Hev Hty Hmsg Hpl Htok (token_var_created_run d st)
               (Hquiet _)).
    reflexivity.
  - intros Htok. subst r.
    rewrite (on_result_run now event msg (VDict d) (VInt 302) st _ _ _ _
               Hev Hty Hmsg Hpl Htok (token_var_children_run d st)
               (Hquiet _)).
    reflexivity.
  - intros cds texts Htok Hmem Hchunks reply. subst r.
    pose proof (memory_read_of_chunks cds texts Hchunks) as Hread.
    rewrite <- Hmem in Hread.
    rewrite (on_result_run now event msg (VDict d) (VInt 401) st _ _ _ _
               Hev Hty Hmsg Hpl Htok (token_memory_run d _ _ st Hread)
               (Hquiet _)).
    reflexivity.
Qed.


Lemma get_not_dict (v : value) (k : string) (default : value) :
  (forall d, v <> VDict d) ->
  get v k default =
  inl (Exn AttributeError
           ("'" ++ type_name v ++ "' object has no attribute 'get'")).
Proof. intros H. destruct v; try reflexivity. now destruct (H d). Qed.

(** A result event whose payload is not a mapping (the protocol parser
    gives None for a result record without results, such as a bare
    "done") makes [on_gdb_event] raise AttributeError, whatever its token
    and message, before anything is changed or sent. *)
Theorem result_without_payload_raises :
  forall now event payload st,
    truthy event = true ->
    get event "type" VNone = inr (VStr "result") ->
    get event "payload" (VDict []) = inr payload ->
    (forall d, payload <> VDict d) ->
    on_gdb_event py_repr now event st =
    mkRun (inl (Exn AttributeError
                    ("'" ++ type_name payload
                     ++ "' object has no attribute 'get'")))
          st [].
Proof.
  intros now event payload st Hev Hty Hpl Hnd.
  destruct (get_of_dict _ _ _ _ Hty) as [d ->].
  set (e := Exn AttributeError
                ("'" ++ type_name payload ++ "' object has no attribute 'get'")).
  assert (Hget : forall k default, get payload k default = inl e)
    by (intros; now apply get_not_dict).
  assert (Hraise : forall k default (f : value -> M unit),
             bind (lift (get payload k default)) f st = mkRun (inl e) st []).
  { intros k default f. unfold bind. now rewrite Hget. }
  unfold on_gdb_event. rewrite Hev. cbn [negb].
  etransitivity.
  { eapply bind_run_eq; [apply lift_eq, Hty|].
    eapply bind_run_eq; [apply lift_eq, get_dict|].
    eapply bind_run_eq; [apply lift_eq, Hpl|].
    cbn [is_str String.eqb Ascii.eqb Bool.eqb].
    eapply bind_run_eq; [apply lift_eq, get_dict|].
    instantiate (1 := []). instantiate (1 := st). instantiate (1 := inl e).
    set (token := lookup d "token" VNone).
    unfold on_result_token, on_result_error.
    destruct (is_int token 101);
      [unfold bind at 1; rewrite Hraise; reflexivity|].
    destruct (is_int token 102);
      [unfold bind at 1; rewrite Hraise; reflexivity|].
    destruct (is_int token 201);
      [unfold bind at 1; rewrite Hraise; reflexivity|].
    destruct (is_int token 301);
      [unfold bind at 1; rewrite Hraise; reflexivity|].
    destruct (is_int token 302);
      [unfold bind at 1; rewrite Hraise; reflexivity|].
    destruct (is_int token 401);
      [unfold bind at 1; rewrite Hraise; reflexivity|].
    unfold bind at 1. cbn [ret r_res r_state r_trace].
    rewrite Hraise. reflexivity. }
  reflexivity.
Qed.

(** What [on_gdb_event] ignores, without error and without any effect: a
    missing or empty event, an event whose type is none of console, notify
    and result, a notification other than "running" and "stopped", and a
    result under no known token that has no error text and is not named
    "error". *)
Theorem unrecognised_events_are_ignored :
  (forall now event st,
      truthy event = false ->
      on_gdb_event py_repr now event st = mkRun (inr tt) st []) /\
  (forall now d ty st,
      get (VDict d) "type" VNone = inr ty ->
      is_str ty "console" = false ->
      is_str ty "notify" = false ->
      is_str ty "result" = false ->
      on_gdb_event py_repr now (VDict d) st = mkRun (inr tt) st []) /\
  (forall now event msg st,
      truthy event = true ->
      get event "type" VNone = inr (VStr "notify") ->
      get event "message" VNone = inr msg ->
      is_str msg "running" = false ->
      is_str msg "stopped" = false ->
      on_gdb_event py_repr now event st = mkRun (inr tt) st []) /\
  (forall now event msg d token st,
      truthy event = true ->
      get event "type" VNone = inr (VStr "result") ->
      get event "message" VNone = inr msg ->
      get event "payload" (VDict []) = inr (VDict d) ->
      get event "token" VNone = inr token ->
      is_int token 101 = false -> is_int token 102 = false ->
      is_int token 201 = false -> is_int token 301 = false ->
      is_int token 302 = false -> is_int token 401 = false ->
      truthy (lookup d "msg" VNone) = false ->
      is_str msg "error" = false ->
      on_gdb_event py_repr now event st = mkRun (inr tt) st []).
Proof.
  split; [|split; [|split]].
  - intros now event st Hev. unfold on_gdb_event. now rewrite Hev.
  - intros now d ty st. apply on_other_type_run.
  - intros now event msg st. apply on_other_notify_run.
  - intros now event msg d token st Hev Hty Hmsg Hpl Htok
           H1 H2 H3 H4 H5 H6 Hm Hnerr.
    exact (on_result_run now event msg (VDict d) token st _ _ _ _
             Hev Hty Hmsg Hpl Htok
             (token_other_run token (VDict d) st H1 H2 H3 H4 H5 H6)
             (on_result_error_quiet now msg (VDict d) _ _
                (get_dict d "msg" VNone) Hm Hnerr)).
Qed.

(* ------------------------------------------------------------------ *)
(** *** Commands other than init and stop *)

Lemma set_pty_written_same (st : State) :
  set_pty_written (pty_written (world st)) st = st.
Proof. destruct st as [? ? ? ? ? ? ? ? []]; reflexivity. Qed.

(** [write] changes nothing but the bytes on the terminal, to which it can
    only add, and makes no other call. *)
Lemma write_only_writes (cmd : string) (st : State) :
  r_trace (write cmd st) = [CWrite cmd] /\
  exists out,
    r_state (write cmd st) =
    set_pty_written (pty_written (world st) ++ out) st.
Proof.
  unfold write, bind, called, read, os_write. cbn -[mem_nat].
  destruct (master_fd (wrapper st)) as [[|f]|]; cbn -[mem_nat].
  - split; [reflexivity|]. exists []. rewrite app_nil_r.
    symmetry. apply set_pty_written_same.
  - destruct (mem_nat (S f) (open_fds (world st))); cbn.
    + split; [reflexivity|]. eexists. reflexivity.
    + split; [reflexivity|]. exists []. rewrite app_nil_r.
      symmetry. apply set_pty_written_same.
  - split; [reflexivity|]. exists []. rewrite app_nil_r.
    symmetry. apply set_pty_written_same.
Qed.

Lemma is_str_neq (a s : string) : a <> s -> is_str (VStr a) s = false.
Proof. intros H. cbn. now apply String.eqb_neq. Qed.

(** The branch of [handle_command] an action other than init, stop and
    get_context takes. *)
Lemma handle_command_other (now a : string) (args : value) (st : State) :
  a <> "init" -> a <> "stop" -> a <> "get_context" ->
  handle_command py_repr os_path_exists popen now (VStr a) args st =
  bind (lift (command_of py_repr (VStr a) args)) write st.
Proof.
  intros H1 H2 H3. unfold handle_command.
  rewrite (is_str_neq _ _ H1), (is_str_neq _ _ H2), (is_str_neq _ _ H3).
  reflexivity.
Qed.

Lemma handle_command_get_context (now : string) (args : value) (st : State) :
  handle_command py_repr os_path_exists popen now (VStr "get_context") args st
  = bind (write cmd_stack) (fun _ => write cmd_locals) st.
Proof. reflexivity. Qed.

(** An action other than init and stop changes nothing in the session or
    the channel and sends nothing to the client, whatever its arguments and
    whether it raises or not: all it can do is add bytes to what was
    written to the terminal, and every call it makes is a [write]. *)
Theorem commands_leave_session_untouched :
  forall now a args st,
    a <> "init" -> a <> "stop" ->
    let r := handle_command py_repr os_path_exists popen now (VStr a) args st in
    (exists out,
        r_state r = set_pty_written (pty_written (world st) ++ out) st) /\
    (forall data, ~ In (CSend data) (r_trace r)).
Proof.
  intros now a args st H1 H2 r. subst r.
  destruct (String.eqb_spec a "get_context") as [->|H3].
  - rewrite handle_command_get_context. unfold bind.
    destruct (write_only_writes cmd_stack st) as [Ht1 [o1 Hs1]].
    destruct (r_res (write cmd_stack st)); cbn [r_state r_trace].
    + split; [exists o1; exact Hs1|].
      intros data Hin. rewrite Ht1 in Hin.
      destruct Hin as [Hin|[]]; discriminate Hin.
    + destruct (write_only_writes cmd_locals (r_state (write cmd_stack st)))
        as [Ht2 [o2 Hs2]].
      split.
      * exists (o1 ++ o2)%list. rewrite Hs2, Hs1.
        rewrite set_pty_written_twice, set_pty_written_get.
        now rewrite app_assoc.
      * intros data Hin. rewrite Ht1, Ht2 in Hin.
        destruct Hin as [Hin|[Hin|[]]]; discriminate Hin.
  - rewrite (handle_command_other now a args st H1 H2 H3). unfold bind.
    destruct (command_of py_repr (VStr a) args) as [e|cmd];
      cbn [lift raise ret r_res r_state r_trace].
    + split; [|intros data []].
      exists []. rewrite app_nil_r. symmetry. apply set_pty_written_same.
    + destruct (write_only_writes cmd st) as [Ht [o Hs]].
      split; [exists o; exact Hs|].
      intros data Hin. rewrite Ht in Hin.
      destruct Hin as [Hin|[]]; discriminate Hin.
Qed.

Ltac in_list := cbn [In]; repeat (first [left; reflexivity | right]).

Lemma command_of_unknown (a : string) (args : value) :
  ~ In a known_actions -> command_of py_repr (VStr a) args = inr a.
Proof.
  intros Hn. unfold command_of.
  repeat match goal with
  | |- context [is_str (VStr a) ?s] =>
      rewrite (is_str_neq a s)
        by (intros ->; apply Hn; unfold known_actions; in_list)
  end.
  reflexivity.
Qed.

(** An action that [handle_command] does not know is not rejected: its
    text is written to the debugger as a command, as it stands and whatever
    the arguments are (they are not looked at, so they need not even be a
    mapping). [get_context] does not look at its arguments either and
    writes the two context requests, stack first. *)
Theorem unknown_action_is_sent_verbatim :
  (forall now a args st,
      ~ In a known_actions ->
      channel_ok st ->
      handle_command py_repr os_path_exists popen now (VStr a) args st =
      mkRun (inr tt)
            (set_pty_written (pty_written (world st) ++ written st [a]) st)
            [CWrite a]) /\
  (forall now args st,
      channel_ok st ->
      handle_command py_repr os_path_exists popen now (VStr "get_context")
                     args st =
      mkRun (inr tt)
            (set_pty_written
               (pty_written (world st) ++ written st [cmd_stack; cmd_locals])
               st)
            [CWrite cmd_stack; CWrite cmd_locals]).
Proof.
  split.
  - intros now a args st Hn Hok.
    rewrite handle_command_other
      by (intros ->; apply Hn; unfold known_actions; in_list).
    etransitivity.
    { eapply bind_run_eq; [apply lift_eq, command_of_unknown, Hn|].
      apply write_ok, Hok. }
    reflexivity.
  - intros now args st Hok. rewrite handle_command_get_context.
    etransitivity.
    { eapply bind_run_eq; [apply write_ok, Hok|].
      apply write_ok. now apply set_pty_written_channel_ok. }
    cbn [app]. rewrite set_pty_written_twice, set_pty_written_get.
    rewrite set_pty_written_written, <- app_assoc.
    rewrite <- (written_app st [cmd_stack] [cmd_locals]). reflexivity.
Qed.

(** The commands of the requests that take an argument. An argument that
    is missing from the mapping is not an error: its place in the command
    is taken by the text None, and the command is written all the same. A
    [read_memory] without a count reads 256 bytes, and a [run] stops at
    entry exactly when [stop_at_entry] is truthy. When the arguments are not
    a mapping, these requests raise AttributeError and write nothing. *)
Theorem missing_arguments_become_None :
  (forall d,
      assoc "location" d = None ->
      command_of py_repr (VStr "break") (VDict d) = inr "201-break-insert None")
  /\
  (forall d,
      assoc "id" d = None ->
      command_of py_repr (VStr "remove_breakpoint") (VDict d) =
      inr "-break-delete None") /\
  (forall d,
      assoc "expression" d = None ->
      command_of py_repr (VStr "var_create") (VDict d) =
      inr "301-var-create - * None") /\
  (forall d,
      assoc "name" d = None ->
      command_of py_repr (VStr "var_list_children") (VDict d) =
      inr "302-var-list-children --all-values None") /\
  (forall d address,
      assoc "address" d = Some (VStr address) ->
      assoc "count" d = None ->
      command_of py_repr (VStr "read_memory") (VDict d) =
      inr ("401-data-read-memory-bytes " ++ address ++ " 256")) /\
  (forall d,
      command_of py_repr (VStr "run") (VDict d) =
      inr (if truthy (lookup d "stop_at_entry" (VBool false))
           then "-exec-run --start" else "-exec-run")) /\
  (forall now a args st,
      In a ["run"; "break"; "remove_breakpoint"; "var_create";
            "var_list_children"; "read_memory"] ->
      (forall d, args <> VDict d) ->
      handle_command py_repr os_path_exists popen now (VStr a) args st =
      mkRun (inl (Exn AttributeError
                      ("'" ++ type_name args
                       ++ "' object has no attribute 'get'")))
            st []).
Proof.
  repeat match goal with |- _ /\ _ => split end.
  - intros d H. unfold command_of. cbn [is_str String.eqb Ascii.eqb Bool.eqb get].
    rewrite H. reflexivity.
  - intros d H. unfold command_of. cbn [is_str String.eqb Ascii.eqb Bool.eqb get].
    rewrite H. reflexivity.
  - intros d H. unfold command_of. cbn [is_str String.eqb Ascii.eqb Bool.eqb get].
    rewrite H. reflexivity.
  - intros d H. unfold command_of. cbn [is_str String.eqb Ascii.eqb Bool.eqb get].
    rewrite H. reflexivity.
  - intros d address Ha Hc. unfold command_of.
    cbn [is_str String.eqb Ascii.eqb Bool.eqb get].
    rewrite Ha, Hc. reflexivity.
  - intros d. reflexivity.
  - intros now a args st Hin Hnd.
    assert (Hget : forall k default,
               get args k default =
               inl (Exn AttributeError
                        ("'" ++ type_name args
                         ++ "' object has no attribute 'get'")))
      by (intros; now apply get_not_dict).
    cbn [In] in Hin.
    repeat (destruct Hin as [<-|Hin]);
      try (rewrite handle_command_other by discriminate;
           unfold command_of;
           cbn [is_str String.eqb Ascii.eqb Bool.eqb];
           rewrite Hget; reflexivity).
    destruct Hin.
Qed.

(* ------------------------------------------------------------------ *)
(** *** Sessions without a client *)

Section Detached.
Variable w : list (nat * value).

Lemma detached_send_json (data : value) :
  preserves (detached_with w) (send_json data).
Proof.
  intros st [Hws Hw]. rewrite send_json_eq. cbn [r_state].
  unfold deliver. rewrite Hws. now split.
Qed.

Lemma detached_log (level text now : string) :
  preserves (detached_with w) (log level text now).
Proof.
  intros st [Hws Hw]. rewrite log_eq. cbn [r_state].
  unfold deliver. rewrite push_log_websocket, Hws. now split.
Qed.

Lemma detached_os_close (fd : nat) : preserves (detached_with w) (os_close fd).
Proof.
  intros st H. unfold os_close.
  destruct (mem_nat fd (open_fds (world st))); exact H.
Qed.

Lemma detached_os_write (fd : nat) (data : string) :
  preserves (detached_with w) (os_write fd data).
Proof.
  intros st H. unfold os_write.
  destruct (mem_nat fd (open_fds (world st))); exact H.
Qed.

Lemma preserves_for_each {A : Type} (P : State -> Prop) (l : list A)
    (body : A -> M unit) :
  (forall x, preserves P (body x)) -> preserves P (for_each l body).
Proof.
  intros Hb. induction l as [|x l IH]; cbn [for_each].
  - intros st H. exact H.
  - apply preserves_bind; [apply Hb|intros _; exact IH].
Qed.

Ltac detached_step :=
  lazymatch goal with
  | |- preserves _ (ret _) => intros ? H; exact H
  | |- preserves _ (raise _) => intros ? H; exact H
  | |- preserves _ (lift ?x) => destruct x; intros ? H; exact H
  | |- preserves _ (read _) => intros ? H; exact H
  | |- preserves _ (called _) => intros ? H; exact H
  | |- preserves _ openpty => intros ? H; exact H
  | |- preserves _ (modify _) =>
      intros ? [H1 H2]; split; [first [exact H1 | reflexivity] | exact H2]
  | |- preserves _ (send_json _) => apply detached_send_json
  | |- preserves _ (log _ _ _) => apply detached_log
  | |- preserves _ (os_close _) => apply detached_os_close
  | |- preserves _ (os_write _ _) => apply detached_os_write
  | |- preserves _ (bind _ _) => apply preserves_bind; [|intros]
  | |- preserves _ (try_catch _ _) => apply preserves_try_catch; [|intros]
  | |- preserves _ (for_each _ _) => apply preserves_for_each; intros
  | |- preserves _ (if ?c then _ else _) => destruct c
  | |- preserves _ (match ?x with _ => _ end) => destruct x
  end.

Lemma detached_run_op (o : Op) :
  is_attach o = false ->
  preserves (detached_with w) (run_op py_repr os_path_exists popen o).
Proof.
  destruct o as [ws| |level text now|now event|now action args];
    cbn [run_op is_attach]; intros Ha.
  - discriminate Ha.
  - unfold detach. detached_step.
  - apply detached_log.
  - unfold on_gdb_event, on_result_token, on_result_error, write.
    repeat detached_step.
  - unfold handle_command, start, stop, write.
    repeat detached_step.
Qed.

End Detached.

(** While no client is attached nothing is delivered and the session
    stays detached, whatever is logged and whatever events of the debugger
    and commands are handled, whether they raise or not: only [attach] sets
    the transport. *)
Theorem detached_session_delivers_nothing :
  forall ops st,
    websocket st = None ->
    forallb (fun o => negb (is_attach o)) ops = true ->
    let st' := run_ops py_repr os_path_exists popen ops st in
    websocket st' = None /\ wire (world st') = wire (world st).
Proof.
  intros ops st Hws Hops st'. subst st'.
  change (detached_with (wire (world st))
            (run_ops py_repr os_path_exists popen ops st)).
  assert (H : detached_with (wire (world st)) st) by now split.
  revert H. generalize (wire (world st)) as w. revert st Hws.
  induction ops as [|o ops IH]; intros st Hws w H; cbn [run_ops].
  - exact H.
  - cbn [forallb] in Hops. apply andb_prop in Hops as [Ho Hops].
    apply negb_true_iff in Ho.
    assert (H' := detached_run_op w o Ho st H).
    apply (IH Hops _ (proj1 H') w H').
Qed.

(* ------------------------------------------------------------------ *)
(** *** Transports: replacement and failure *)

(** The replay loop of [attach] when no transport is set. *)
Lemma replay_detached (l : list value) (st : State) :
  websocket st = None ->
  for_each l send_json st = mkRun (inr tt) st (map CSend l).
Proof.
  intros Hws. induction l as [|x l IH]; cbn [for_each map]; [reflexivity|].
  etransitivity.
  { eapply bind_run_eq; [apply send_json_eq|].
    unfold deliver. rewrite Hws. exact IH. }
  reflexivity.
Qed.

Lemma deliver_closed (t : nat) (x : value) (st : State) :
  websocket st = Some t ->
  mem_nat t (ws_closed (world st)) = true ->
  deliver x st = set_websocket None st.
Proof. intros Hws Hc. unfold deliver. now rewrite Hws, Hc. Qed.

(** [attach] from the assignment of the new transport on. *)
Lemma attach_tail_open (t : nat) (st : State) :
  mem_nat t (ws_closed (world st)) = false ->
  (modify (set_websocket (Some t)) ;;
   snapshot <- read to_dict ;;
   send_json snapshot ;;
   history <- read log_history ;;
   for_each (last_n 10 history) send_json) st =
  mkRun (inr tt)
        (set_wire (wire (world st) ++ (t, to_dict st)
                     :: map (pair t) (last_n 10 (log_history st)))
                  (set_websocket (Some t) st))
        (CSend (to_dict st) :: map CSend (last_n 10 (log_history st))).
Proof.
  intros Hopen.
  etransitivity.
  { eapply bind_run_eq; [apply modify_eq|].
    eapply bind_run_eq; [apply read_eq|].
    eapply bind_run_eq; [apply send_json_eq|].
    rewrite (deliver_open t) by (try reflexivity; exact Hopen).
    eapply bind_run_eq; [apply read_eq|].
    apply (replay_run t); [reflexivity|exact Hopen]. }
  rewrite set_wire_twice. cbn [app].
  change (wire (world (set_wire ?a ?s))) with a.
  rewrite <- app_assoc. reflexivity.
Qed.

Lemma attach_tail_closed (t : nat) (st : State) :
  mem_nat t (ws_closed (world st)) = true ->
  (modify (set_websocket (Some t)) ;;
   snapshot <- read to_dict ;;
   send_json snapshot ;;
   history <- read log_history ;;
   for_each (last_n 10 history) send_json) st =
  mkRun (inr tt) (set_websocket None st)
        (CSend (to_dict st) :: map CSend (last_n 10 (log_history st))).
Proof.
  intros Hc.
  etransitivity.
  { eapply bind_run_eq; [apply modify_eq|].
    eapply bind_run_eq; [apply read_eq|].
    eapply bind_run_eq; [apply send_json_eq|].
    rewrite (deliver_closed t) by (try reflexivity; exact Hc).
    eapply bind_run_eq; [apply read_eq|].
    apply replay_detached. reflexivity. }
  reflexivity.
Qed.

(** Attaching a transport to a session that has another one closes the
    old transport and makes the new one the session's: the snapshot and the
    recent log entries go to the new transport and nothing more is
    delivered to the old one. Attaching a transport whose sends fail (a
    connection already closed, or the very transport the session holds,
    which [attach] closes first) raises nothing, delivers nothing and
    leaves the session without a transport. *)
Theorem attach_replaces_transport :
  (forall st old t,
      websocket st = Some old ->
      old <> t ->
      mem_nat t (ws_closed (world st)) = false ->
      let r := attach t st in
      let sent := to_dict st :: last_n 10 (log_history st) in
      r_res r = inr tt /\
      websocket (r_state r) = Some t /\
      ws_closed (world (r_state r)) = old :: ws_closed (world st) /\
      wire (world (r_state r)) = (wire (world st) ++ map (pair t) sent)%list /\
      r_trace r = map CSend sent) /\
  (forall st t,
      mem_nat t (ws_closed (world st)) = true \/ websocket st = Some t ->
      let r := attach t st in
      r_res r = inr tt /\
      websocket (r_state r) = None /\
      wire (world (r_state r)) = wire (world st) /\
      log_history (r_state r) = log_history st).
Proof.
  split.
  - intros st old t Hws Hne Hopen r sent. subst r sent.
    unfold attach.
    assert (Hopen' : mem_nat t (ws_closed (world
                        (set_ws_closed (old :: ws_closed (world st)) st)))
                     = false).
    { cbn -[mem_nat]. unfold mem_nat in *. cbn [existsb].
      rewrite Hopen, orb_false_r. apply Nat.eqb_neq. congruence. }
    erewrite bind_run_eq;
      [|apply read_eq
       |rewrite Hws; eapply bind_run_eq;
        [apply modify_eq|apply (attach_tail_open t _ Hopen')]].
    cbn [r_res r_state r_trace app map]. repeat split.
  - intros st t Hdead r. subst r. unfold attach.
    destruct (websocket st) as [old|] eqn:Hws.
    + assert (Hc : mem_nat t (ws_closed (world
                      (set_ws_closed (old :: ws_closed (world st)) st)))
                   = true).
      { cbn -[mem_nat]. unfold mem_nat in *. cbn [existsb].
        destruct Hdead as [Hc|Hsame].
        - rewrite Hc. apply orb_true_r.
        - injection Hsame as ->. now rewrite Nat.eqb_refl. }
      erewrite bind_run_eq;
        [|apply read_eq
         |rewrite Hws; eapply bind_run_eq;
          [apply modify_eq|apply (attach_tail_closed t _ Hc)]].
      cbn [r_res r_state r_trace]. repeat split.
    + destruct Hdead as [Hc|Hsame]; [|discriminate Hsame].
      erewrite bind_run_eq;
        [|apply read_eq
         |rewrite Hws; eapply bind_run_eq;
          [apply ret_eq|apply (attach_tail_closed t _ Hc)]].
      cbn [r_res r_state r_trace]. repeat split.
Qed.

Lemma push_log_last (msg : value) (st : State) :
  exists older, log_history (push_log msg st) = (older ++ [msg])%list.
Proof.
  unfold push_log. cbn [log_history set_log_history].
  destruct (50 <? length (log_history st ++ [msg]))%nat eqn:E.
  - destruct (log_history st) as [|x l]; [discriminate E|].
    exists l. reflexivity.
  - eexists. reflexivity.
Qed.

(** A log entry whose delivery fails is not lost. [log] on a session
    whose transport no longer takes sends raises nothing, keeps the entry
    in the history and leaves the session without a transport; the next
    transport attached is sent the snapshot and then the recent entries,
    the undelivered one last. *)
Theorem undelivered_log_is_replayed :
  forall level text now st t t',
    websocket st = Some t ->
    mem_nat t (ws_closed (world st)) = true ->
    mem_nat t' (ws_closed (world st)) = false ->
    let entry := log_entry level text now in
    let r := log level text now st in
    let r' := attach t' (r_state r) in
    r_res r = inr tt /\
    r_state r = set_websocket None (push_log entry st) /\
    r_res r' = inr tt /\
    websocket (r_state r') = Some t' /\
    (exists recent,
        last_n 10 (log_history (r_state r)) = (recent ++ [entry])%list /\
        wire (world (r_state r')) =
          (wire (world st)
           ++ (t', to_dict st) :: map (pair t') (recent ++ [entry]))%list).
Proof.
  intros level text now st t t' Hws Hc Hopen entry r r'.
  assert (Hr : r = mkRun (inr tt) (set_websocket None (push_log entry st))
                     [CSend entry]).
  { subst r. rewrite log_eq. fold entry.
    rewrite (deliver_closed t) by (autorewrite with proj; assumption).
    reflexivity. }
  subst r'. rewrite Hr. cbn [r_res r_state].
  unfold attach.
  erewrite bind_run_eq;
    [|apply read_eq
     |cbn [websocket set_websocket]; eapply bind_run_eq;
      [apply ret_eq|apply (attach_tail_open t'); exact Hopen]].
  cbn [r_res r_state r_trace]. repeat split.
  set (h := log_history (set_websocket None (push_log entry st))).
  assert (Hh : exists older, h = (older ++ [entry])%list)
    by apply push_log_last.
  destruct Hh as [older Hh].
  assert (Hl : exists recent, last_n 10 h = (recent ++ [entry])%list).
  { rewrite Hh. unfold last_n. rewrite length_app. cbn [length].
    rewrite skipn_app.
    replace (length older + 1 - 10 - length older) with 0 by lia.
    eexists. reflexivity. }
  destruct Hl as [recent Hl]. exists recent. split; [exact Hl|].
  cbn [wire world set_wire set_world]. rewrite Hl. reflexivity.
Qed.

(* ------------------------------------------------------------------ *)
(** *** The connection handler *)

Lemma for_each_stops {A : Type} (body : A -> M unit) (pre : list A) (m : A)
    (rest : list A) :
  (forall st, exists e, r_res (body m st) = inl e) ->
  forall st,
    for_each (pre ++ m :: rest) body st = for_each (pre ++ [m]) body st.
Proof.
  intros Hm. induction pre as [|x pre IH]; intros st; cbn [app for_each].
  - unfold bind. destruct (Hm st) as [e He]. rewrite He. reflexivity.
  - unfold bind. destruct (r_res (body x st)); [reflexivity|].
    rewrite IH. reflexivity.
Qed.

(** [attach] never raises. *)
Lemma attach_ok (t : nat) (st : State) : r_res (attach t st) = inr tt.
Proof.
  unfold attach.
  assert (Htail : forall st1,
             r_res ((modify (set_websocket (Some t)) ;;
                     snapshot <- read to_dict ;;
                     send_json snapshot ;;
                     history <- read log_history ;;
                     for_each (last_n 10 history) send_json) st1) = inr tt).
  { intros st1. destruct (mem_nat t (ws_closed (world st1))) eqn:Hc.
    - now rewrite attach_tail_closed.
    - now rewrite attach_tail_open. }
  destruct (websocket st) as [old|] eqn:Hws.
  - erewrite bind_run_eq;
      [|apply read_eq
       |rewrite Hws; eapply bind_run_eq; [apply modify_eq|apply run_eta]].
    apply Htail.
  - erewrite bind_run_eq;
      [|apply read_eq
       |rewrite Hws; eapply bind_run_eq; [apply ret_eq|apply run_eta]].
    apply Htail.
Qed.

Lemma on_message_bad (now : string) (decoded : Exc value) (st : State) :
  (exists e, decoded = inl e) \/
  (exists v, decoded = inr v /\ forall d, v <> VDict d) ->
  exists e,
    on_message py_repr os_path_exists popen now decoded st = mkRun (inl e) st [].
Proof.
  intros [[e ->]|[v [-> Hv]]]; unfold on_message.
  - exists e. reflexivity.
  - eexists. unfold bind. cbn [lift ret r_res r_state r_trace].
    rewrite (get_not_dict v "action" VNone Hv). reflexivity.
Qed.

(** A connection always ends with the session detached, whatever its
    messages did. A message that is not JSON, or whose JSON is not an
    object, raises before any command runs and ends the connection: the
    messages after it are never handled, and when it is the first message
    the connection has done nothing but attach and detach, and ends with
    the exception of the decoder in the first case and with AttributeError
    in the second. *)
Theorem bad_message_ends_connection :
  (forall ws messages st,
      websocket (r_state (handler py_repr os_path_exists popen ws messages st))
      = None) /\
  (forall ws pre now bad rest st,
      (exists e, bad = inl e) \/
      (exists v, bad = inr v /\ forall d, v <> VDict d) ->
      handler py_repr os_path_exists popen ws (pre ++ (now, bad) :: rest) st =
      handler py_repr os_path_exists popen ws (pre ++ [(now, bad)]) st) /\
  (forall ws now e rest st,
      let r := handler py_repr os_path_exists popen ws
                       ((now, inl e) :: rest) st in
      r_res r = inl e /\
      r_state r = set_websocket None (r_state (attach ws st)) /\
      r_trace r = r_trace (attach ws st)) /\
  (forall ws now v rest st,
      (forall d, v <> VDict d) ->
      let r := handler py_repr os_path_exists popen ws
                       ((now, inr v) :: rest) st in
      r_res r = inl (Exn AttributeError
                         ("'" ++ type_name v
                          ++ "' object has no attribute 'get'")) /\
      r_state r = set_websocket None (r_state (attach ws st)) /\
      r_trace r = r_trace (attach ws st)).
Proof.
  split; [|split; [|split]].
  - intros ws messages st. unfold handler, bind.
    rewrite attach_ok. cbn [r_state]. unfold try_finally, detach, modify.
    cbn [r_res r_state]. reflexivity.
  - intros ws pre now bad rest st Hbad. unfold handler, bind.
    rewrite attach_ok. cbn [r_res r_state r_trace].
    unfold try_finally.
    rewrite (for_each_stops
               (fun m => on_message py_repr os_path_exists popen (fst m) (snd m))
               pre (now, bad) rest); [reflexivity|].
    intros st1. cbn [fst snd].
    destruct (on_message_bad now bad st1 Hbad) as [e He].
    exists e. now rewrite He.
  - intros ws now e rest st r. subst r. unfold handler, bind.
    rewrite attach_ok. cbn [r_res r_state r_trace].
    unfold try_finally, detach, modify. cbn [for_each fst snd].
    unfold on_message, bind. cbn [lift raise r_res r_state r_trace].
    rewrite app_nil_r. repeat split.
  - intros ws now v rest st Hv r. subst r. unfold handler, bind.
    rewrite attach_ok. cbn [r_res r_state r_trace].
    unfold try_finally, detach, modify. cbn [for_each fst snd].
    unfold on_message, bind. cbn [lift ret r_res r_state r_trace].
    rewrite (get_not_dict v "action" VNone Hv).
    cbn [lift raise r_res r_state r_trace].
    rewrite app_nil_r. repeat split.
Qed.

(* ------------------------------------------------------------------ *)
(** *** The read loop: lines across reads *)

Lemma keeps_channel_send_json (data : value) :
  keeps channel_of (send_json data).
Proof.
  intros st. rewrite send_json_eq. cbn [r_state]. unfold channel_of.
  now autorewrite with proj.
Qed.

Lemma keeps_channel_log (level text now : string) :
  keeps channel_of (log level text now).
Proof.
  intros st. rewrite log_eq. cbn [r_state]. unfold channel_of.
  now autorewrite with proj.
Qed.

Lemma keeps_channel_os_write (fd : nat) (data : string) :
  keeps channel_of (os_write fd data).
Proof.
  intros st. unfold os_write.
  destruct (mem_nat fd (open_fds (world st))); reflexivity.
Qed.

Ltac channel_step :=
  lazymatch goal with
  | |- keeps _ (send_json _) => apply keeps_channel_send_json
  | |- keeps _ (log _ _ _) => apply keeps_channel_log
  | |- keeps _ (os_write _ _) => apply keeps_channel_os_write
  | |- _ => keeps_step
  end.

(** The handling of an event of the debugger never touches the channel:
    whatever the event, and whether it raises or not, the process, the
    running flag, the master descriptor and the open descriptors are as
    before, and nothing is spawned or asked to end. *)
Theorem events_never_touch_the_channel :
  forall now event st,
    let st' := r_state (on_gdb_event py_repr now event st) in
    wrapper st' = wrapper st /\
    open_fds (world st') = open_fds (world st) /\
    spawned (world st') = spawned (world st) /\
    terminated (world st') = terminated (world st).
Proof.
  intros now event st st'.
  assert (H : keeps channel_of (on_gdb_event py_repr now event)).
  { unfold on_gdb_event, on_result_token, on_result_error, write.
    repeat channel_step. }
  specialize (H st). fold st' in H. unfold channel_of in H.
  injection H as H1 H2 H3 H4. repeat split; assumption.
Qed.

(** One iteration of the loop on a chunk that is not empty. *)
Lemma loop_data_step (on_event : value -> M unit) (chunk : string)
    (script : list Readiness) (buffer : string) (st : State) :
  loop_ready st ->
  chunk <> "" ->
  loop_from parse_response on_event (Data chunk :: script) buffer st =
  (let r := dispatch_lines parse_response on_event
              (fst (split_lines (buffer ++ chunk)))
              (snd (split_lines (buffer ++ chunk))) st in
   match r_res r with
   | inl e => mkRun (inl e) (r_state r) (r_trace r)
   | inr (buffer', None) =>
       let r' := loop_from parse_response on_event script buffer'
                           (r_state r) in
       mkRun (r_res r') (r_state r') (r_trace r ++ r_trace r')
   | inr (buffer', Some e) =>
       if is_OSError e
       then mkRun (inr Returned) (r_state r) (r_trace r)
       else
         let r' := loop_from parse_response on_event script buffer'
                             (r_state r) in
         mkRun (r_res r') (r_state r') (r_trace r ++ r_trace r')
   end).
Proof.
  intros [Hrun [f [Hm Hin]]] Hc.
  cbn [loop_from]. rewrite Hrun, Hm. cbn [negb].
  apply mem_nat_In in Hin. rewrite Hin. cbn [negb].
  apply String.eqb_neq in Hc. rewrite Hc.
  destruct (split_lines (buffer ++ chunk)) as [ls rest]. reflexivity.
Qed.

(** Dispatching the lines [la] and then the lines [lb], when no handler
    raised on [la], is dispatching [la ++ lb]. *)
Lemma dispatch_lines_app (on_event : value -> M unit) (la : list string) :
  forall lb ra rest st st1 tr1 res st2 tr2,
    dispatch_lines parse_response on_event la ra st =
      mkRun (inr (ra, None)) st1 tr1 ->
    dispatch_lines parse_response on_event lb rest st1 = mkRun res st2 tr2 ->
    dispatch_lines parse_response on_event (la ++ lb) rest st =
      mkRun res st2 (tr1 ++ tr2).
Proof.
  induction la as [|l la IH]; intros lb ra rest st st1 tr1 res st2 tr2 Ha Hb.
  - cbn in Ha. injection Ha as <- <-. exact Hb.
  - cbn [app dispatch_lines] in *.
    destruct (truthy (_parse_line parse_response (strip l))).
    + destruct (r_res (on_event (_parse_line parse_response (strip l)) st))
        as [e|[]] eqn:Hres; [discriminate Ha|].
      injection Ha as Hr Hs Ht.
      erewrite (IH lb ra rest _ st1 _ res st2 tr2);
        [|rewrite <- Hr, <- Hs; apply run_eta|exact Hb].
      cbn [r_res r_state r_trace]. rewrite <- Ht, app_assoc. reflexivity.
    + eapply IH; eassumption.
Qed.

(** The state a dispatch leaves is ready for the next read when the
    handler keeps the channel. *)
Lemma dispatch_lines_ready (on_event : value -> M unit) (ls : list string) :
  (forall ev st, wrapper (r_state (on_event ev st)) = wrapper st) ->
  (forall ev st,
      open_fds (world (r_state (on_event ev st))) = open_fds (world st)) ->
  forall rest st,
    loop_ready st ->
    loop_ready (r_state (dispatch_lines parse_response on_event ls rest st)).
Proof.
  intros Hw Hfd. induction ls as [|l ls IH]; intros rest st Hst.
  - exact Hst.
  - cbn [dispatch_lines].
    destruct (truthy (_parse_line parse_response (strip l))); [|now apply IH].
    assert (Hst' : loop_ready
                     (r_state (on_event (_parse_line parse_response (strip l))
                                        st))).
    { unfold loop_ready in *. now rewrite Hw, Hfd. }
    destruct (r_res (on_event (_parse_line parse_response (strip l)) st));
      cbn [r_state]; [exact Hst'|now apply IH].
Qed.

(** How the output of the debugger is cut into reads does not matter. A
    read without a newline dispatches nothing and is kept for the next
    read; and two reads in a row give what one read of the two chunks
    together gives (the same events to the handler in the same order, the
    same state, the same bytes kept), when the handler keeps the channel and
    does not raise on the lines the first read completes. *)
Theorem read_boundaries_do_not_matter :
  (forall on_event c script buffer st,
      loop_ready st ->
      c <> "" ->
      contains nl (buffer ++ c) = false ->
      loop_from parse_response on_event (Data c :: script) buffer st =
      loop_from parse_response on_event script (buffer ++ c) st) /\
  (forall on_event a b script buffer st,
      (forall ev st, wrapper (r_state (on_event ev st)) = wrapper st) ->
      (forall ev st,
          open_fds (world (r_state (on_event ev st))) = open_fds (world st)) ->
      loop_ready st ->
      a <> "" -> b <> "" ->
      (exists kept,
          r_res (dispatch_lines parse_response on_event
                   (fst (split_lines (buffer ++ a)))
                   (snd (split_lines (buffer ++ a))) st) = inr (kept, None)) ->
      loop_from parse_response on_event (Data a :: Data b :: script) buffer st =
      loop_from parse_response on_event (Data (a ++ b) :: script) buffer st).
Proof.
  split.
  - intros on_event c script buffer st Hst Hc Hnl.
    rewrite (loop_data_step on_event c script buffer st Hst Hc).
    rewrite (split_lines_no_newline _ Hnl). cbn [fst snd dispatch_lines].
    cbn [ret r_res r_state r_trace app].
    symmetry. apply run_eta.
  - intros on_event a b script buffer st Hw Hfd Hst Ha Hb [kept Hkept].
    assert (Hab : a ++ b <> "") by (destruct a; [congruence|discriminate]).
    rewrite (loop_data_step on_event a _ buffer st Hst Ha).
    rewrite (loop_data_step on_event (a ++ b) script buffer st Hst Hab).
    rewrite <- str_app_assoc, (split_lines_app (buffer ++ a) b).
    destruct (split_lines (buffer ++ a)) as [la ra]. cbn [fst snd] in *.
    assert (Hkept' : kept = ra).
    { clear -Hkept. revert st Hkept.
      induction la as [|l la IH]; intros st H; cbn [dispatch_lines] in H.
      - cbn in H. now injection H as <-.
      - destruct (truthy (_parse_line parse_response (strip l)));
          [|now apply (IH st)].
        destruct (r_res (on_event (_parse_line parse_response (strip l)) st));
          cbn [r_res] in H; [discriminate H|now apply (IH _ H)]. }
    subst kept.
    set (ra_run := dispatch_lines parse_response on_event la ra st) in *.
    assert (Hready : loop_ready (r_state ra_run))
      by (apply dispatch_lines_ready; assumption).
    cbn zeta. rewrite Hkept.
    rewrite (loop_data_step on_event b script ra _ Hready Hb).
    destruct (split_lines (ra ++ b)) as [lb rb]. cbn [fst snd].
    set (rb_run := dispatch_lines parse_response on_event lb rb
                                  (r_state ra_run)).
    rewrite (dispatch_lines_app on_event la lb ra rb st
               (r_state ra_run) (r_trace ra_run)
               (r_res rb_run) (r_state rb_run) (r_trace rb_run));
      [|rewrite <- Hkept; apply run_eta|apply run_eta].
    cbn [r_res r_state r_trace].
    destruct (r_res rb_run) as [e|[buffer' [e|]]]; cbn [r_res r_state r_trace].
    + reflexivity.
    + destruct (is_OSError e); cbn [r_res r_state r_trace];
        [reflexivity|now rewrite app_assoc].
    + now rewrite app_assoc.
Qed.

(** An exception of the handler inside the read loop. When the handler
    raises on a line, the lines that follow it in the same read are not
    dispatched, although they are complete. If the exception is an OSError
    the loop returns, and these lines are lost with its buffer. Otherwise
    the loop goes on, with these lines kept in its buffer as they were: they
    are dispatched only after a later read brings more bytes, and if none
    does the loop waits with them undispatched. *)
Theorem handler_error_delays_following_lines :
  forall on_event chunk script buffer st l ls rest e st1 tr1,
    loop_ready st ->
    chunk <> "" ->
    split_lines (buffer ++ chunk) = (l :: ls, rest) ->
    truthy (_parse_line parse_response (strip l)) = true ->
    on_event (_parse_line parse_response (strip l)) st = mkRun (inl e) st1 tr1 ->
    let r := loop_from parse_response on_event (Data chunk :: script) buffer st in
    (is_OSError e = true -> r = mkRun (inr Returned) st1 tr1) /\
    (is_OSError e = false ->
     let r' := loop_from parse_response on_event script (join_lines ls rest)
                         st1 in
     r = mkRun (r_res r') (r_state r') (tr1 ++ r_trace r')) /\
    (is_OSError e = false -> script = [] -> loop_ready st1 ->
     r = mkRun (inr (Suspended (join_lines ls rest))) st1 tr1).
Proof.
  intros on_event chunk script buffer st l ls rest e st1 tr1
         Hst Hc Hsplit Hev Hraise r.
  assert (Hr : r =
               if is_OSError e then mkRun (inr Returned) st1 tr1
               else
                 let r' := loop_from parse_response on_event script
                                     (join_lines ls rest) st1 in
                 mkRun (r_res r') (r_state r') (tr1 ++ r_trace r')).
  { subst r. rewrite (loop_data_step on_event chunk script buffer st Hst Hc).
    rewrite Hsplit. cbn [fst snd dispatch_lines]. rewrite Hev, Hraise.
    cbn [r_res r_state r_trace]. reflexivity. }
  split; [|split].
  - intros He. now rewrite Hr, He.
  - intros He. now rewrite Hr, He.
  - intros He -> [Hrun [f [Hm Hin]]]. rewrite Hr, He.
    cbn [loop_from]. rewrite Hrun, Hm. cbn [negb r_res r_state r_trace].
    now rewrite app_nil_r.
Qed.

(* ------------------------------------------------------------------ *)
(** *** The line parser *)

(** Whatever goes wrong while a line is parsed is swallowed: the line
    gives no event (and so nothing is dispatched for it) when the protocol
    parser raises, when what it gives is not a mapping or has no [type],
    when a console record has no text, an empty text or a payload that is
    not a string, and when a notify or result record lacks one of the keys
    read from it. *)
Theorem parser_swallows_errors :
  (forall line e,
      parse_response line = inl e -> _parse_line parse_response line = VNone) /\
  (forall line v,
      parse_response line = inr v -> (forall d, v <> VDict d) ->
      _parse_line parse_response line = VNone) /\
  (forall line d,
      parse_response line = inr (VDict d) -> assoc "type" d = None ->
      _parse_line parse_response line = VNone) /\
  (forall line d,
      parse_response line = inr (VDict d) ->
      assoc "type" d = Some (VStr "console") ->
      (forall s, s <> "" -> assoc "payload" d <> Some (VStr s)) ->
      _parse_line parse_response line = VNone) /\
  (forall line d,
      parse_response line = inr (VDict d) ->
      assoc "type" d = Some (VStr "notify") ->
      assoc "message" d = None \/ assoc "payload" d = None ->
      _parse_line parse_response line = VNone) /\
  (forall line d,
      parse_response line = inr (VDict d) ->
      assoc "type" d = Some (VStr "result") ->
      assoc "message" d = None \/ assoc "payload" d = None \/
      assoc "token" d = None ->
      _parse_line parse_response line = VNone).
Proof.
  repeat match goal with |- _ /\ _ => split end.
  - intros line e H. unfold _parse_line, parse_line_body. now rewrite H.
  - intros line v H Hv. unfold _parse_line, parse_line_body. rewrite H.
    cbn [lift_exc]. destruct (truthy v); cbn [negb]; [|reflexivity].
    destruct v; try reflexivity. now destruct (Hv d).
  - intros line d H Hty. unfold _parse_line, parse_line_body. rewrite H.
    cbn [lift_exc]. destruct (truthy (VDict d)); cbn [negb]; [|reflexivity].
    unfold subscript. now rewrite Hty.
  - intros line d H Hty Hpl. unfold _parse_line, parse_line_body. rewrite H.
    cbn [lift_exc]. rewrite (assoc_nonempty _ _ _ Hty). cbn [negb].
    unfold subscript. rewrite Hty.
    cbn [lift_exc is_str String.eqb Ascii.eqb Bool.eqb].
    destruct (assoc "payload" d) as [content|] eqn:Hc; [|reflexivity].
    cbn [lift_exc]. destruct (truthy content) eqn:Ht; [|reflexivity].
    destruct content as [| | |s| |]; try reflexivity.
    exfalso. apply (Hpl s); [|reflexivity].
    intros ->. discriminate Ht.
  - intros line d H Hty Hmiss. unfold _parse_line, parse_line_body. rewrite H.
    cbn [lift_exc]. rewrite (assoc_nonempty _ _ _ Hty). cbn [negb].
    unfold subscript. rewrite Hty.
    cbn [lift_exc is_str String.eqb Ascii.eqb Bool.eqb].
    destruct Hmiss as [Hm|Hp].
    + now rewrite Hm.
    + rewrite Hp. now destruct (assoc "message" d).
  - intros line d H Hty Hmiss. unfold _parse_line, parse_line_body. rewrite H.
    cbn [lift_exc]. rewrite (assoc_nonempty _ _ _ Hty). cbn [negb].
    unfold subscript. rewrite Hty.
    cbn [lift_exc is_str String.eqb Ascii.eqb Bool.eqb].
    destruct Hmiss as [Hm|[Hp|Ht]].
    + now rewrite Hm.
    + rewrite Hp. now destruct (assoc "message" d).
    + rewrite Ht. destruct (assoc "message" d); [|reflexivity].
      now destruct (assoc "payload" d).
Qed.

(** A result line is routed by its token alone. A line the protocol
    parser gives as a result record under token 101 whose payload has a
    stack (and no error text) replaces the stack of the session and sends
    one snapshot. The same record under no token (None, or 0, which the
    parser drops as it drops None) changes nothing and sends nothing: the
    name "stack" the parser gives such a result plays no part. *)
Theorem result_line_is_routed_by_token :
  forall now line d message p v token st,
    parse_response line = inr (VDict d) ->
    assoc "type" d = Some (VStr "result") ->
    assoc "message" d = Some message ->
    assoc "payload" d = Some (VDict p) ->
    assoc "token" d = Some token ->
    assoc "stack" p = Some v ->
    truthy (lookup p "msg" VNone) = false ->
    let r := on_gdb_event py_repr now (_parse_line parse_response line) st in
    (token = VInt 101 ->
     r = mkRun (inr tt) (deliver (to_dict (set_stack v st)) (set_stack v st))
               [CSend (to_dict (set_stack v st))]) /\
    (truthy token = false -> r = mkRun (inr tt) st []).
Proof.
  intros now line d message p v token st H Hty Hm Hp Ht Hv Hmsg r.
  assert (Hev : _parse_line parse_response line =
                VDict ([("type", VStr "result"); ("message", VStr "stack");
                        ("payload", VDict p)]
                       ++ (if truthy token then [("token", token)] else []))%list).
  { unfold _parse_line, parse_line_body. rewrite H.
    cbn [lift_exc]. rewrite (assoc_nonempty _ _ _ Hty). cbn [negb].
    unfold subscript. rewrite Hty, Hm, Hp, Ht.
    cbn [lift_exc is_str String.eqb Ascii.eqb Bool.eqb].
    unfold has_key. rewrite Hv. now destruct (truthy token). }
  assert (Hquiet : forall st1,
             on_result_error py_repr (VStr "stack") (VDict p) now st1 =
             mkRun (inr tt) st1 []).
  { intros st1.
    apply (on_result_error_quiet now (VStr "stack") (VDict p) _ st1
             (get_dict p "msg" VNone) Hmsg eq_refl). }
  split.
  - intros ->. subst r. rewrite Hev. cbn [truthy Z.eqb negb app].
    assert (Hget : get (VDict p) "stack" (VList []) = inr v)
      by (cbn [get]; now rewrite Hv).
    etransitivity.
    { eapply on_result_run;
        [reflexivity | reflexivity | reflexivity | reflexivity | reflexivity
        | exact (token_stack_run (VDict p) v st Hget) | apply Hquiet]. }
    reflexivity.
  - intros Hfalsy. subst r. rewrite Hev, Hfalsy. cbn [app].
    etransitivity.
    { eapply on_result_run;
        [reflexivity | reflexivity | reflexivity | reflexivity | reflexivity
        | exact (token_other_run VNone (VDict p) st
                   eq_refl eq_refl eq_refl eq_refl eq_refl eq_refl)
        | apply Hquiet]. }
    reflexivity.
Qed.



(* ------------------------------------------------------------------ *)
(** *** The messages, written out *)

(** C2. A notification "stopped" whose reason is neither "exited" nor
    "exited-normally" (the payload being a mapping and its frame, when it
    has one, a record; the channel's descriptor being unset or open) sets
    the status to Paused and the location to the frame's file, line and
    function when the payload has a frame; one full snapshot of the new
    state is sent (type state_update, with the status "Paused", the
    location, the stack and the variables), then the pause is logged; and
    exactly two commands are handed to the process channel, whatever the
    state: the stack request under token 101, then the locals request under
    token 102. An open channel writes both to the terminal. *)
Theorem stopped_pauses_and_fetches_context :
  forall now event payload reason frame st,
    truthy event = true ->
    get event "type" VNone = inr (VStr "notify") ->
    get event "message" VNone = inr (VStr "stopped") ->
    get event "payload" (VDict []) = inr payload ->
    get payload "reason" VNone = inr reason ->
    is_str reason "exited-normally" = false ->
    is_str reason "exited" = false ->
    get payload "frame" (VDict []) = inr frame ->
    (truthy frame = true -> exists d, frame = VDict d) ->
    channel_ok st ->
    let r := on_gdb_event py_repr now event st in
    let loc := frame_location frame (location st) in
    let paused := set_location loc (set_status Paused st) in
    let entry := log_entry "info" (paused_text py_repr reason loc) now in
    (r_res r = inr tt /\
     status (r_state r) = Paused /\
     location (r_state r) = loc /\
     stack (r_state r) = stack st /\
     variables (r_state r) = variables st /\
     r_trace r = [CSend (to_dict paused); CSend entry;
                  CWrite "101-stack-list-frames";
                  CWrite "102-stack-list-locals --simple-values"] /\
     pty_written (world (r_state r)) =
       (pty_written (world st) ++
        written st ["101-stack-list-frames";
                    "102-stack-list-locals --simple-values"])%list /\
     wire (world (r_state r)) =
       (wire (world st) ++ frames st [to_dict paused; entry])%list) /\
    (forall d,
        frame = VDict d -> truthy frame = true ->
        let file := lookup d "file" VNone in
        let line := lookup d "line" VNone in
        let func := lookup d "func" VNone in
        location (r_state r) = Some (mkLocation file line func) /\
        r_trace r =
          [CSend (VDict [("type", VStr "state_update");
                         ("payload",
                          VDict [("status", VStr "Paused");
                                 ("location",
                                  VDict [("file", file); ("line", line);
                                         ("func", func)]);
                                 ("stack", stack st);
                                 ("variables", variables st)])]);
           CSend (VDict [("type", VStr "log_event");
                         ("payload",
                          VDict [("level", VStr "info");
                                 ("text",
                                  VStr ("[Paused] " ++ py_str py_repr reason
                                        ++ " at " ++ py_str py_repr file
                                        ++ ":" ++ py_str py_repr line));
                                 ("timestamp", VStr now)])]);
           CWrite "101-stack-list-frames";
           CWrite "102-stack-list-locals --simple-values"]) /\
    (truthy frame = false ->
     location (r_state r) = location st /\
     (location st = None ->
      r_trace r =
        [CSend (VDict [("type", VStr "state_update");
                       ("payload",
                        VDict [("status", VStr "Paused");
                               ("location", VNone);
                               ("stack", stack st);
                               ("variables", variables st)])]);
         CSend (VDict [("type", VStr "log_event");
                       ("payload",
                        VDict [("level", VStr "info");
                               ("text",
                                VStr ("[Paused] " ++ py_str py_repr reason));
                               ("timestamp", VStr now)])]);
         CWrite "101-stack-list-frames";
         CWrite "102-stack-list-locals --simple-values"])).
Proof.
  intros now event payload reason frame st Hev Hty Hmsg Hpl Hre Hr1 Hr2 Hfr
         Hfok Hch r loc paused entry.
  pose proof (stopped_run_facts now event payload reason frame st
                Hev Hty Hmsg Hpl Hre Hr1 Hr2 Hfr Hfok Hch) as Hfacts.
  cbv zeta in Hfacts. fold r in Hfacts.
  split; [exact Hfacts|].
  destruct Hfacts as (_ & _ & Hloc & _ & _ & Htr & _).
  split.
  - intros d -> Ht file line func.
    destruct d as [|kv d]; [discriminate Ht|].
    split; [rewrite Hloc; reflexivity|].
    rewrite Htr. reflexivity.
  - intros Hf.
    assert (Hsame : frame_location frame (location st) = location st).
    { destruct frame as [| | | | |[|kv d]]; try reflexivity.
      discriminate Hf. }
    split; [now rewrite Hloc|].
    intros Hnone. rewrite Htr, Hsame. unfold to_dict, log_entry, paused_text.
    cbn [status location stack variables set_location set_status].
    rewrite Hnone. reflexivity.
Qed.

(** C5. An init action whose executable does not exist: [start] fails with
    FileNotFoundError and spawns nothing; the engine logs at error level and
    sends a message of type error whose payload is the text of the failure;
    the status, the stack, the variables and the location are left as they
    were (a session that was Ready stays Ready). More generally the status
    is the same after any init action whose [start] raises, and after any
    result event, which is where the errors of the debugger are handled.
    The executable is looked for only when one is given: with no executable,
    or the empty path, the debugger is spawned without a program and no
    error is reported. *)
Theorem init_missing_executable_reports_error :
  (forall now args exe st,
      get args "executable" VNone = inr exe ->
      truthy exe = true ->
      os_path_exists exe = inr false ->
      let r := handle_command py_repr os_path_exists popen now
                              (VStr "init") args st in
      let why := "Binary not found: " ++ py_str py_repr exe in
      let entry :=
        VDict [("type", VStr "log_event");
               ("payload",
                VDict [("level", VStr "error");
                       ("text", VStr ("Failed to start GDB: " ++ why));
                       ("timestamp", VStr now)])] in
      let err :=
        VDict [("type", VStr "error");
               ("payload", VStr ("Startup Failed: " ++ why))] in
      r_res (start py_repr os_path_exists popen exe st) =
        inl (Exn FileNotFoundError why) /\
      r_res r = inr tt /\
      status (r_state r) = status st /\
      (status st = Ready -> status (r_state r) = Ready) /\
      stack (r_state r) = stack st /\
      variables (r_state r) = variables st /\
      location (r_state r) = location st /\
      process (wrapper (r_state r)) = process (wrapper st) /\
      spawned (world (r_state r)) = spawned (world st) /\
      r_trace r = [CSend entry; CSend err] /\
      log_history (r_state r) = log_history (push_log entry st) /\
      wire (world (r_state r)) =
        (wire (world st) ++ frames st [entry; err])%list) /\
  (forall now args exe st e,
      get args "executable" VNone = inr exe ->
      r_res (start py_repr os_path_exists popen exe st) = inl e ->
      let r := handle_command py_repr os_path_exists popen now
                              (VStr "init") args st in
      r_res r = inr tt /\
      status (r_state r) = status st /\
      exists calls,
        r_trace r =
          (calls ++
           [CSend (VDict [("type", VStr "log_event");
                          ("payload",
                           VDict [("level", VStr "error");
                                  ("text",
                                   VStr ("Failed to start GDB: " ++ exn_str e));
                                  ("timestamp", VStr now)])]);
            CSend (VDict [("type", VStr "error");
                          ("payload",
                           VStr ("Startup Failed: " ++ exn_str e))])])%list) /\
  (forall now event st,
      get event "type" VNone = inr (VStr "result") ->
      status (r_state (on_gdb_event py_repr now event st)) = status st) /\
  (forall now args exe st pid,
      get args "executable" VNone = inr exe ->
      truthy exe = false ->
      popen gdb_argv = inr pid ->
      let r := handle_command py_repr os_path_exists popen now
                              (VStr "init") args st in
      r_res r = inr tt /\
      status (r_state r) = Ready /\
      process (wrapper (r_state r)) = Some pid /\
      spawned (world (r_state r)) =
        (spawned (world st) ++ [(pid, gdb_argv)])%list /\
      log_history (r_state r) = log_history st /\
      r_trace r =
        [CSend (VDict [("type", VStr "state_update");
                       ("payload",
                        VDict [("status", VStr "Ready");
                               ("location", location_value (location st));
                               ("stack", VList []);
                               ("variables", VList [])])])]).
Proof.
  destruct init_failure_facts as (Hmissing & Hfail & Hresult).
  split; [|split; [|split]].
  - intros now args exe st Hexe Ht Hm. exact (Hmissing now args exe st Hexe Ht Hm).
  - intros now args exe st e Hexe Hres. exact (Hfail now args exe st e Hexe Hres).
  - exact Hresult.
  - intros now args exe st pid Hexe Hf Hpopen r.
    assert (Hex : truthy exe = true -> os_path_exists exe = inr true)
      by (rewrite Hf; discriminate).
    assert (Hpopen' : popen (if truthy exe then (gdb_argv ++ [exe])%list
                             else gdb_argv) = inr pid)
      by now rewrite Hf.
    subst r. rewrite (init_ok_run now args exe st pid Hexe Hex Hpopen').
    rewrite (start_ok_run exe st pid Hex Hpopen'). rewrite Hf.
    cbn [r_res r_state r_trace]. autorewrite with proj.
    repeat split.
Qed.

(** C10. The stop action stops the process channel (the process it holds
    is asked to end, its master descriptor is closed, and the controller is
    left with no process, not running and no descriptor) and sets the status
    to Ready, and leaves the stack, the variables and the location as they
    were: the snapshot it then sends reports "Ready" together with the
    stack, the variables and the location of before the stop, whatever they
    hold. *)
Theorem stop_keeps_stale_context :
  forall now args st,
    let r := handle_command py_repr os_path_exists popen now (VStr "stop") args st in
    (r_res r = inr tt /\
     process (wrapper (r_state r)) = None /\
     running (wrapper (r_state r)) = false /\
     fd_truthy (master_fd (wrapper (r_state r))) = false /\
     status (r_state r) = Ready /\
     stack (r_state r) = stack st /\
     variables (r_state r) = variables st /\
     location (r_state r) = location st /\
     r_trace r =
       [CSend (VDict [("type", VStr "state_update");
                      ("payload",
                       VDict [("status", VStr "Ready");
                              ("location", location_value (location st));
                              ("stack", stack st);
                              ("variables", variables st)])])]) /\
    (forall file line func,
        location st = Some (mkLocation file line func) ->
        let snapshot :=
          VDict [("type", VStr "state_update");
                 ("payload",
                  VDict [("status", VStr "Ready");
                         ("location",
                          VDict [("file", file); ("line", line);
                                 ("func", func)]);
                         ("stack", stack st);
                         ("variables", variables st)])] in
        r_trace r = [CSend snapshot] /\
        wire (world (r_state r)) = (wire (world st) ++ frames st [snapshot])%list)
    /\
    (location st = None ->
     r_trace r =
       [CSend (VDict [("type", VStr "state_update");
                      ("payload",
                       VDict [("status", VStr "Ready");
                              ("location", VNone);
                              ("stack", stack st);
                              ("variables", variables st)])])]) /\
    (forall pid,
        process (wrapper st) = Some pid ->
        terminated (world (r_state r)) = (terminated (world st) ++ [pid])%list)
    /\
    (forall f,
        master_fd (wrapper st) = Some (S f) ->
        ~ In (S f) (open_fds (world (r_state r)))).
Proof.
  intros now args st r.
  pose proof (stop_action_facts now args st) as Hfacts.
  cbv zeta in Hfacts. fold r in Hfacts.
  split; [exact Hfacts|].
  destruct Hfacts as (_ & _ & _ & _ & _ & _ & _ & _ & Htr).
  assert (Hr : r_state r =
               deliver (to_dict (set_status Ready (r_state (stop st))))
                       (set_status Ready (r_state (stop st)))).
  { subst r. now rewrite stop_action_run. }
  destruct (stop_eq st)
    as (_ & _ & _ & _ & _ & _ & Hsk & Hv & Hl & Hws & _ & Hwire & Hclosed & _).
  split; [|split; [|split]].
  - intros file line func Hloc snapshot. subst snapshot.
    split; [rewrite Htr, Hloc; reflexivity|].
    rewrite Hr. rewrite deliver_wire.
    cbn [world set_status]. rewrite Hwire.
    rewrite (frames_same st (set_status Ready (r_state (stop st))))
      by (cbn [websocket world set_status]; assumption).
    unfold to_dict.
    cbn [status location stack variables set_status status_str].
    rewrite Hsk, Hv, Hl, Hloc. reflexivity.
  - intros Hloc. rewrite Htr, Hloc. reflexivity.
  - intros pid Hp. rewrite Hr. autorewrite with proj.
    cbn [world set_status]. now apply stop_terminates.
  - intros f Hm. rewrite Hr. autorewrite with proj.
    cbn [world set_status]. now apply (stop_closes_master st f).
Qed.


End Properties.

(* ================================================================== *)
(** ** The properties on the concrete environment *)

Import Example.

Lemma reattach_replays_recent_history_witness :
  let r := (detach ;; attach 2) logged_once in
  r_res r = inr tt /\
  r_trace r = [CSend (to_dict logged_once);
               CSend (log_entry "info" "[Running]" "t1")].
Proof.
  destruct (reattach_replays_recent_history logged_once 2 eq_refl)
    as (Hres & _ & Htr & _).
  split; [exact Hres | exact Htr].
Defined.

Lemma reattach_redelivers_logged_entry :
  let before := logged_once in
  let after := r_state ((detach ;; attach 2) before) in
  let again := skipn (length (wire (world before))) (wire (world after)) in
  ~ (forall e,
        In e (log_history before) ->
        (exists t, In (t, e) (wire (world before))) ->
        forall t', ~ In (t', e) again).
Proof.
  intros before after again H.
  apply (H (log_entry "info" "[Running]" "t1")) with (t' := 2).
  - left. reflexivity.
  - exists 1. right. left. reflexivity.
  - vm_compute. right. left. reflexivity.
Qed.


Lemma zero_length_read_exits_loop_witness :
  let r := loop_from parse (on_gdb_event repr "t2") [Data ""] "" started in
  r_res r = inr Returned /\ r_state r = started /\
  running (wrapper (r_state r)) = true /\
  fd_truthy (master_fd (wrapper (r_state r))) = true.
Proof.
  destruct (zero_length_read_exits_loop
              parse (on_gdb_event repr "t2") [] "" started 2
              eq_refl eq_refl (or_introl eq_refl))
    as (Hres & Hst & _ & Hrun & Hfd & _).
  exact (conj Hres (conj Hst (conj Hrun Hfd))).
Defined.

Lemma zero_length_read_leaves_channel_open :
  let r := run_event_loop parse (on_gdb_event repr "t2") [Data ""] started in
  let after := r_state r in
  r_res r = inr Returned /\
  ~ (running (wrapper after) = false \/
     fd_truthy (master_fd (wrapper after)) = false) /\
  ~ (pty_written (world (r_state (write "-exec-run" after))) =
     pty_written (world after)) /\
  ~ (r_trace (run_event_loop parse (on_gdb_event repr "t3")
                             [Data ("~hello" ++ NL)] after) = []).
Proof.
  split; [|split; [|split]].
  - reflexivity.
  - intros [H|H]; vm_compute in H; discriminate H.
  - intros H. vm_compute in H. discriminate H.
  - intros H. vm_compute in H. discriminate H.
Qed.





Lemma output_dropped_log_passed_on_witness :
  _parse_line parse "plain output" = VNone /\
  dispatch_lines parse probe ["plain output"] "" started =
    mkRun (inr ("", None)) started [] /\
  _parse_line parse "&warning" =
    VDict [("type", VStr "log"); ("message", VNone);
           ("payload", VStr "warning")] /\
  on_gdb_event repr "t2"
    (VDict [("type", VStr "log"); ("message", VNone);
            ("payload", VStr "warning")]) started =
    mkRun (inr tt) started [].
Proof.
  destruct (output_dropped_log_passed_on repr parse)
    as (Hout & Hout_loop & Hlog & _ & Hignored).
  split; [|split; [|split]].
  - exact (Hout "plain output" _ eq_refl eq_refl).
  - exact (Hout_loop probe "plain output" "" _ started eq_refl eq_refl).
  - exact (Hlog "&warning" _ eq_refl eq_refl).
  - exact (Hignored "t2" [("type", VStr "log"); ("message", VNone);
                          ("payload", VStr "warning")] started eq_refl).
Defined.

Lemma log_record_is_dispatched :
  parse "&warning" =
    inr (VDict [("type", VStr "log"); ("message", VNone);
                ("payload", VStr "warning")]) /\
  ~ (_parse_line parse "&warning" = VNone) /\
  ~ (r_trace (run_event_loop parse probe [Data ("&warning" ++ NL)] started)
     = []).
Proof.
  split; [|split].
  - reflexivity.
  - intros H. vm_compute in H. discriminate H.
  - intros H. vm_compute in H. discriminate H.
Qed.

Lemma log_history_bounded_fifo_witness :
  let entries := repeat ("info", "tick", "t1") 50 in
  let full := r_state (log_all entries session0) in
  length (log_history (r_state (log "info" "one" "t1" session0))) <= 50 /\
  log_history (r_state (log "info" "one" "t1" session0)) =
    [log_entry "info" "one" "t1"] /\
  log_history (r_state (log "error" "last" "t2" full)) =
    (tl (log_history full) ++ [log_entry "error" "last" "t2"])%list /\
  length (log_history full) = 50 /\
  length (log_history
            (run_ops repr no_file spawn
                     [OAttach 1; OEvent "t1" stopped_event; ODetach]
                     session0)) <= 50.
Proof.
  destruct (log_history_bounded_fifo repr no_file spawn)
    as (Hbound & Hroom & Hfull & Hall & Hops).
  split; [|split; [|split; [|split]]].
  - apply Hbound. apply Nat.le_0_l.
  - apply (Hroom "info" "one" "t1" session0). apply Nat.lt_0_succ.
  - apply (Hfull "error" "last" "t2"). reflexivity.
  - exact (proj1 (proj2 (Hall "default" world0
                              (repeat ("info", "tick", "t1") 50)))).
  - apply (Hops "default" world0).
Defined.

Lemma missing_executable_leaks_terminal_witness :
  let r := start repr no_file spawn (VStr "/nonexistent/path") session0 in
  master_fd (wrapper (r_state r)) = Some 3 /\
  open_fds (world (r_state r)) = [4; 3; 0; 1; 2] /\
  spawned (world (r_state r)) = [] /\
  pty_written (world (r_state (write "-exec-run" (r_state r)))) =
    [(3, "-exec-run" ++ NL)].
Proof.
  destruct (missing_executable_leaks_terminal
              repr no_file spawn (VStr "/nonexistent/path") session0
              eq_refl eq_refl (or_introl eq_refl))
    as (_ & _ & _ & _ & Hfds & Hm & _ & _ & Hsp & Hw).
  split; [|split; [|split]].
  - exact Hm.
  - exact Hfds.
  - exact Hsp.
  - exact (proj2 (Hw "-exec-run")).
Defined.

Lemma session_id_ignores_outer_slashes_witness :
  session_id_of_path "/" = "default" /\
  starts_with "/" (session_id_of_path "//work//") = false /\
  session_id_of_path "/work" = "work" /\
  session_id_of_path "/work/" = "work".
Proof.
  destruct session_id_ignores_outer_slashes as (Hshort & Hlong & Hsame).
  split; [|split; [|split]].
  - apply Hshort. apply Nat.le_refl.
  - apply (Hlong "//work//"). cbn. apply Nat.lt_1_2 || (repeat constructor).
  - apply (Hsame "work");
      [intros H; discriminate H | reflexivity | reflexivity].
  - apply (Hsame "work");
      [intros H; discriminate H | reflexivity | reflexivity].
Defined.

Lemma stop_is_idempotent_witness :
  master_fd (wrapper (r_state (stop started))) = None /\
  ~ In 3 (open_fds (world (r_state (stop started)))) /\
  terminated (world (r_state (stop started))) = [4242] /\
  stop (r_state (stop started)) = mkRun (inr tt) (r_state (stop started)) [].
Proof.
  destruct (stop_is_idempotent parse started)
    as (_ & _ & _ & _ & Hfd & Hpid & Hagain & _).
  destruct (Hfd 2 eq_refl) as (Hnone & Hclosed).
  split; [exact Hnone|].
  split; [exact Hclosed|].
  split; [exact (Hpid 4242 eq_refl)|exact Hagain].
Defined.

Lemma spawn_failure_leaves_stale_descriptor_witness :
  let r := start repr no_file spawn_fails VNone session0 in
  master_fd (wrapper (r_state r)) = Some 3 /\
  open_fds (world (r_state r)) = [0; 1; 2] /\
  r_res (write "-exec-run" (r_state r)) =
    inl (Exn OSError "Bad file descriptor").
Proof.
  destruct (spawn_failure_leaves_stale_descriptor
              repr no_file spawn_fails VNone session0 _
              (or_introl eq_refl) (fun H => False_ind _ (diff_false_true H))
              eq_refl)
    as (_ & Hfds & Hm & _ & _ & _ & _ & _ & Hw).
  split; [exact Hm|].
  split; [exact Hfds|].
  exact (proj1 (Hw "-exec-run")).
Defined.

Lemma init_resets_context_but_not_location_witness :
  let r := handle_command repr any_file spawn "t3" (VStr "init")
                          (VDict [("executable", VStr "/bin/true")]) paused in
  status (r_state r) = Ready /\
  stack (r_state r) = VList [] /\
  variables (r_state r) = VList [] /\
  location (r_state r) =
    Some (mkLocation (VStr "a.c") (VStr "3") (VStr "main")).
Proof.
  destruct (init_resets_context_but_not_location
              repr any_file spawn "t3"
              (VDict [("executable", VStr "/bin/true")])
              (VStr "/bin/true") paused 4242
              eq_refl (fun _ => eq_refl) eq_refl)
    as (_ & Hst & Hsk & Hv & Hloc & _).
  exact (conj Hst (conj Hsk (conj Hv Hloc))).
Defined.

Lemma second_init_orphans_first_debugger_witness :
  let command := handle_command repr no_file spawn in
  let st2 := r_state (command "t1" (VStr "init") (VDict []) started) in
  let st3 := r_state (command "t2" (VStr "stop") (VDict []) st2) in
  master_fd (wrapper st2) <> Some 3 /\
  In 3 (open_fds (world st3)) /\
  length (spawned (world st3)) = 2 /\
  length (terminated (world st3)) = 1.
Proof.
  destruct (second_init_orphans_first_debugger
              repr no_file spawn "t0" "t1" "t2"
              (VDict []) (VDict []) (VDict []) VNone VNone session0 4242 4242
              (or_introl eq_refl)
              eq_refl (fun H => False_ind _ (diff_false_true H)) eq_refl
              eq_refl (fun H => False_ind _ (diff_false_true H)) eq_refl)
    as (_ & Hne & _ & Hin & Hsp & Htm).
  exact (conj Hne (conj Hin (conj Hsp Htm))).
Defined.


Lemma exit_clears_context_witness :
  let payload := VDict [("reason", VStr "exited-normally")] in
  let event := VDict [("type", VStr "notify"); ("message", VStr "stopped");
                      ("payload", payload)] in
  let r := on_gdb_event repr "t3" event paused in
  status (r_state r) = Exited /\
  location (r_state r) = None /\
  r_trace r =
    [CSend (VDict [("type", VStr "state_update");
                   ("payload", VDict [("status", VStr "Exited");
                                      ("location", VNone);
                                      ("stack", VList []);
                                      ("variables", VList [])])]);
     CSend (log_entry "info" "[Exited] Reason: exited-normally" "t3")].
Proof.
  destruct (exit_clears_context repr "t3"
              (VDict [("type", VStr "notify"); ("message", VStr "stopped");
                      ("payload", VDict [("reason", VStr "exited-normally")])])
              (VDict [("reason", VStr "exited-normally")])
              "exited-normally" paused
              eq_refl eq_refl eq_refl eq_refl eq_refl (or_intror eq_refl))
    as (_ & Hst & Hloc & _ & _ & _ & Htr & _).
  exact (conj Hst (conj Hloc Htr)).
Defined.

Lemma console_is_forwarded_witness :
  let event := VDict [("type", VStr "console"); ("payload", VStr "hello")] in
  let r := on_gdb_event repr "t3" event logged_once in
  r_trace r = [CSend event] /\
  wire (world (r_state r)) =
    (wire (world logged_once) ++ [(1, event)])%list.
Proof.
  destruct (console_is_forwarded repr "t3"
              (VDict [("type", VStr "console"); ("payload", VStr "hello")])
              logged_once eq_refl eq_refl)
    as (_ & _ & Htr & _ & _ & _ & _ & _ & _ & Hwire).
  exact (conj Htr Hwire).
Defined.

Lemma stack_and_locals_results_witness :
  let frames := VList [VDict [("level", VStr "0"); ("func", VStr "main")]] in
  let event := result_event (VStr "stack") (VDict [("stack", frames)])
                            (VInt 101) in
  let bare := result_event (VStr "done") (VDict []) (VInt 102) in
  stack (r_state (on_gdb_event repr "t3" event started)) = frames /\
  variables (r_state (on_gdb_event repr "t3" bare paused)) = VList [].
Proof.
  destruct (stack_and_locals_results repr) as (Hstack & Hlocals).
  split.
  - refine (proj1 (proj2 (proj2
              (Hstack "t3" _ (VStr "stack") _ VNone _ started
                      _ _ _ _ _ _ _ _ _)))); reflexivity.
  - refine (proj1 (proj2 (proj2
              (Hlocals "t3" _ (VStr "done") _ VNone _ paused
                       _ _ _ _ _ _ _ _ _)))); reflexivity.
Defined.

Lemma breakpoint_result_is_announced_witness :
  let bkpt := [("number", VStr "1"); ("file", VStr "a.c");
               ("fullname", VStr "/src/a.c"); ("line", VStr "3")] in
  let event := result_event (VStr "done") (VDict [("bkpt", VDict bkpt)])
                            (VInt 201) in
  r_trace (on_gdb_event repr "t3" event started) =
    [CSend (VDict [("type", VStr "breakpoint_created");
                   ("payload", VDict [("id", VStr "1");
                                      ("file", VStr "/src/a.c");
                                      ("line", VStr "3")])])] /\
  on_gdb_event repr "t3" (result_event (VStr "done") (VDict []) (VInt 201))
               started = mkRun (inr tt) started [].
Proof.
  destruct (breakpoint_result_is_announced repr) as (Hsome & Hnone).
  split.
  - refine (proj1 (proj2 (proj2
              (Hsome "t3" _ (VStr "done") _
                     [("number", VStr "1"); ("file", VStr "a.c");
                      ("fullname", VStr "/src/a.c"); ("line", VStr "3")]
                     started _ _ _ _ _ _ _ _))));
      try reflexivity. intros H. discriminate H.
  - refine (Hnone "t3" _ (VStr "done") [] started _ _ _ _ _ _ _ _);
      reflexivity.
Defined.

Lemma variable_and_memory_results_are_forwarded_witness :
  let chunks := [[("begin", VStr "0x1000"); ("contents", VStr "dead")];
                 [("begin", VStr "0x1002"); ("contents", VStr "beef")]] in
  let event :=
    result_event (VStr "done") (VDict [("memory", VList (map VDict chunks))])
                 (VInt 401) in
  r_trace (on_gdb_event repr "t3" event started) =
    [CSend (memory_read_msg (VStr "0x1000") (VStr "deadbeef"))] /\
  r_trace (on_gdb_event repr "t3"
             (result_event (VStr "done") (VDict [("name", VStr "var1")])
                           (VInt 301)) started) =
    [CSend (var_created_msg [("name", VStr "var1")])].
Proof.
  split.
  - destruct (variable_and_memory_results_are_forwarded
                repr "t3"
                (result_event (VStr "done")
                   (VDict [("memory",
                            VList (map VDict
                              [[("begin", VStr "0x1000");
                                ("contents", VStr "dead")];
                               [("begin", VStr "0x1002");
                                ("contents", VStr "beef")]]))])
                   (VInt 401))
                (VStr "done") _ started
                eq_refl eq_refl eq_refl eq_refl eq_refl eq_refl)
      as (_ & _ & Hmem).
    assert (Hchunks :
              Forall2 (fun cd t => lookup cd "contents" (VStr "") = VStr t)
                [[("begin", VStr "0x1000"); ("contents", VStr "dead")];
                 [("begin", VStr "0x1002"); ("contents", VStr "beef")]]
                ["dead"; "beef"])
      by (repeat constructor).
    rewrite (Hmem _ _ eq_refl eq_refl Hchunks).
    reflexivity.
  - destruct (variable_and_memory_results_are_forwarded
                repr "t3"
                (result_event (VStr "done") (VDict [("name", VStr "var1")])
                              (VInt 301))
                (VStr "done") _ started
                eq_refl eq_refl eq_refl eq_refl eq_refl eq_refl)
      as (Hvar & _).
    rewrite (Hvar eq_refl). reflexivity.
Defined.


Lemma result_without_payload_raises_witness :
  on_gdb_event repr "t3"
    (VDict [("type", VStr "result"); ("message", VStr "done");
            ("payload", VNone)]) paused =
  mkRun (inl (Exn AttributeError
                  "'NoneType' object has no attribute 'get'"))
        paused [].
Proof.
  refine (result_without_payload_raises repr "t3" _ VNone paused _ _ _ _);
    try reflexivity.
  intros d H. discriminate H.
Defined.

Lemma unrecognised_events_are_ignored_witness :
  on_gdb_event repr "t3" VNone paused = mkRun (inr tt) paused [] /\
  on_gdb_event repr "t3"
    (VDict [("type", VStr "target"); ("payload", VStr "x")]) paused =
    mkRun (inr tt) paused [] /\
  on_gdb_event repr "t3"
    (VDict [("type", VStr "notify"); ("message", VStr "thread-created");
            ("payload", VDict [])]) paused = mkRun (inr tt) paused [] /\
  on_gdb_event repr "t3"
    (result_event (VStr "done") (VDict []) (VInt 7)) paused =
    mkRun (inr tt) paused [].
Proof.
  destruct (unrecognised_events_are_ignored repr)
    as (Hnone & Htype & Hnotify & Hresult).
  split; [|split; [|split]].
  - exact (Hnone "t3" VNone paused eq_refl).
  - refine (Htype "t3" _ (VStr "target") paused _ _ _ _); reflexivity.
  - refine (Hnotify "t3" _ (VStr "thread-created") paused _ _ _ _ _);
      reflexivity.
  - refine (Hresult "t3" _ (VStr "done") [] (VInt 7) paused
                    _ _ _ _ _ _ _ _ _ _ _ _ _); reflexivity.
Defined.

Lemma commands_leave_session_untouched_witness :
  let r := handle_command repr no_file spawn "t1" (VStr "next") (VDict [])
                          started in
  (exists out,
      r_state r = set_pty_written (pty_written (world started) ++ out) started)
  /\ (forall data, ~ In (CSend data) (r_trace r)).
Proof.
  refine (commands_leave_session_untouched
            repr no_file spawn "t1" "next" (VDict []) started _ _);
    discriminate.
Defined.

Lemma unknown_action_is_sent_verbatim_witness :
  pty_written
    (world (r_state (handle_command repr no_file spawn "t1"
                       (VStr "-gdb-exit") VNone started))) =
    [(3, "-gdb-exit" ++ NL)] /\
  r_trace (handle_command repr no_file spawn "t1" (VStr "get_context")
             VNone started) =
    [CWrite cmd_stack; CWrite cmd_locals].
Proof.
  destruct (unknown_action_is_sent_verbatim repr no_file spawn)
    as (Hraw & Hctx).
  assert (Hok : channel_ok started) by (left; reflexivity).
  split.
  - rewrite (Hraw "t1" "-gdb-exit" VNone started); [reflexivity | | exact Hok].
    intros H. cbn in H.
    repeat (destruct H as [H|H]; [discriminate H|]). exact H.
  - rewrite (Hctx "t1" VNone started Hok). reflexivity.
Defined.

Lemma missing_arguments_become_None_witness :
  command_of repr (VStr "break") (VDict [("file", VStr "a.c")]) =
    inr "201-break-insert None" /\
  command_of repr (VStr "read_memory") (VDict [("address", VStr "0x1000")]) =
    inr "401-data-read-memory-bytes 0x1000 256" /\
  handle_command repr no_file spawn "t1" (VStr "break") (VStr "main") started =
    mkRun (inl (Exn AttributeError "'str' object has no attribute 'get'"))
          started [].
Proof.
  destruct (missing_arguments_become_None repr no_file spawn)
    as (Hbreak & _ & _ & _ & Hmem & _ & Hbad).
  split; [|split].
  - exact (Hbreak [("file", VStr "a.c")] eq_refl).
  - exact (Hmem [("address", VStr "0x1000")] "0x1000" eq_refl eq_refl).
  - refine (Hbad "t1" "break" (VStr "main") started _ _).
    + right. left. reflexivity.
    + intros d H. discriminate H.
Defined.

Lemma detached_session_delivers_nothing_witness :
  let st' := run_ops repr no_file spawn
               [OLog "info" "waiting" "t1"; OEvent "t2" stopped_event;
                OCommand "t3" (VStr "next") (VDict []); ODetach]
               started in
  websocket st' = None /\ wire (world st') = wire (world started).
Proof.
  refine (detached_session_delivers_nothing repr no_file spawn
            [OLog "info" "waiting" "t1"; OEvent "t2" stopped_event;
             OCommand "t3" (VStr "next") (VDict []); ODetach]
            started _ _); reflexivity.
Defined.

Lemma attach_replaces_transport_witness :
  (websocket (r_state (attach 2 logged_once)) = Some 2 /\
   ws_closed (world (r_state (attach 2 logged_once))) = [1]) /\
  websocket (r_state (attach 1 logged_once)) = None.
Proof.
  destruct attach_replaces_transport as (Hnew & Hdead).
  split.
  - destruct (Hnew logged_once 1 2) as (_ & Hws & Hcl & _);
      [reflexivity | discriminate | reflexivity |].
    exact (conj Hws Hcl).
  - destruct (Hdead logged_once 1) as (_ & Hws & _);
      [right; reflexivity | exact Hws].
Defined.

Lemma undelivered_log_is_replayed_witness :
  let st := set_ws_closed [1] logged_once in
  let r := log "error" "lost?" "t2" st in
  websocket (r_state r) = None /\
  websocket (r_state (attach 2 (r_state r))) = Some 2 /\
  exists recent,
    last_n 10 (log_history (r_state r)) =
    (recent ++ [log_entry "error" "lost?" "t2"])%list.
Proof.
  destruct (undelivered_log_is_replayed
              "error" "lost?" "t2" (set_ws_closed [1] logged_once) 1 2
              eq_refl eq_refl eq_refl)
    as (_ & Hst & _ & Hws & recent & Hrecent & _).
  split; [|split].
  - rewrite Hst. reflexivity.
  - exact Hws.
  - exists recent. exact Hrecent.
Defined.

Lemma bad_message_ends_connection_witness :
  let later := [("t2", inr (VDict [("action", VStr "init")]))] in
  let r := handler repr no_file spawn 1 (("t1", inr (VList [])) :: later)
                   session0 in
  r = handler repr no_file spawn 1 [("t1", inr (VList []))] session0 /\
  r_res r =
    inl (Exn AttributeError "'list' object has no attribute 'get'") /\
  websocket (r_state r) = None /\
  spawned (world (r_state r)) = [] /\
  r_trace r =
    [CSend (VDict [("type", VStr "state_update");
                   ("payload",
                    VDict [("status", VStr "Ready"); ("location", VNone);
                           ("stack", VList []); ("variables", VList [])])])].
Proof.
  intros later r.
  destruct (bad_message_ends_connection repr no_file spawn)
    as (_ & Hstop & _ & Hobject).
  assert (Hlist : forall d, VList [] <> VDict d)
    by (intros d H; discriminate H).
  destruct (Hobject 1 "t1" (VList []) later session0 Hlist)
    as (Hres & Hst & Htr).
  fold r in Hres, Hst, Htr.
  split; [|split; [|split; [|split]]].
  - apply (Hstop 1 [] "t1" (inr (VList [])) later session0).
    right. exists (VList []). split; [reflexivity|exact Hlist].
  - exact Hres.
  - rewrite Hst. reflexivity.
  - rewrite Hst. reflexivity.
  - rewrite Htr. reflexivity.
Defined.

Lemma events_never_touch_the_channel_witness :
  wrapper (r_state (on_gdb_event repr "t2" stopped_event started)) =
  wrapper started.
Proof.
  exact (proj1 (events_never_touch_the_channel repr "t2" stopped_event started)).
Defined.

Lemma read_boundaries_do_not_matter_witness :
  loop_from parse probe [Data "~a"] "" started =
    mkRun (inr (Suspended "~a")) started [] /\
  loop_from parse probe [Data ("~a" ++ NL ++ "~b"); Data ("c" ++ NL)] ""
            started =
  loop_from parse probe [Data (("~a" ++ NL ++ "~b") ++ "c" ++ NL)] "" started.
Proof.
  assert (Hready : loop_ready started).
  { split; [reflexivity|]. exists 2. split; [reflexivity|left; reflexivity]. }
  destruct (read_boundaries_do_not_matter parse) as (Hpart & Hjoin).
  split.
  - rewrite (Hpart probe "~a" [] "" started Hready);
      [reflexivity | discriminate | reflexivity].
  - apply (Hjoin probe ("~a" ++ NL ++ "~b") ("c" ++ NL) [] "" started);
      try discriminate; try exact Hready.
    + intros ev st. reflexivity.
    + intros ev st. reflexivity.
    + exists "~b". reflexivity.
Defined.

Lemma handler_error_delays_following_lines_witness :
  let bare := fun line : string =>
    (inr (VDict [("type", VStr "result"); ("message", VStr line);
                 ("payload", VNone); ("token", VNone)]) : Exc value) in
  loop_from bare (on_gdb_event repr "t2")
            [Data ("^done" ++ NL ++ "*stopped" ++ NL)] "" started =
  mkRun (inr (Suspended ("*stopped" ++ NL))) started [].
Proof.
  assert (Hready : loop_ready started).
  { split; [reflexivity|]. exists 2. split; [reflexivity|left; reflexivity]. }
  intros bare.
  destruct (handler_error_delays_following_lines
              bare (on_gdb_event repr "t2")
              ("^done" ++ NL ++ "*stopped" ++ NL) [] "" started
              "^done" ["*stopped"] ""
              (Exn AttributeError "'NoneType' object has no attribute 'get'")
              started [] Hready)
    as (_ & _ & Hwait);
    [discriminate | reflexivity | reflexivity | reflexivity |].
  exact (Hwait eq_refl eq_refl Hready).
Defined.

Lemma parser_swallows_errors_witness :
  _parse_line parse "~" = VNone /\
  _parse_line (fun _ => inl (Exn OtherError "no parse")) "x" = VNone.
Proof.
  split.
  - destruct (parser_swallows_errors parse) as (_ & _ & _ & Hconsole & _).
    refine (Hconsole "~"
              [("type", VStr "console"); ("message", VNone);
               ("payload", VStr "")] eq_refl eq_refl _).
    intros s Hs H. injection H as H. apply Hs. symmetry. exact H.
  - destruct (parser_swallows_errors
                (fun _ => inl (Exn OtherError "no parse"))) as (Herr & _).
    exact (Herr "x" _ eq_refl).
Defined.

Lemma result_line_is_routed_by_token_witness :
  let frames_of := fun token (_ : string) =>
    (inr (VDict [("type", VStr "result"); ("message", VStr "done");
                 ("payload", VDict [("stack", VList [VStr "main"])]);
                 ("token", token)]) : Exc value) in
  stack (r_state (on_gdb_event repr "t3"
                    (_parse_line (frames_of (VInt 101)) "101^done") paused))
    = VList [VStr "main"] /\
  r_trace (on_gdb_event repr "t3"
             (_parse_line (frames_of (VInt 101)) "101^done") paused) =
    [CSend (VDict [("type", VStr "state_update");
                   ("payload",
                    VDict [("status", VStr "Paused");
                           ("location",
                            VDict [("file", VStr "a.c"); ("line", VStr "3");
                                   ("func", VStr "main")]);
                           ("stack", VList [VStr "main"]);
                           ("variables",
                            VList [VDict [("name", VStr "x");
                                          ("value", VStr "1")]])])])] /\
  on_gdb_event repr "t3" (_parse_line (frames_of VNone) "^done") paused =
    mkRun (inr tt) paused [].
Proof.
  intros frames_of.
  assert (Hrouted :
            on_gdb_event repr "t3"
              (_parse_line (frames_of (VInt 101)) "101^done") paused =
            mkRun (inr tt)
                  (deliver (to_dict (set_stack (VList [VStr "main"]) paused))
                           (set_stack (VList [VStr "main"]) paused))
                  [CSend (to_dict (set_stack (VList [VStr "main"]) paused))]).
  { destruct (result_line_is_routed_by_token
                repr (frames_of (VInt 101)) "t3" "101^done"
                [("type", VStr "result"); ("message", VStr "done");
                 ("payload", VDict [("stack", VList [VStr "main"])]);
                 ("token", VInt 101)]
                (VStr "done") [("stack", VList [VStr "main"])]
                (VList [VStr "main"]) (VInt 101) paused
                eq_refl eq_refl eq_refl eq_refl eq_refl eq_refl eq_refl)
      as [H _].
    exact (H eq_refl). }
  split; [rewrite Hrouted; reflexivity|].
  split; [rewrite Hrouted; reflexivity|].
  destruct (result_line_is_routed_by_token
                repr (frames_of VNone) "t3" "^done"
                [("type", VStr "result"); ("message", VStr "done");
                 ("payload", VDict [("stack", VList [VStr "main"])]);
                 ("token", VNone)]
                (VStr "done") [("stack", VList [VStr "main"])]
                (VList [VStr "main"]) VNone paused
                eq_refl eq_refl eq_refl eq_refl eq_refl eq_refl eq_refl)
      as [_ Hdropped].
    exact (Hdropped eq_refl).
Defined.


Lemma stopped_pauses_and_fetches_context_witness :
  let r := on_gdb_event repr "t2" stopped_event started in
  r_res r = inr tt /\
  status (r_state r) = Paused /\
  location (r_state r) =
    Some (mkLocation (VStr "a.c") (VStr "3") (VStr "main")) /\
  pty_written (world (r_state r)) =
    [(3, "101-stack-list-frames" ++ NL);
     (3, "102-stack-list-locals --simple-values" ++ NL)] /\
  r_trace r =
    [CSend (VDict [("type", VStr "state_update");
                   ("payload",
                    VDict [("status", VStr "Paused");
                           ("location",
                            VDict [("file", VStr "a.c"); ("line", VStr "3");
                                   ("func", VStr "main")]);
                           ("stack", VList []);
                           ("variables", VList [])])]);
     CSend (VDict [("type", VStr "log_event");
                   ("payload",
                    VDict [("level", VStr "info");
                           ("text", VStr "[Paused] breakpoint-hit at a.c:3");
                           ("timestamp", VStr "t2")])]);
     CWrite "101-stack-list-frames";
     CWrite "102-stack-list-locals --simple-values"].
Proof.
  destruct (stopped_pauses_and_fetches_context
              repr "t2" stopped_event stopped_payload (VStr "breakpoint-hit")
              (VDict [("file", VStr "a.c"); ("line", VStr "3");
                      ("func", VStr "main")])
              started
              eq_refl eq_refl eq_refl eq_refl eq_refl eq_refl eq_refl eq_refl
              (fun _ => ex_intro _ _ eq_refl) (or_introl eq_refl))
    as ((Hres & Hst & _ & _ & _ & _ & Hpty & _) & Hframe & _).
  destruct (Hframe _ eq_refl eq_refl) as (Hloc & Htr).
  exact (conj Hres (conj Hst (conj Hloc (conj Hpty Htr)))).
Defined.



Lemma init_missing_executable_reports_error_witness :
  let args := VDict [("executable", VStr "/nonexistent/path")] in
  let r := handle_command repr no_file spawn "t1" (VStr "init") args session0 in
  r_res r = inr tt /\
  status (r_state r) = Ready /\
  spawned (world (r_state r)) = [] /\
  r_trace r =
    [CSend (VDict [("type", VStr "log_event");
                   ("payload",
                    VDict [("level", VStr "error");
                           ("text",
                            VStr "Failed to start GDB: Binary not found: /nonexistent/path");
                           ("timestamp", VStr "t1")])]);
     CSend (VDict [("type", VStr "error");
                   ("payload",
                    VStr "Startup Failed: Binary not found: /nonexistent/path")])]
  /\
  status (r_state (on_gdb_event repr "t2" result_error_event session0)) = Ready
  /\
  spawned (world (r_state (handle_command repr no_file spawn "t1" (VStr "init")
                             (VDict [("executable", VStr "")]) session0))) =
    [(4242, gdb_argv)].
Proof.
  destruct (init_missing_executable_reports_error repr no_file spawn)
    as (Hmissing & Hfail & Hresult & Hnone).
  destruct (Hmissing "t1" (VDict [("executable", VStr "/nonexistent/path")])
                     (VStr "/nonexistent/path") session0
                     eq_refl eq_refl eq_refl)
    as (Hstart & Hres & _ & Hready & _ & _ & _ & _ & Hsp & Htr & _).
  destruct (Hfail "t1" (VDict [("executable", VStr "/nonexistent/path")])
                  (VStr "/nonexistent/path") session0 _ eq_refl Hstart)
    as (_ & Hst & _).
  destruct (Hnone "t1" (VDict [("executable", VStr "")]) (VStr "") session0
                  4242 eq_refl eq_refl eq_refl)
    as (_ & _ & _ & Hspawned & _).
  split; [|split; [|split; [|split; [|split]]]].
  - exact Hres.
  - exact (Hready eq_refl).
  - exact Hsp.
  - exact Htr.
  - exact (Hresult "t2" result_error_event session0 eq_refl).
  - exact Hspawned.
Defined.

Lemma stop_keeps_stale_context_witness :
  let r := handle_command repr no_file spawn "t4" (VStr "stop") (VDict [])
                          paused in
  status (r_state r) = Ready /\
  terminated (world (r_state r)) = [4242] /\
  ~ In 3 (open_fds (world (r_state r))) /\
  r_trace r =
    [CSend (VDict [("type", VStr "state_update");
                   ("payload",
                    VDict [("status", VStr "Ready");
                           ("location",
                            VDict [("file", VStr "a.c"); ("line", VStr "3");
                                   ("func", VStr "main")]);
                           ("stack",
                            VList [VDict [("level", VStr "0");
                                          ("func", VStr "main")]]);
                           ("variables",
                            VList [VDict [("name", VStr "x");
                                          ("value", VStr "1")]])])])].
Proof.
  destruct (stop_keeps_stale_context repr no_file spawn "t4" (VDict []) paused)
    as ((_ & _ & _ & _ & Hst & _) & Hsome & _ & Hterm & Hclosed).
  destruct (Hsome (VStr "a.c") (VStr "3") (VStr "main") eq_refl) as (Htr & _).
  split; [exact Hst|].
  split; [exact (Hterm 4242 eq_refl)|].
  split; [exact (Hclosed 2 eq_refl)|].
  exact Htr.
Defined.

Lemma empty_executable_path_is_not_checked :
  let args := VDict [("executable", VStr "")] in
  let r := handle_command repr no_file spawn "t1" (VStr "init") args session0 in
  no_file (VStr "") = inr false /\
  r_res (start repr no_file spawn (VStr "") session0) = inr tt /\
  spawned (world (r_state r)) = [(4242, gdb_argv)] /\
  r_trace r =
    [CSend (VDict [("type", VStr "state_update");
                   ("payload",
                    VDict [("status", VStr "Ready"); ("location", VNone);
                           ("stack", VList []); ("variables", VList [])])])] /\
  ~ (exists payload,
        In (CSend (VDict [("type", VStr "error"); ("payload", payload)]))
           (r_trace r)).
Proof.
  intros args r.
  assert (Hr : r =
               mkRun (inr tt) (r_state r)
                 [CSend (VDict [("type", VStr "state_update");
                                ("payload",
                                 VDict [("status", VStr "Ready");
                                        ("location", VNone);
                                        ("stack", VList []);
                                        ("variables", VList [])])])])
    by (vm_compute; reflexivity).
  split; [reflexivity|].
  split; [vm_compute; reflexivity|].
  split; [vm_compute; reflexivity|].
  split; [rewrite Hr; reflexivity|].
  intros [payload H]. rewrite Hr in H. cbn [r_trace In] in H.
  destruct H as [H|[]]. discriminate H.
Qed.
